(** * Anki heatmap widget: a shallow embedding of [anki_heatmap.py]

    The widget reads the review log of an Anki collection, buckets it by
    calendar day, derives streak statistics and lays the days out on a
    7-row grid.  This file embeds the date arithmetic the script relies on
    (the [datetime] library), the review-count dictionary, the aggregation
    loop of [load_anki_data], the two streak computations, the grid
    addressing used by [draw_heatmap] and [on_heatmap_motion], the colour
    ramp and the command-line dispatch, and proves properties of them. *)

From Stdlib Require Import ZArith List Bool Ascii String Lia Permutation
  Sorted QArith Qminmax Qround Lqa.
Import ListNotations.

Local Open Scope Z_scope.

(** ** Exceptions

    Python exceptions are values of [exn]; a computation that may raise
    returns a [result]. *)

Inductive exn_class : Set :=
  | ValueError
  | OverflowError
  | ZeroDivisionError
  | AttributeError
  | OperationalError
  | OSError.

Record exn : Set := mkExn { exn_kind : exn_class; exn_msg : string }.

Inductive result (A : Type) : Type :=
  | Ok (a : A)
  | Raise (e : exn).

Arguments Ok {A} a.
Arguments Raise {A} e.

Definition bind {A B : Type} (m : result A) (k : A -> result B) : result B :=
  match m with
  | Ok a => k a
  | Raise e => Raise e
  end.

Notation "x <- m ;; k" := (bind m (fun x => k))
  (at level 61, m at next level, right associativity).

(** ** The [datetime] library

    The definitions follow CPython's [Lib/_pydatetime.py]; Python's [//] and
    [%] are floor division and modulus, that is [Z.div] and [Z.modulo]. *)

Module PyDate.

Definition MINYEAR : Z := 1.
Definition MAXYEAR : Z := 9999.
Definition MAXORDINAL : Z := 3652059.

Record date : Set := mkDate { year : Z; month : Z; day : Z }.

Definition is_leap (y : Z) : bool :=
  (y mod 4 =? 0) && (negb (y mod 100 =? 0) || (y mod 400 =? 0)).

Definition days_before_year (y : Z) : Z :=
  let y1 := y - 1 in
  y1 * 365 + y1 / 4 - y1 / 100 + y1 / 400.

(** [_DAYS_IN_MONTH], indexed from 1. *)
Definition DAYS_IN_MONTH (m : Z) : Z :=
  match m with
  | 1 => 31 | 2 => 28 | 3 => 31 | 4 => 30 | 5 => 31 | 6 => 30
  | 7 => 31 | 8 => 31 | 9 => 30 | 10 => 31 | 11 => 30 | 12 => 31
  | _ => 0
  end.

(** [_DAYS_BEFORE_MONTH], indexed from 1. *)
Definition DAYS_BEFORE_MONTH (m : Z) : Z :=
  match m with
  | 1 => 0 | 2 => 31 | 3 => 59 | 4 => 90 | 5 => 120 | 6 => 151
  | 7 => 181 | 8 => 212 | 9 => 243 | 10 => 273 | 11 => 304 | 12 => 334
  | _ => 0
  end.

Definition days_in_month (y m : Z) : Z :=
  if (m =? 2) && is_leap y then 29 else DAYS_IN_MONTH m.

Definition days_before_month (y m : Z) : Z :=
  DAYS_BEFORE_MONTH m + (if (2 <? m) && is_leap y then 1 else 0).

Definition ymd2ord (y m d : Z) : Z :=
  days_before_year y + days_before_month y m + d.

Definition DI400Y : Z := 146097.
Definition DI100Y : Z := 36524.
Definition DI4Y : Z := 1461.

(** The month and day of the [n]-th day (from 0) of a year, as the tail of
    [_ord2ymd] computes them from the estimate [(n + 50) >> 5]. *)
Definition month_day_of_yday (leapyear : bool) (n : Z) : Z * Z :=
  let m := Z.shiftr (n + 50) 5 in
  let preceding :=
    DAYS_BEFORE_MONTH m + (if (2 <? m) && leapyear then 1 else 0) in
  if n <? preceding then
    let m' := m - 1 in
    let preceding' :=
      preceding
      - (DAYS_IN_MONTH m' + (if (m' =? 2) && leapyear then 1 else 0)) in
    (m', n - preceding' + 1)
  else (m, n - preceding + 1).

Definition ord2ymd (n : Z) : date :=
  let n := n - 1 in
  let n400 := n / DI400Y in
  let n := n mod DI400Y in
  let y := n400 * 400 + 1 in
  let n100 := n / DI100Y in
  let n := n mod DI100Y in
  let n4 := n / DI4Y in
  let n := n mod DI4Y in
  let n1 := n / 365 in
  let n := n mod 365 in
  let y := y + n100 * 100 + n4 * 4 + n1 in
  if (n1 =? 4) || (n100 =? 4) then mkDate (y - 1) 12 31
  else
    let leapyear := (n1 =? 3) && (negb (n4 =? 24) || (n100 =? 3)) in
    let (m, d) := month_day_of_yday leapyear n in
    mkDate y m d.

(** The checks of the [date] constructor ([_check_date_fields]). *)
Definition valid_date (d : date) : bool :=
  (MINYEAR <=? year d) && (year d <=? MAXYEAR)
  && (1 <=? month d) && (month d <=? 12)
  && (1 <=? day d) && (day d <=? days_in_month (year d) (month d)).

Definition toordinal (d : date) : Z := ymd2ord (year d) (month d) (day d).
Definition fromordinal (n : Z) : date := ord2ymd n.

(** [date.weekday()]: Monday is 0, Sunday is 6. *)
Definition weekday (d : date) : Z := (toordinal d + 6) mod 7.

(** [d + timedelta(days=k)]; [d - timedelta(days=k)] is [add_days d (-k)]. *)
Definition add_days (d : date) (k : Z) : result date :=
  let o := toordinal d + k in
  if (0 <? o) && (o <=? MAXORDINAL) then Ok (fromordinal o)
  else Raise (mkExn OverflowError "date value out of range").

(** [(d2 - d1).days] *)
Definition days_between (d2 d1 : date) : Z := toordinal d2 - toordinal d1.

(** Comparison of dates is the comparison of [(year, month, day)]. *)
Definition date_compare (a b : date) : comparison :=
  match year a ?= year b with
  | Eq => match month a ?= month b with
          | Eq => day a ?= day b
          | c => c
          end
  | c => c
  end.

Definition date_gt (a b : date) : bool :=
  match date_compare a b with Gt => true | _ => false end.

Definition date_eqb (a b : date) : bool :=
  match date_compare a b with Eq => true | _ => false end.

End PyDate.

Import PyDate.

(** ** Date strings: [strftime("%Y-%m-%d")] and [strptime(_, "%Y-%m-%d")] *)

Module DateString.

Definition digit_char (n : Z) : ascii := ascii_of_N (48 + Z.to_N n).

Definition is_digit (c : ascii) : bool :=
  let n := N_of_ascii c in ((48 <=? n) && (n <=? 57))%N.

Definition digit_value (c : ascii) : Z := Z.of_N (N_of_ascii c) - 48.

Definition in_range (lo hi : Z) (c : ascii) : bool :=
  is_digit c && (lo <=? digit_value c) && (digit_value c <=? hi).

(** [n] in decimal, zero-filled to [w] digits (the low [w] digits). *)
Fixpoint zfill (w : nat) (n : Z) : string :=
  match w with
  | O => EmptyString
  | S w' => zfill w' (n / 10) ++ String (digit_char (n mod 10)) EmptyString
  end.

(** [d.strftime("%Y-%m-%d")]: the year with century on four digits, the
    month and the day of the month on two, as the library documents the
    directives (years from 1000 on print so on every platform). *)
Definition strftime (d : date) : string :=
  zfill 4 (year d) ++ "-" ++ zfill 2 (month d) ++ "-" ++ zfill 2 (day d).

(** The directives of [_strptime.TimeRE]:
    [%Y] is [\d\d\d\d], [%m] is [1[0-2]|0[1-9]|[1-9]] and
    [%d] is [3[0-1]|[1-2]\d|0[1-9]|[1-9]| [1-9]].  A group returns its
    matches in the order the alternatives are tried, each with the
    remaining input. *)
Definition re_Y (s : string) : list (Z * string) :=
  match s with
  | String a (String b (String c (String d rest))) =>
      if is_digit a && is_digit b && is_digit c && is_digit d
      then [(1000 * digit_value a + 100 * digit_value b
             + 10 * digit_value c + digit_value d, rest)]
      else []
  | _ => []
  end.

Definition re_m (s : string) : list (Z * string) :=
  (match s with
   | String "1" (String c rest) =>
       if in_range 0 2 c then [(10 + digit_value c, rest)] else []
   | _ => []
   end)
  ++ (match s with
      | String "0" (String c rest) =>
          if in_range 1 9 c then [(digit_value c, rest)] else []
      | _ => []
      end)
  ++ (match s with
      | String c rest => if in_range 1 9 c then [(digit_value c, rest)] else []
      | _ => []
      end).

Definition re_d (s : string) : list (Z * string) :=
  (match s with
   | String "3" (String c rest) =>
       if in_range 0 1 c then [(30 + digit_value c, rest)] else []
   | _ => []
   end)
  ++ (match s with
      | String a (String c rest) =>
          if in_range 1 2 a && is_digit c
          then [(10 * digit_value a + digit_value c, rest)] else []
      | _ => []
      end)
  ++ (match s with
      | String "0" (String c rest) =>
          if in_range 1 9 c then [(digit_value c, rest)] else []
      | _ => []
      end)
  ++ (match s with
      | String c rest => if in_range 1 9 c then [(digit_value c, rest)] else []
      | _ => []
      end)
  ++ (match s with
      | String " " (String c rest) =>
          if in_range 1 9 c then [(digit_value c, rest)] else []
      | _ => []
      end).

Definition re_lit (c : ascii) (s : string) : list string :=
  match s with
  | String c' rest => if Ascii.eqb c c' then [rest] else []
  | EmptyString => []
  end.

(** The matches of [-%m-%d], in the order backtracking finds them: the
    month, the day and the unconverted remainder. *)
Definition re_md (s1 : string) : list (Z * Z * string) :=
  flat_map (fun s2 =>
    flat_map (fun '(m, s3) =>
      flat_map (fun s4 =>
        map (fun '(d, s5) => (m, d, s5)) (re_d s4))
      (re_lit "-" s3))
    (re_m s2))
  (re_lit "-" s1).

(** The first match of the compiled format: the fields and the
    unconverted remainder. *)
Definition re_match (s : string) : option (Z * Z * Z * string) :=
  hd_error
    (flat_map (fun '(y, s1) =>
       map (fun '(m, d, s5) => (y, m, d, s5)) (re_md s1))
     (re_Y s)).

Definition value_error (msg : string) : exn := mkExn ValueError msg.

(** [datetime.strptime(s, "%Y-%m-%d").date()] *)
Definition strptime (s : string) : result date :=
  match re_match s with
  | None => Raise (value_error "time data does not match format")
  | Some (y, m, d, rest) =>
      match rest with
      | EmptyString =>
          if valid_date (mkDate y m d) then Ok (mkDate y m d)
          else Raise (value_error "day is out of range for month")
      | _ => Raise (value_error "unconverted data remains")
      end
  end.

End DateString.

Import DateString.


(** ** The review-count dictionary

    [self.review_counts] is a Python [dict] from date strings to counts: an
    association list in insertion order whose keys are pairwise distinct. *)

Module PyDict.

Definition dict : Type := list (string * Z).

Definition keys (d : dict) : list string := map fst d.
Definition values (d : dict) : list Z := map snd d.

(** [d.get(k)], [None] when [k not in d] *)
Fixpoint dict_get (k : string) (d : dict) : option Z :=
  match d with
  | [] => None
  | (k', v) :: d' => if String.eqb k k' then Some v else dict_get k d'
  end.

(** [d[k] = v]: an existing key keeps its position, a new one goes last. *)
Fixpoint dict_set (k : string) (v : Z) (d : dict) : dict :=
  match d with
  | [] => [(k, v)]
  | (k', v') :: d' =>
      if String.eqb k k' then (k', v) :: d' else (k', v') :: dict_set k v d'
  end.

(** [not d] *)
Definition is_empty (d : dict) : bool :=
  match d with [] => true | _ => false end.

(** The invariant of a [dict]: no key occurs twice. *)
Definition wf (d : dict) : Prop := NoDup (keys d).

(** [sum(xs)] *)
Definition sum (xs : list Z) : Z := fold_left Z.add xs 0.

(** [max(xs)] of a nonempty list *)
Definition max_of (x : Z) (xs : list Z) : Z := fold_left Z.max xs x.

(** [sorted(xs)] on strings: ascending in the code-point order of [str]. *)
Fixpoint insert (x : string) (l : list string) : list string :=
  match l with
  | [] => [x]
  | y :: l' => if String.leb x y then x :: l else y :: insert x l'
  end.

Definition sorted (l : list string) : list string := fold_right insert [] l.

(** [range(a, b)] *)
Definition range (a b : Z) : list Z :=
  map (fun i => a + Z.of_nat i) (seq 0 (Z.to_nat (b - a))).

End PyDict.

Import PyDict.

(** ** Streaks ([calculate_current_streak], [calculate_longest_streak])

    [today] is what [datetime.datetime.now().date()] returns when the method
    runs. *)

Section Streaks.

Variable review_counts : dict.

(** The body of [for i in range(0, 30)], from index [i] on, with the
    streak counted so far; [break] returns it. *)
Fixpoint streak_walk (today : date) (idx : list Z) (streak : Z)
  : result Z :=
  match idx with
  | [] => Ok streak
  | i :: idx' =>
      check_date <- add_days today (- i) ;;
      let date_str := strftime check_date in
      match dict_get date_str review_counts with
      | Some c =>
          if 0 <? c then streak_walk today idx' (streak + 1)
          else Ok streak
      | None => Ok streak
      end
  end.

Definition calculate_current_streak (today : date) : result Z :=
  if is_empty review_counts then Ok 0
  else streak_walk today (range 0 30) 0.

(** The body of [for i in range(1, len(dates))]: [prev] is [dates[i-1]]
    and the head of [rest] is [dates[i]]. *)
Fixpoint longest_scan (prev : string) (rest : list string)
    (max_streak current_streak : Z) : result Z :=
  match rest with
  | [] => Ok (Z.max max_streak current_streak)
  | cur :: rest' =>
      date1 <- strptime prev ;;
      date2 <- strptime cur ;;
      if days_between date2 date1 =? 1
      then longest_scan cur rest' max_streak (current_streak + 1)
      else longest_scan cur rest' (Z.max max_streak current_streak) 1
  end.

Definition calculate_longest_streak : result Z :=
  if is_empty review_counts then Ok 0
  else
    match sorted (keys review_counts) with
    | [] => Ok 0
    | first :: rest => longest_scan first rest 0 1
    end.

End Streaks.

(** ** The collection locator ([find_anki_collection])

    The file system as the locator sees it: the home directory
    [os.path.expanduser] answers, [os.path.exists], [os.path.isdir], and
    [os.listdir], which answers the names in a directory in the order the
    system gives them, or fails with [OSError]. *)

Record filesystem : Type :=
  mkFs { home_dir : string;
         path_exists : string -> bool;
         path_isdir : string -> bool;
         listdir : string -> option (list string) }.

(** What the locator answers: its return value, or the failure of
    [os.listdir] ([OSError] or one of its subclasses), which nothing in it
    catches. *)
Inductive os_result (A : Type) : Type :=
  | Done (a : A)
  | ListingFailed.

Arguments Done {A} a.
Arguments ListingFailed {A}.

Definition starts_with_sep (s : string) : bool :=
  match s with
  | String c _ => Ascii.eqb c "/"
  | EmptyString => false
  end.

Fixpoint ends_with_sep (s : string) : bool :=
  match s with
  | EmptyString => false
  | String c EmptyString => Ascii.eqb c "/"
  | String _ rest => ends_with_sep rest
  end.

(** [os.path.join(path, b)] of [posixpath]; with more arguments it is
    applied from the left. *)
Definition path_join (path b : string) : string :=
  if starts_with_sep b then b
  else if String.eqb path "" || ends_with_sep path then path ++ b
  else path ++ "/" ++ b.

Definition anki2_dir (fs : filesystem) : string :=
  path_join (home_dir fs) ".local/share/Anki2".

(** The three paths [possible_paths] starts with. *)
Definition common_paths (fs : filesystem) : list string :=
  [ path_join (home_dir fs) ".local/share/Anki2/User 1/collection.anki2";
    path_join (home_dir fs) "Documents/Anki/User 1/collection.anki2";
    path_join (home_dir fs) "Anki/User 1/collection.anki2" ].

(** The paths the loop over [os.listdir(anki2_dir)] appends. *)
Definition profile_paths (fs : filesystem) (names : list string)
  : list string :=
  map (fun profile_dir =>
         path_join (path_join (anki2_dir fs) profile_dir) "collection.anki2")
      (filter (fun profile_dir =>
                 path_isdir fs (path_join (anki2_dir fs) profile_dir))
              names).

Definition find_anki_collection (fs : filesystem)
  : os_result (option string) :=
  let possible_paths := common_paths fs in
  if path_exists fs (anki2_dir fs) then
    match listdir fs (anki2_dir fs) with
    | Some names =>
        Done (find (path_exists fs) (possible_paths ++ profile_paths fs names))
    | None => ListingFailed
    end
  else Done (find (path_exists fs) possible_paths).

(** ** The review log and its aggregation ([load_anki_data]) *)

(** A row of [revlog]: the millisecond identifier of Anki 2.1, and the day
    number older layouts store.  Only the columns named by the table are
    read, and both hold integers (in Anki's schema [id] is the integer
    primary key).  A table lists its rows in the order SQLite reads
    them. *)
Record revlog_row : Set := mkRow { row_id : Z; row_day : Z }.

Record revlog_table : Set :=
  mkTable { column_names : list string; table_rows : list revlog_row }.

(** The statements the method sends to SQLite, any of which may fail. *)
Inductive sql_stage : Set :=
  | Connect
  | SelectMaster
  | PragmaTableInfo
  | SelectRevlog.

Definition sql_stage_eqb (a b : sql_stage) : bool :=
  match a, b with
  | Connect, Connect | SelectMaster, SelectMaster
  | PragmaTableInfo, PragmaTableInfo | SelectRevlog, SelectRevlog => true
  | _, _ => false
  end.

(** A collection file: its [revlog] table when it has one, and the
    statement at which SQLite reports an error (unreadable or corrupt
    file, locked database), if any, with the error's text.

    The last two fields are the choices SQL leaves to the engine, which
    matter for a table with both an [id] and a [day] column: the row of a
    group (by its index, modulo the size of the group) on which an
    expression outside the aggregate is evaluated, and the order of result
    rows with equal [ORDER BY] keys (by a rank of the group). *)
Record database : Set :=
  mkDatabase { revlog : option revlog_table;
               fault : option (sql_stage * string);
               bare_row : list revlog_row -> nat;
               tie_rank : Z -> Z }.

(** What the method reads from outside: the clock, the local time zone
    (seconds east of UTC at a given instant), the file system the locator
    searches and what [sqlite3.connect] opens for a URI. *)
Record environment : Type :=
  mkEnv { clock : date;
          utcoffset : Z -> Z;
          files : filesystem;
          sqlite3_connect : string -> database }.

(** SQLite's integer [/] truncates toward zero. *)
Definition sql_day_of_id (id : Z) : Z := Z.quot (Z.quot id 1000) 86400.

(** [SELECT day, COUNT( * ) ... GROUP BY day ORDER BY day]: one row per
    distinct day, in ascending order, with the number of log rows of that
    day. *)
Fixpoint count_insert (d : Z) (groups : list (Z * Z)) : list (Z * Z) :=
  match groups with
  | [] => [(d, 1)]
  | (d', c) :: g =>
      if d <? d' then (d, 1) :: groups
      else if d =? d' then (d', c + 1) :: g
      else (d', c) :: count_insert d g
  end.

Definition group_count (days : list Z) : list (Z * Z) :=
  fold_left (fun g d => count_insert d g) days [].

Definition sql_exec (db : database) (st : sql_stage) : result unit :=
  match fault db with
  | Some (st', msg) =>
      if sql_stage_eqb st st' then Raise (mkExn OperationalError msg)
      else Ok tt
  | None => Ok tt
  end.

(** ['id' in column_names] *)
Definition mem_string (s : string) (l : list string) : bool :=
  existsb (String.eqb s) l.

(** SQLite matches a column name without regard to the case of ASCII
    letters. *)
Definition ascii_lower (c : ascii) : ascii :=
  let n := nat_of_ascii c in
  if (Nat.leb 65 n && Nat.leb n 90)%bool then ascii_of_nat (n + 32) else c.

Fixpoint sql_name_eqb (a b : string) : bool :=
  match a, b with
  | EmptyString, EmptyString => true
  | String x a', String y b' =>
      Ascii.eqb (ascii_lower x) (ascii_lower y) && sql_name_eqb a' b'
  | _, _ => false
  end.

Definition has_column (name : string) (l : list string) : bool :=
  existsb (sql_name_eqb name) l.

(** The first query on a table that also has a [day] column.  SQLite
    resolves the name in [GROUP BY day] to the stored column before the
    alias, and the name in [ORDER BY day] to the alias: the rows are
    grouped on the stored day, each group gives the computed day of one of
    its rows with the size of the group, and the result is ordered by the
    computed day. *)
Fixpoint group_insert (r : revlog_row) (groups : list (Z * list revlog_row))
  : list (Z * list revlog_row) :=
  match groups with
  | [] => [(row_day r, [r])]
  | (d', rs) :: g =>
      if row_day r <? d' then (row_day r, [r]) :: groups
      else if row_day r =? d' then (d', rs ++ [r]) :: g
      else (d', rs) :: group_insert r g
  end.

Definition group_rows (rows : list revlog_row) : list (Z * list revlog_row) :=
  fold_left (fun g r => group_insert r g) rows [].

(** The result row of a group, with the rank that orders it among equal
    computed days. *)
Definition group_result (db : database) (g : Z * list revlog_row)
  : Z * Z * Z :=
  let rs := snd g in
  let r := nth (bare_row db rs mod List.length rs) rs (mkRow 0 0) in
  (sql_day_of_id (row_id r), tie_rank db (fst g), Z.of_nat (List.length rs)).

Definition result_before (x y : Z * Z * Z) : bool :=
  let '(d, k, _) := x in
  let '(d', k', _) := y in
  (d <? d') || ((d =? d') && (k <? k')).

Fixpoint order_insert (x : Z * Z * Z) (l : list (Z * Z * Z))
  : list (Z * Z * Z) :=
  match l with
  | [] => [x]
  | y :: l' => if result_before x y then x :: l else y :: order_insert x l'
  end.

Definition order_by_day (l : list (Z * Z * Z)) : list (Z * Z * Z) :=
  fold_left (fun acc x => order_insert x acc) l [].

Definition group_by_stored_day (db : database) (rows : list revlog_row)
  : list (Z * Z) :=
  map (fun x => (fst (fst x), snd x))
      (order_by_day (map (group_result db) (group_rows rows))).

(** The review-history query: the first statement when [column_names] has
    ['id'], the second otherwise. *)
Definition select_revlog (db : database) (t : revlog_table)
  : result (list (Z * Z)) :=
  _ <- sql_exec db SelectRevlog ;;
  if mem_string "id" (column_names t)
  then
    if has_column "day" (column_names t)
    then Ok (group_by_stored_day db (table_rows t))
    else
      Ok (group_count (map (fun r => sql_day_of_id (row_id r)) (table_rows t)))
  else if has_column "day" (column_names t)
  then Ok (group_count (map row_day (table_rows t)))
  else Raise (mkExn OperationalError "no such column: day").

(** [datetime.datetime.fromtimestamp(t)], reduced to its date: the local
    civil date of the instant [t] seconds after the epoch, on Linux with
    the GNU C library.  It raises [OverflowError] outside the platform's
    [time_t] (64 bits); [OSError] when [localtime] fails, which it does
    with [EOVERFLOW] when the year less 1900 does not fit the 32-bit
    [tm_year]; and [ValueError] when the year leaves [MINYEAR..MAXYEAR],
    or when the instant a day earlier, which the constructor converts as
    well to detect a repeated local time, falls before year 1 (the text of
    that error names the year; the loop catches it and nothing shows it).
    [fromordinal] gives the year of every day number, before year 1 too,
    by the 400-year cycle. *)
Definition EPOCH_ORDINAL : Z := 719163.

Definition localtime_overflow : exn :=
  mkExn OSError "[Errno 75] Value too large for defined data type".

Definition fromtimestamp (tz : Z -> Z) (t : Z) : result date :=
  if (t <? - 2 ^ 63) || (2 ^ 63 <=? t)
  then Raise (mkExn OverflowError "timestamp out of range for platform time_t")
  else
    let o := EPOCH_ORDINAL + (t + tz t) / 86400 in
    let tm_year := year (fromordinal o) - 1900 in
    if (tm_year <? - 2 ^ 31) || (2 ^ 31 <=? tm_year)
    then Raise localtime_overflow
    else if (1 <=? o) && (o <=? MAXORDINAL) then
      let probe := EPOCH_ORDINAL + (t - 86400 + tz (t - 86400)) / 86400 in
      if 1 <=? probe then Ok (fromordinal o)
      else Raise (mkExn ValueError "year is out of range")
    else Raise (mkExn ValueError "year is out of range").

(** [except (ValueError, OverflowError)] *)
Definition is_conversion_error (e : exn) : bool :=
  match exn_kind e with
  | ValueError | OverflowError => true
  | _ => false
  end.

(** The loop over the fetched rows.  It returns the dictionary as the loop
    leaves it and the exception that escaped the loop, if one did. *)
Fixpoint process_rows (tz : Z -> Z) (rows : list (Z * Z)) (counts : dict)
  : dict * option exn :=
  match rows with
  | [] => (counts, None)
  | (day_timestamp, count) :: rows' =>
      match fromtimestamp tz (day_timestamp * 86400) with
      | Ok date_obj =>
          let date_str := strftime date_obj in
          if String.prefix "2025-" date_str
          then process_rows tz rows' (dict_set date_str count counts)
          else process_rows tz rows' counts
      | Raise e =>
          if is_conversion_error e then process_rows tz rows' counts
          else (counts, Some e)
      end
  end.

(** ** The widget's state

    The labels hold Pango markup; the model keeps which message a label
    shows and the values formatted into it. *)

Inductive stats_markup : Set :=
  | LoadingStatistics
  | CollectionNotFound
  | RevlogNotFound
  | ErrorMessage (msg : string)
  | Statistics (today_reviews current longest total : Z)
  | NoReviewData.

Inductive range_markup : Set :=
  | LoadingDateRange
  | Displaying (start_date today : date).

(** The attributes of [AnkiHeatmapWidget] the methods below touch; the three
    statistics do not exist until a load assigns them. *)
Record widget : Type :=
  mkWidget { review_counts : dict;
             current_streak : option Z;
             longest_streak : option Z;
             total_reviews : option Z;
             stats_label : stats_markup;
             date_range_label : range_markup }.

Definition set_review_counts (d : dict) (w : widget) : widget :=
  mkWidget d (current_streak w) (longest_streak w) (total_reviews w)
           (stats_label w) (date_range_label w).

Definition set_current_streak (n : Z) (w : widget) : widget :=
  mkWidget (review_counts w) (Some n) (longest_streak w) (total_reviews w)
           (stats_label w) (date_range_label w).

Definition set_longest_streak (n : Z) (w : widget) : widget :=
  mkWidget (review_counts w) (current_streak w) (Some n) (total_reviews w)
           (stats_label w) (date_range_label w).

Definition set_total_reviews (n : Z) (w : widget) : widget :=
  mkWidget (review_counts w) (current_streak w) (longest_streak w) (Some n)
           (stats_label w) (date_range_label w).

Definition set_stats_label (m : stats_markup) (w : widget) : widget :=
  mkWidget (review_counts w) (current_streak w) (longest_streak w)
           (total_reviews w) m (date_range_label w).

Definition set_date_range_label (m : range_markup) (w : widget) : widget :=
  mkWidget (review_counts w) (current_streak w) (longest_streak w)
           (total_reviews w) (stats_label w) m.

(** The widget as [setup_ui] leaves it, before the first load. *)
Definition initial_widget : widget :=
  mkWidget [] None None None LoadingStatistics LoadingDateRange.

(** Methods mutate [self] and may raise: a state and error monad. *)
Definition M (A : Type) : Type := widget -> widget * result A.

Definition retM {A : Type} (a : A) : M A := fun w => (w, Ok a).

Definition bindM {A B : Type} (m : M A) (k : A -> M B) : M B :=
  fun w =>
    match m w with
    | (w', Ok a) => k a w'
    | (w', Raise e) => (w', Raise e)
    end.

Definition liftM {A : Type} (r : result A) : M A := fun w => (w, r).

Definition getM : M widget := fun w => (w, Ok w).

Definition modifyM (f : widget -> widget) : M unit := fun w => (f w, Ok tt).

Notation "x <~ m ;; k" := (bindM m (fun x => k))
  (at level 61, m at next level, right associativity).

Definition attribute (o : option Z) (name : string) : result Z :=
  match o with
  | Some v => Ok v
  | None => Raise (mkExn AttributeError name)
  end.

(** ** Labels ([update_date_range_label], [update_stats_label]) *)

Definition update_date_range_label (now : date) : M unit :=
  let today := now in
  let start_date := mkDate 2025 1 1 in
  let today :=
    if negb (year today =? 2025) then mkDate 2025 2 26 else today in
  modifyM (set_date_range_label (Displaying start_date today)).

Definition update_stats_label (now : date) : M unit :=
  let today := now in
  let today :=
    if negb (year today =? 2025) then mkDate 2025 2 26 else today in
  let today_str := strftime today in
  self <~ getM ;;
  let today_reviews :=
    match dict_get today_str (review_counts self) with
    | Some c => c
    | None => 0
    end in
  total <~ liftM (attribute (total_reviews self) "total_reviews") ;;
  if 0 <? total then
    current <~ liftM (attribute (current_streak self) "current_streak") ;;
    longest <~ liftM (attribute (longest_streak self) "longest_streak") ;;
    modifyM (set_stats_label (Statistics today_reviews current longest total))
  else modifyM (set_stats_label NoReviewData).

(** ** [load_anki_data] *)

(** The body of the [try] statement.  The two unused locals [today] and
    [one_year_ago] are left out, and so is [conn.close()]; every reading of
    the clock during one load gives [clock env]. *)
Definition load_try (env : environment) (db : database) : M unit :=
  _ <~ liftM (sql_exec db Connect) ;;
  _ <~ liftM (sql_exec db SelectMaster) ;;
  match revlog db with
  | None => modifyM (set_stats_label RevlogNotFound)
  | Some t =>
      _ <~ liftM (sql_exec db PragmaTableInfo) ;;
      rows <~ liftM (select_revlog db t) ;;
      _ <~ (fun self =>
              let (counts, escaped) :=
                process_rows (utcoffset env) rows (review_counts self) in
              (set_review_counts counts self,
               match escaped with Some e => Raise e | None => Ok tt end)) ;;
      self <~ getM ;;
      cs <~ liftM (calculate_current_streak (review_counts self) (clock env)) ;;
      _ <~ modifyM (set_current_streak cs) ;;
      ls <~ liftM (calculate_longest_streak (review_counts self)) ;;
      _ <~ modifyM (set_longest_streak ls) ;;
      _ <~ modifyM (set_total_reviews (sum (values (review_counts self)))) ;;
      _ <~ update_stats_label (clock env) ;;
      update_date_range_label (clock env)
  end.

(** The [try] statement with its [except Exception]. *)
Definition load_from (env : environment) (db : database) (self : widget)
  : widget :=
  match load_try env db self with
  | (self', Ok _) => self'
  | (self', Raise e) => set_stats_label (ErrorMessage (exn_msg e)) self'
  end.

(** The URI the method connects to. *)
Definition collection_uri (collection_path : string) : string :=
  "file:" ++ collection_path ++ "?mode=ro".

(** A call of the method: the widget as the call leaves it, and the class
    of the exception that propagates out of it, if any.  The locator is
    called before the [try], so the failure of its [os.listdir] is not
    caught; [if not collection_path] holds of [None] and of the empty
    string. *)
Definition load_anki_data_call (env : environment) (self : widget)
  : widget * option exn_class :=
  let self := set_review_counts [] self in
  match find_anki_collection (files env) with
  | ListingFailed => (self, Some OSError)
  | Done None => (set_stats_label CollectionNotFound self, None)
  | Done (Some collection_path) =>
      if String.eqb collection_path ""
      then (set_stats_label CollectionNotFound self, None)
      else
        (load_from env
           (sqlite3_connect env (collection_uri collection_path)) self,
         None)
  end.

(** The widget after a call of the method, whether it returned or
    raised. *)
Definition load_anki_data (env : environment) (self : widget) : widget :=
  fst (load_anki_data_call env self).

(** The collection a call opens, when the locator finds one. *)
Definition collection (env : environment) : option database :=
  match find_anki_collection (files env) with
  | Done (Some collection_path) =>
      if String.eqb collection_path "" then None
      else Some (sqlite3_connect env (collection_uri collection_path))
  | _ => None
  end.

(** ** The grid ([get_days_in_2025], [draw_heatmap], [on_heatmap_motion])

    Pixel coordinates and colour components are Python floats; the model
    keeps the integer cell addressing as the code computes it and takes
    colour components as exact rationals. *)

Definition get_days_in_2025 (now : date) : Z :=
  let today := now in
  let start_date := mkDate 2025 1 1 in
  let today :=
    if negb (year today =? 2025) then mkDate 2025 2 26 else today in
  days_between today start_date + 1.

Definition zero_division : exn := mkExn ZeroDivisionError "division by zero".

(** [max_count] of [draw_heatmap] *)
Definition max_count (counts : dict) : Z :=
  match values counts with
  | [] => 1
  | v :: vs => max_of v vs
  end.

(** [min(1.0, count / max_count) if count > 0 else 0] *)
Definition intensity (max_count count : Z) : result Q :=
  if 0 <? count then
    if max_count =? 0 then Raise zero_division
    else Ok (Qmin 1 (inject_Z count / inject_Z max_count))
  else Ok 0%Q.

Definition NEUTRAL : Q * Q * Q := (9 # 10, 9 # 10, 9 # 10)%Q.

Definition cell_color (max_count count : Z) : result (Q * Q * Q) :=
  i <- intensity max_count count ;;
  if 0 <? count then Ok (15 # 100, (4 # 10) + i * (5 # 10), 15 # 100)%Q
  else Ok NEUTRAL.

(** One rectangle of the heatmap: the day it stands for, its column and
    row, its fill colour and whether it gets the outline of today. *)
Record cell : Set :=
  mkCell { cell_date : date;
           cell_col : Z;
           cell_row : Z;
           cell_rgb : Q * Q * Q;
           cell_today : bool }.

(** The body of [for i in range(days_to_show)]; [None] is [continue]. *)
Definition draw_cell (counts : dict) (max_count : Z) (today : date) (i : Z)
  : result (option cell) :=
  let start_date := mkDate 2025 1 1 in
  current_date <- add_days start_date i ;;
  if date_gt current_date today then Ok None
  else
    let date_str := strftime current_date in
    let days_since_start := days_between current_date start_date in
    let week_number := days_since_start / 7 in
    let day_of_week := weekday current_date in
    let col := week_number in
    let row := day_of_week in
    let count :=
      match dict_get date_str counts with Some c => c | None => 0 end in
    rgb <- cell_color max_count count ;;
    Ok (Some (mkCell current_date col row rgb (date_eqb current_date today))).

Fixpoint draw_cells (counts : dict) (max_count : Z) (today : date)
    (idx : list Z) : result (list cell) :=
  match idx with
  | [] => Ok []
  | i :: idx' =>
      c <- draw_cell counts max_count today i ;;
      cs <- draw_cells counts max_count today idx' ;;
      Ok (match c with Some x => x :: cs | None => cs end)
  end.

(** The cells [draw_heatmap] paints in an area [width] pixels wide. *)
Definition draw_heatmap (now : date) (counts : dict) (width : Z)
  : result (list cell) :=
  let days_to_show := Z.min (get_days_in_2025 now) 105 in
  let cols := Z.min (days_to_show / 7 + 1) (width / 20) in
  if cols =? 0 then Raise zero_division
  else
    let today := now in
    let today :=
      if negb (year today =? 2025) then mkDate 2025 2 26 else today in
    draw_cells counts (max_count counts) today (range 0 days_to_show).

(** [on_heatmap_motion] from the point where the pointer has been turned
    into a column and a row: the date the tooltip names, [None] when the
    tooltip is hidden. *)
Definition on_heatmap_motion (now : date) (width : Z) (col row : Z)
  : result (option date) :=
  let days_to_show := Z.min (get_days_in_2025 now) 105 in
  let cols := Z.min (days_to_show / 7) (width / 20) in
  let rows := 7 in
  if cols =? 0 then Raise zero_division
  else if (cols <=? col) || (rows <=? row) then Ok None
  else
    let start_date := mkDate 2025 1 1 in
    let today := now in
    let today :=
      if negb (year today =? 2025) then mkDate 2025 2 26 else today in
    let week_number := cols - 1 - col in
    let day_of_week := row in
    let days_from_start := week_number * 7 + day_of_week in
    cell_date <- add_days start_date days_from_start ;;
    if date_gt cell_date today then Ok None
    else Ok (Some cell_date).

(** The cell a date is painted in, read off the list of painted cells. *)
Definition cell_of_date (cells : list cell) (d : date) : option (Z * Z) :=
  match find (fun c => date_eqb (cell_date c) d) cells with
  | Some c => Some (cell_row c, cell_col c)
  | None => None
  end.

(** ** Effective today

    The date section 4.5 of the specification calls effective today. *)
Definition effective_today (now : date) : date :=
  if year now =? 2025 then now else mkDate 2025 2 26.

(** ** The command line ([__main__]) *)

Inductive action : Set :=
  | InstallAsDesklet
  | SetupDesktopFile
  | RunWidget.

(** [argv] is [sys.argv], the script's name first. *)
Definition main (argv : list string) : list action :=
  if (1 <? Z.of_nat (List.length argv)) then
    match nth_error argv 1 with
    | Some arg =>
        if String.eqb arg "--install" then [InstallAsDesklet]
        else if String.eqb arg "--autostart" then [SetupDesktopFile]
        else []
    | None => []
    end
  else [RunWidget].

(** ** Definitions used by the proofs *)

(** Lexicographic combination of two comparisons. *)
Definition lex (c1 c2 : comparison) : comparison :=
  match c1 with Eq => c2 | _ => c1 end.

(** The dates [strftime] prints on exactly ten characters. *)
Definition printable (d : date) : Prop :=
  0 <= year d <= 9999 /\ 0 <= month d <= 99 /\ 0 <= day d <= 99.

(** [month_day_of_yday] is right on day [n] of a common or leap year. *)
Definition yday_ok (leap : bool) (n : Z) : bool :=
  let (m, d) := month_day_of_yday leap n in
  (1 <=? m) && (m <=? 12) && (1 <=? d)
  && (d <=? (if (m =? 2) && leap then 29 else DAYS_IN_MONTH m))
  && (DAYS_BEFORE_MONTH m + (if (2 <? m) && leap then 1 else 0) + d =? n + 1).

(** The month tables are consistent: month [m1] ends before a later
    month [m2] starts, and month 12 ends with the year. *)
Definition month_table_ok (leap : bool) (m1 m2 : Z) : bool :=
  let dbm m := DAYS_BEFORE_MONTH m + (if (2 <? m) && leap then 1 else 0) in
  let dim m := if (m =? 2) && leap then 29 else DAYS_IN_MONTH m in
  (0 <=? dbm m1)
  && (dbm m1 + dim m1 <=? 365 + (if leap then 1 else 0))
  && (if m1 <? m2 then dbm m1 + dim m1 <=? dbm m2 else true).

(** [-%m-%d] reads back what [strftime] prints for month [m], day [d]. *)
Definition md_roundtrip_ok (m d : Z) : bool :=
  match hd_error (re_md ("-" ++ zfill 2 m ++ "-" ++ zfill 2 d)) with
  | Some (m', d', rest) => (m' =? m) && (d' =? d) && String.eqb rest ""
  | None => false
  end.

(** The order [sorted] sorts by. *)
Definition leS (a b : string) : Prop := String.leb a b = true.

(** The scan of [calculate_longest_streak] on day numbers. *)
Fixpoint run_scan (prev : Z) (rest : list Z) (mx cur : Z) : Z :=
  match rest with
  | [] => Z.max mx cur
  | o :: r =>
      if o - prev =? 1 then run_scan o r mx (cur + 1)
      else run_scan o r (Z.max mx cur) 1
  end.

(** A key is an ISO date string when it parses to a date that prints back
    as the key: the strings ["%Y-%m-%d"] formatting produces. *)
Definition is_iso_date (k : string) : bool :=
  match strptime k with
  | Ok d => String.eqb (strftime d) k
  | Raise _ => false
  end.

Definition date_of_key (k : string) : date :=
  match strptime k with
  | Ok d => d
  | Raise _ => mkDate 1 1 1
  end.

Definition key_ordinal (k : string) : Z := toordinal (date_of_key k).

(** The data model's keys: every key is an ISO date string. *)
Definition iso_keys (m : dict) : Prop :=
  Forall (fun k => is_iso_date k = true) (keys m).

(** A method that leaves [review_counts] as it found it. *)
Definition keeps_counts {A : Type} (m : M A) : Prop :=
  forall w, review_counts (fst (m w)) = review_counts w.

(** Every count of a dictionary, or of a query result, is at least 1. *)
(** The instants at which [fromtimestamp] raises [OSError]: those of
    [time_t] whose local year less 1900 does not fit 32 bits. *)
Definition localtime_fails (tz : Z -> Z) (t : Z) : bool :=
  negb ((t <? - 2 ^ 63) || (2 ^ 63 <=? t))
  && (let o := EPOCH_ORDINAL + (t + tz t) / 86400 in
      let tm_year := year (fromordinal o) - 1900 in
      (tm_year <? - 2 ^ 31) || (2 ^ 31 <=? tm_year)).

Definition positive_counts (d : dict) : Prop :=
  Forall (fun p => 1 <= snd p) d.

Definition positive_rows (rows : list (Z * Z)) : Prop :=
  Forall (fun p => 1 <= snd p) rows.

(** ** Concrete data used in the statements *)

Local Open Scope string_scope.

(** The scenario of section 8 of the specification. *)
Definition scenario_counts : dict :=
  [("2025-01-01", 3); ("2025-01-02", 5); ("2025-01-03", 0); ("2025-01-05", 2)].

(** The same dates as [scenario_counts], inserted in another order and
    with other counts. *)
Definition scenario_recounted : dict :=
  [("2025-01-05", 1); ("2025-01-03", 7); ("2025-01-02", 0); ("2025-01-01", 9)].

(** A collection with four reviews on 26 February 2025 (UTC), the clock
    reading 1 March 2026, in a time zone on UTC. *)
Definition february_log : revlog_table :=
  mkTable ["id"; "cid"; "usn"; "ease"; "ivl"; "lastIvl"; "factor"; "time";
           "type"]
          [mkRow 1740528000000 0; mkRow 1740531600000 0;
           mkRow 1740571200000 0; mkRow 1740600000000 0].

(** A home with a collection at the first common path and no [Anki2]
    directory to list. *)
Definition standard_home : filesystem :=
  mkFs "/home/u"
       (String.eqb "/home/u/.local/share/Anki2/User 1/collection.anki2")
       (fun _ => false)
       (fun _ => None).

(** A collection file SQLite reads without error, with an engine that
    evaluates on the first row of a group and ranks equal keys by the
    stored day. *)
Definition readable (t : option revlog_table) : database :=
  mkDatabase t None (fun _ => 0%nat) (fun d => d).

Definition late_env : environment :=
  mkEnv (mkDate 2026 3 1) (fun _ => 0) standard_home
        (fun _ => readable (Some february_log)).

(** A log in the older layout with one row whose day is far out of
    range and one review on 26 February 2025. *)
Definition corrupt_log : revlog_table :=
  mkTable ["day"; "cid"] [mkRow 0 (- 10 ^ 12); mkRow 0 20145].

Definition corrupt_env : environment :=
  mkEnv (mkDate 2025 3 1) (fun _ => 0) standard_home
        (fun _ => readable (Some corrupt_log)).

(** A home whose [Anki2] directory exists and cannot be listed, with a
    collection in [Documents]. *)
Definition unlistable_home : filesystem :=
  mkFs "/home/u"
       (fun p => String.eqb p "/home/u/.local/share/Anki2"
                 || String.eqb p
                      "/home/u/Documents/Anki/User 1/collection.anki2")
       (fun _ => false)
       (fun _ => None).

Definition unlistable_env : environment :=
  mkEnv (mkDate 2025 3 1) (fun _ => 0) unlistable_home
        (fun _ => readable (Some february_log)).

Local Close Scope string_scope.


(** * Further parts of the program *)

(** ** The pointer handlers ([on_press], [on_release], [on_motion],
    [show_tooltip], [hide_tooltip], [on_heatmap_leave] and the whole of
    [on_heatmap_motion])

    Event coordinates are floats, taken as exact rationals; [int(_)]
    truncates toward zero. *)

Definition py_int (q : Q) : Z :=
  if Qle_bool 0 q then Qfloor q else Qceiling q.

Record pointer_event : Set :=
  mkEvent { ev_x : Q; ev_y : Q; ev_button : Z }.

(** The text of the count label of a tooltip. *)
Inductive count_markup : Set :=
  | CountReviews (count : Z) (plural : bool)
  | CountNone.

(** A tooltip popup: its two labels and where it was moved to. *)
Record tooltip : Set :=
  mkTooltip { tip_date : string; tip_count : count_markup;
              tip_x : Z; tip_y : Z }.

(** The part of the widget the pointer handlers use, with the numbers of
    popup windows created and destroyed so far. *)
Record pointer_state : Set :=
  mkPointer { dragging : bool;
              drag_x : Q;
              drag_y : Q;
              window_position : Z * Z;
              tooltip_window : option tooltip;
              hover_date : option string;
              hover_count : option Z;
              popups_created : nat;
              popups_destroyed : nat }.

(** The state [__init__] sets up, the window at [pos]. *)
Definition initial_pointer (pos : Z * Z) : pointer_state :=
  mkPointer false 0 0 pos None None None 0 0.

Definition hide_tooltip (s : pointer_state) : pointer_state :=
  match tooltip_window s with
  | Some _ =>
      mkPointer (dragging s) (drag_x s) (drag_y s) (window_position s)
                None None None
                (popups_created s) (S (popups_destroyed s))
  | None => s
  end.

Definition show_tooltip (event : pointer_event) (date_str : string)
    (count : Z) (s : pointer_state) : pointer_state :=
  let s := hide_tooltip s in
  let count_label :=
    if 0 <? count then CountReviews count (1 <? count) else CountNone in
  let (x, y) := window_position s in
  let win_x := x + py_int (ev_x event) + 10 in
  let win_y := y + py_int (ev_y event) + 20 in
  mkPointer (dragging s) (drag_x s) (drag_y s) (window_position s)
            (Some (mkTooltip date_str count_label win_x win_y))
            (hover_date s) (hover_count s)
            (S (popups_created s)) (popups_destroyed s).

Definition on_heatmap_leave (s : pointer_state) : pointer_state :=
  hide_tooltip s.

Definition on_press (event : pointer_event) (s : pointer_state)
  : pointer_state :=
  if ev_button event =? 1 then
    hide_tooltip
      (mkPointer true (ev_x event) (ev_y event) (window_position s)
                 (tooltip_window s) (hover_date s) (hover_count s)
                 (popups_created s) (popups_destroyed s))
  else s.

Definition on_release (event : pointer_event) (s : pointer_state)
  : pointer_state :=
  mkPointer false (drag_x s) (drag_y s) (window_position s)
            (tooltip_window s) (hover_date s) (hover_count s)
            (popups_created s) (popups_destroyed s).

Definition on_motion (event : pointer_event) (s : pointer_state)
  : pointer_state :=
  if dragging s then
    let (window_x, window_y) := window_position s in
    let new_x := window_x + py_int (ev_x event - drag_x s) in
    let new_y := window_y + py_int (ev_y event - drag_y s) in
    mkPointer (dragging s) (drag_x s) (drag_y s) (new_x, new_y)
              (tooltip_window s) (hover_date s) (hover_count s)
              (popups_created s) (popups_destroyed s)
  else s.

(** [%A] and [%b], with the English names of the C locale. *)
Definition day_name (wd : Z) : string :=
  match wd with
  | 0 => "Monday" | 1 => "Tuesday" | 2 => "Wednesday" | 3 => "Thursday"
  | 4 => "Friday" | 5 => "Saturday" | _ => "Sunday"
  end.

Definition month_abbr (m : Z) : string :=
  match m with
  | 1 => "Jan" | 2 => "Feb" | 3 => "Mar" | 4 => "Apr" | 5 => "May"
  | 6 => "Jun" | 7 => "Jul" | 8 => "Aug" | 9 => "Sep" | 10 => "Oct"
  | 11 => "Nov" | _ => "Dec"
  end.

(** [d.strftime("%A, %b %d, %Y")] *)
Definition strftime_long (d : date) : string :=
  day_name (weekday d) ++ ", " ++ month_abbr (month d) ++ " "
  ++ zfill 2 (day d) ++ ", " ++ zfill 4 (year d).

Definition option_string_eqb (a : option string) (b : string) : bool :=
  match a with Some x => String.eqb x b | None => false end.

Definition option_Z_eqb (a : option Z) (b : Z) : bool :=
  match a with Some x => x =? b | None => false end.

(** The end of [on_heatmap_motion], once the cell has a date. *)
Definition hover_cell (event : pointer_event) (counts : dict)
    (cell_date : date) (s : pointer_state) : pointer_state :=
  let date_str := strftime cell_date in
  let count :=
    match dict_get date_str counts with Some c => c | None => 0 end in
  let formatted_date := strftime_long cell_date in
  if negb (option_string_eqb (hover_date s) formatted_date)
     || negb (option_Z_eqb (hover_count s) count)
  then
    show_tooltip event formatted_date count
      (mkPointer (dragging s) (drag_x s) (drag_y s) (window_position s)
                 (tooltip_window s) (Some formatted_date) (Some count)
                 (popups_created s) (popups_destroyed s))
  else s.

(** What a float division by zero raises. *)
Definition float_zero_division : exn :=
  mkExn ZeroDivisionError "float division by zero".

(** [on_heatmap_motion] on an area [width] by [height] pixels.  It returns
    the state as the handler leaves it and the exception it raises, if
    any; every [raise] comes before the first assignment. *)
Definition heatmap_motion (now : date) (counts : dict) (width height : Z)
    (event : pointer_event) (s : pointer_state)
  : pointer_state * option exn :=
  let days_to_show := Z.min (get_days_in_2025 now) 105 in
  let cols := Z.min (days_to_show / 7) (width / 20) in
  let rows := 7 in
  if cols =? 0 then (s, Some zero_division)
  else
    let cell_width := Qmin 18 (inject_Z width / inject_Z cols) in
    let cell_height := Qmin 18 (inject_Z height / inject_Z rows) in
    let h_padding := ((inject_Z width - cell_width * inject_Z cols) / 2)%Q in
    let v_padding := ((inject_Z height - cell_height * inject_Z rows) / 2)%Q in
    if negb (Qle_bool h_padding (ev_x event))
       || negb (Qle_bool (ev_x event) (inject_Z width - h_padding))
    then (hide_tooltip s, None)
    else if negb (Qle_bool v_padding (ev_y event))
            || negb (Qle_bool (ev_y event) (inject_Z height - v_padding))
    then (hide_tooltip s, None)
    else if Qeq_bool cell_width 0 || Qeq_bool cell_height 0
    then (s, Some float_zero_division)
    else
      let col := py_int ((ev_x event - h_padding) / cell_width) in
      let row := py_int ((ev_y event - v_padding) / cell_height) in
      match on_heatmap_motion now width col row with
      | Raise e => (s, Some e)
      | Ok None => (hide_tooltip s, None)
      | Ok (Some cell_date) => (hover_cell event counts cell_date s, None)
      end.

(** The events the pointer handlers answer. *)
Inductive pointer_input : Type :=
  | Press (event : pointer_event)
  | Release (event : pointer_event)
  | Motion (event : pointer_event)
  | HeatmapMotion (now : date) (counts : dict) (width height : Z)
                  (event : pointer_event)
  | HeatmapLeave.

Definition handle (i : pointer_input) (s : pointer_state) : pointer_state :=
  match i with
  | Press e => on_press e s
  | Release e => on_release e s
  | Motion e => on_motion e s
  | HeatmapMotion now counts width height e =>
      fst (heatmap_motion now counts width height e s)
  | HeatmapLeave => on_heatmap_leave s
  end.

Definition run (inputs : list pointer_input) (s : pointer_state)
  : pointer_state :=
  fold_left (fun s i => handle i s) inputs s.

(** The popup windows that exist: created and not destroyed. *)
Definition live_popups (s : pointer_state) : nat :=
  popups_created s - popups_destroyed s.

(** ** Homes for the locator *)

(** A home whose [Anki2] directory has the profiles [Ann] and [Bob], a
    stray file, and a collection in [Bob] only. *)
Definition profiles_home : filesystem :=
  mkFs "/home/u"
       (fun p => String.eqb p "/home/u/.local/share/Anki2"
                 || String.eqb p "/home/u/.local/share/Anki2/Bob/collection.anki2")
       (fun p => String.eqb p "/home/u/.local/share/Anki2/Ann"
                 || String.eqb p "/home/u/.local/share/Anki2/Bob")
       (fun p => if String.eqb p "/home/u/.local/share/Anki2"
                 then Some ["prefs21.db"; "Ann"; "Bob"]%string else None).

(** The candidates of a home: the three common paths, then one per
    profile directory listed under [Anki2] when that exists. *)
Definition candidate (fs : filesystem) (p : string) : Prop :=
  In p (common_paths fs)
  \/ (path_exists fs (anki2_dir fs) = true
      /\ exists names profile_dir,
           listdir fs (anki2_dir fs) = Some names
           /\ In profile_dir names
           /\ path_isdir fs (path_join (anki2_dir fs) profile_dir) = true
           /\ p = path_join (path_join (anki2_dir fs) profile_dir)
                    "collection.anki2").

(** ** The geometry and the labels of [draw_heatmap]

    [draw_heatmap] above gives the cells; these are the rectangles and
    the texts the same function draws, in an area [width] by [height]
    pixels.  The loop over the cells, which comes first, never raises. *)

Record geometry : Set :=
  mkGeometry { cell_width : Q; cell_height : Q;
               h_padding : Q; v_padding : Q }.

(** The cell size and the paddings for [cols] columns. *)
Definition layout (cols width height : Z) : result geometry :=
  let rows := 7 in
  if cols =? 0 then Raise zero_division
  else
    let cell_width := Qmin 18 (inject_Z width / inject_Z cols) in
    let cell_height := Qmin 18 (inject_Z height / inject_Z rows) in
    let h_padding := ((inject_Z width - cell_width * inject_Z cols) / 2)%Q in
    let v_padding := ((inject_Z height - cell_height * inject_Z rows) / 2)%Q in
    Ok (mkGeometry cell_width cell_height h_padding v_padding).

(** The number of columns [draw_heatmap] centres. *)
Definition draw_cols (now : date) (width : Z) : Z :=
  let days_to_show := Z.min (get_days_in_2025 now) 105 in
  Z.min (days_to_show / 7 + 1) (width / 20).

(** [context.rectangle(x, y, cell_width - 2, cell_height - 2)] of a cell:
    left, top, width and height. *)
Definition cell_rect (g : geometry) (c : cell) : Q * Q * Q * Q :=
  let x := (h_padding g + inject_Z (cell_col c) * cell_width g)%Q in
  let y := (v_padding g + inject_Z (cell_row c) * cell_height g)%Q in
  (x, y, cell_width g - 2, cell_height g - 2)%Q.

Definition rect_left (r : Q * Q * Q * Q) : Q := fst (fst (fst r)).
Definition rect_top (r : Q * Q * Q * Q) : Q := snd (fst (fst r)).

(** A text drawn at a point; a month label keeps the week it stands
    over. *)
Record month_label : Set :=
  mkMonthLabel { label_week : Z; label_x : Q; label_y : Q;
                 label_text : string }.

(** [for month in range(1, 13)], with its [break]; [m] is the loop's
    [month]. *)
Fixpoint month_loop (today : date) (cols : Z) (g : geometry)
    (months : list Z) (current_month : option string) : list month_label :=
  match months with
  | [] => []
  | m :: rest =>
      if (month today <? m) && (year today =? 2025) then []
      else
        let date := mkDate 2025 m 1 in
        let month_name := month_abbr m in
        if negb (option_string_eqb current_month month_name) then
          let start_date := mkDate 2025 1 1 in
          let days_since_start := days_between date start_date in
          let week_number := days_since_start / 7 in
          if (0 <=? week_number) && (week_number <? cols) then
            let x := (h_padding g + inject_Z week_number * cell_width g)%Q in
            let y := (v_padding g - 5)%Q in
            mkMonthLabel week_number x y (month_name ++ " '25")
            :: month_loop today cols g rest (Some month_name)
          else month_loop today cols g rest (Some month_name)
        else month_loop today cols g rest current_month
  end.

Definition draw_month_labels (now : date) (width height : Z)
  : result (list month_label) :=
  g <- layout (draw_cols now width) width height ;;
  let today := now in
  let today :=
    if negb (year today =? 2025) then mkDate 2025 2 26 else today in
  Ok (month_loop today (draw_cols now width) g (range 1 13) None).

(** [day_labels] and where each is drawn: the row, the point and the
    text. *)
Definition day_labels : list (Z * string) :=
  [(0, "Mon"); (2, "Wed"); (4, "Fri"); (6, "Sun")]%string.

Definition draw_day_labels (now : date) (width height : Z)
  : result (list (Z * Q * Q * string)) :=
  g <- layout (draw_cols now width) width height ;;
  Ok (map (fun '(day, label) =>
             (day, h_padding g - 22,
              v_padding g + inject_Z day * cell_height g + 12, label)%Q)
          day_labels).

(** The day of 2025 a month begins on, counted from 1 January. *)
Definition month_start (m : Z) : Z :=
  days_between (mkDate 2025 m 1) (mkDate 2025 1 1).

(** ** Definitions used to state further properties *)

(** The test of the current-streak loop on one day: the day is a key and
    its count is positive. *)
Definition studied (m : dict) (d : date) : bool :=
  match dict_get (strftime d) m with
  | Some c => 0 <? c
  | None => false
  end.

(** The [k] days ending on the day of ordinal [x] are all keys of [m]. *)
Definition day_run (m : dict) (x k : Z) : Prop :=
  1 <= x - k + 1 /\ x <= MAXORDINAL
  /\ forall j, 0 <= j < k -> In (strftime (fromordinal (x - j))) (keys m).

(** A key the year filter lets through: the ISO string of a date of
    2025. *)
Definition date_of_2025 (k : string) : Prop :=
  exists d, valid_date d = true /\ year d = 2025 /\ k = strftime d.

(** The statistics label [update_stats_label] builds from the dictionary
    and the three statistics. *)
Definition stats_markup_of (counts : dict) (today : date)
    (current longest total : Z) : stats_markup :=
  if 0 <? total then
    Statistics
      (match dict_get (strftime today) counts with Some c => c | None => 0 end)
      current longest total
  else NoReviewData.

(** A collection SQLite reads without error and whose [revlog] has
    Anki's layout: an [id] column, which holds 64-bit integers, and no
    [day] column. *)
Definition healthy (db : database) (t : revlog_table) : Prop :=
  fault db = None /\ revlog db = Some t
  /\ mem_string "id" (column_names t) = true
  /\ has_column "day" (column_names t) = false
  /\ Forall (fun r => - 2 ^ 63 <= row_id r < 2 ^ 63) (table_rows t).

(** Local time is less than a day from UTC. *)
Definition bounded_offsets (tz : Z -> Z) : Prop :=
  forall x, - 86400 < tz x < 86400.

(** The day buckets of the log rows of a table in Anki's layout, as the
    review-history query computes them before grouping. *)
Definition bucket_days (t : revlog_table) : list Z :=
  map (fun r => sql_day_of_id (row_id r)) (table_rows t).

(** What the row loop makes of a day bucket in a zone [off] seconds east
    of UTC: the key it files the bucket under, if the bucket converts to a
    date of 2025. *)
Definition key_of_bucket (off day : Z) : option string :=
  match fromtimestamp (fun _ => off) (day * 86400) with
  | Ok d =>
      if String.prefix "2025-" (strftime d) then Some (strftime d) else None
  | Raise _ => None
  end.

Definition in_2025 (off day : Z) : bool :=
  match key_of_bucket off day with Some _ => true | None => false end.

(** The number of log rows in a bucket. *)
Definition rows_in_bucket (days : list Z) (day : Z) : Z :=
  Z.of_nat (count_occ Z.eq_dec days day).

(** A query result read as a map from days to counts. *)
Fixpoint group_get (day : Z) (groups : list (Z * Z)) : option Z :=
  match groups with
  | [] => None
  | (d, c) :: g => if day =? d then Some c else group_get day g
  end.

(** The entry the row loop adds for a group. *)
Definition entry_of_group (off : Z) (g : Z * Z) : option (string * Z) :=
  match key_of_bucket off (fst g) with
  | Some k => Some (k, snd g)
  | None => None
  end.

Fixpoint filter_map {A B : Type} (f : A -> option B) (l : list A) : list B :=
  match l with
  | [] => []
  | a :: l' =>
      match f a with
      | Some b => b :: filter_map f l'
      | None => filter_map f l'
      end
  end.

(** The sum of the counts of the groups whose day satisfies [f]. *)
Fixpoint sum_where (f : Z -> bool) (groups : list (Z * Z)) : Z :=
  match groups with
  | [] => 0
  | (d, c) :: g => (if f d then c else 0) + sum_where f g
  end.

(** What a load does to the widget: the attributes it assigns, with the
    values it gives them; the others keep what they held. *)
Record patch : Type :=
  mkPatch { p_counts : dict;
            p_current : option Z;
            p_longest : option Z;
            p_total : option Z;
            p_stats : option stats_markup;
            p_range : option range_markup }.

Definition keep_or {A : Type} (new : option A) (old : option A) : option A :=
  match new with Some _ => new | None => old end.

Definition apply_patch (p : patch) (w : widget) : widget :=
  mkWidget (p_counts p)
           (keep_or (p_current p) (current_streak w))
           (keep_or (p_longest p) (longest_streak w))
           (keep_or (p_total p) (total_reviews w))
           (match p_stats p with Some m => m | None => stats_label w end)
           (match p_range p with Some r => r | None => date_range_label w end).

(** The count [draw_heatmap] looks up for a day. *)
Definition count_on (counts : dict) (d : date) : Z :=
  match dict_get (strftime d) counts with Some c => c | None => 0 end.

(** The colour of a count, for the cases where [cell_color] returns. *)
Definition rgb_of (max_count count : Z) : Q * Q * Q :=
  match cell_color max_count count with
  | Ok rgb => rgb
  | Raise _ => NEUTRAL
  end.

(** The cell of the day [i] days after 1 January 2025. *)
Definition painted (counts : dict) (today : date) (i : Z) : cell :=
  let d := fromordinal (739252 + i) in
  mkCell d (i / 7) ((i + 2) mod 7)
         (rgb_of (max_count counts) (count_on counts d)) (date_eqb d today).

(** The number of columns [on_heatmap_motion] works with. *)
Definition motion_cols (now : date) (width : Z) : Z :=
  Z.min (Z.min (get_days_in_2025 now) 105 / 7) (width / 20).

(** The invariant of the tooltip: the popup in [tooltip_window] is the only
    one alive, and the hover cache is empty when there is none. *)
Definition tooltip_ok (s : pointer_state) : Prop :=
  popups_created s
  = (popups_destroyed s
     + match tooltip_window s with Some _ => 1 | None => 0 end)%nat
  /\ (tooltip_window s = None -> hover_date s = None /\ hover_count s = None).

Definition is_left_press (i : pointer_input) : bool :=
  match i with
  | Press e => ev_button e =? 1
  | _ => false
  end.


(** * Facts about the calendar *)

Lemma Ok_inj {A : Type} (a b : A) : Ok a = Ok b -> a = b.
Proof.
  intros H.
  exact (f_equal (fun r => match r with Ok x => x | Raise _ => a end) H).
Qed.


Example ordinal_of_2025_01_01 : toordinal (mkDate 2025 1 1) = 739252.
Proof. reflexivity. Qed.

Example jan_1_2025_is_a_wednesday : weekday (mkDate 2025 1 1) = 2.
Proof. reflexivity. Qed.

Example fromordinal_of_maxordinal : fromordinal MAXORDINAL = mkDate 9999 12 31.
Proof. reflexivity. Qed.

Example epoch_ordinal : toordinal (mkDate 1970 1 1) = EPOCH_ORDINAL.
Proof. reflexivity. Qed.

Example strftime_pads : strftime (mkDate 2025 1 5) = "2025-01-05"%string.
Proof. reflexivity. Qed.

Example strptime_reads_iso : strptime "2025-01-05" = Ok (mkDate 2025 1 5).
Proof. reflexivity. Qed.

Example strptime_reads_short_fields :
  strptime "2025-1-5" = Ok (mkDate 2025 1 5).
Proof. reflexivity. Qed.

Example strptime_rejects_30_february :
  strptime "2025-02-30"
  = Raise (value_error "day is out of range for month").
Proof. reflexivity. Qed.

Example strptime_rejects_trailing_text :
  strptime "2025-01-045" = Raise (value_error "unconverted data remains").
Proof. reflexivity. Qed.

Lemma dby_shape a b c e :
  0 <= a -> 0 <= b <= 3 -> 0 <= c <= 24 -> 0 <= e <= 3 ->
  days_before_year (400*a + 100*b + 4*c + e + 1) = 146097*a + 36524*b + 1461*c + 365*e.
Proof.
  intros. unfold days_before_year. cbv zeta.
  Z.div_mod_to_equations; lia.
Qed.

Lemma leap_shape a b c e :
  0 <= a -> 0 <= b <= 3 -> 0 <= c <= 24 -> 0 <= e <= 3 ->
  is_leap (400*a + 100*b + 4*c + e + 1) = (e =? 3) && (negb (c =? 24) || (b =? 3)).
Proof.
  intros. unfold is_leap.
  repeat match goal with |- context [?x =? ?y] => destruct (Z.eqb_spec x y) end; simpl; try reflexivity; exfalso; Z.div_mod_to_equations; lia.
Qed.

Lemma yday_table :
  forallb (fun i => yday_ok false (Z.of_nat i) && yday_ok true (Z.of_nat i)) (seq 0 365) = true.
Proof. vm_compute. reflexivity. Qed.

Lemma yday_ok_all leap n : 0 <= n < 365 -> yday_ok leap n = true.
Proof.
  intros Hn. pose proof yday_table as T. rewrite forallb_forall in T.
  specialize (T (Z.to_nat n)). rewrite Z2Nat.id in T by lia.
  assert (In (Z.to_nat n) (seq 0 365)) as Hin by (apply in_seq; lia).
  apply T in Hin. apply andb_prop in Hin. destruct leap; tauto.
Qed.


Lemma divmod_pos n k : 0 <= n -> 0 < k ->
  0 <= n / k /\ 0 <= n mod k < k /\ n = k * (n / k) + n mod k.
Proof.
  intros Hn Hk. split; [apply Z.div_pos; lia|].
  split; [apply Z.mod_pos_bound; lia | apply Z.div_mod; lia].
Qed.

Lemma fromordinal_spec n : 1 <= n <= MAXORDINAL ->
  valid_date (fromordinal n) = true /\ toordinal (fromordinal n) = n.
Proof.
  unfold MAXORDINAL. intros Hn.
  unfold fromordinal, ord2ymd, DI400Y, DI100Y, DI4Y. cbv zeta.
  destruct (divmod_pos (n - 1) 146097) as (Ha & Hr & E0); try lia.
  set (a := (n - 1) / 146097) in *. set (r := (n - 1) mod 146097) in *.
  destruct (divmod_pos r 36524) as (Hb & Hr1 & E1); try lia.
  set (b := r / 36524) in *. set (r1 := r mod 36524) in *.
  destruct (divmod_pos r1 1461) as (Hc & Hr2 & E2); try lia.
  set (c := r1 / 1461) in *. set (r2 := r1 mod 1461) in *.
  destruct (divmod_pos r2 365) as (He & Hr3 & E3); try lia.
  set (e := r2 / 365) in *. set (r3 := r2 mod 365) in *.
  clearbody a r b r1 c r2 e r3.
  assert (Hb4 : b <= 4) by lia.
  assert (Hc24 : c <= 24) by lia.
  assert (He4 : e <= 4) by lia.
  assert (Ha24 : a <= 24) by lia.
  destruct (Z.eqb_spec e 4) as [E4|E4]; [|destruct (Z.eqb_spec b 4) as [B4|B4]]; cbn [orb].
  - (* last day of a four-year cycle *)
    assert (r3 = 0) by lia. assert (b <= 3) by lia.
    assert (c = 24 -> b = 3) by lia.
    replace (a * 400 + 1 + b * 100 + c * 4 + e - 1)
      with (400 * a + 100 * b + 4 * c + 3 + 1) by lia.
    unfold valid_date, toordinal, ymd2ord, days_in_month, days_before_month,
      MINYEAR, MAXYEAR. cbn [year month day].
    rewrite dby_shape, leap_shape by lia.
    replace (negb (c =? 24) || (b =? 3)) with true.
    2:{ destruct (Z.eqb_spec c 24), (Z.eqb_spec b 3); simpl; auto; lia. }
    change (3 =? 3) with true. change (24 =? 24) with true.
    change (12 =? 2) with false. change (2 <? 12) with true.
    change (DAYS_BEFORE_MONTH 12) with 334. change (DAYS_IN_MONTH 12) with 31.
    cbn [andb orb negb].
    split; [|lia].
    repeat (apply andb_true_intro; split); apply Z.leb_le; lia.
  - (* last day of a 400-year cycle *)
    assert (r1 = 0 /\ c = 0 /\ e = 0 /\ r3 = 0) as (-> & -> & -> & ->) by lia.
    subst b.
    replace (a * 400 + 1 + 4 * 100 + 0 * 4 + 0 - 1)
      with (400 * a + 100 * 3 + 4 * 24 + 3 + 1) by lia.
    unfold valid_date, toordinal, ymd2ord, days_in_month, days_before_month,
      MINYEAR, MAXYEAR. cbn [year month day].
    rewrite dby_shape, leap_shape by lia.
    change (3 =? 3) with true. change (24 =? 24) with true.
    change (12 =? 2) with false. change (2 <? 12) with true.
    change (DAYS_BEFORE_MONTH 12) with 334. change (DAYS_IN_MONTH 12) with 31.
    cbn [andb orb negb].
    split; [|lia].
    repeat (apply andb_true_intro; split); apply Z.leb_le; lia.
  - set (leapyear := (e =? 3) && (negb (c =? 24) || (b =? 3))).
    pose proof (yday_ok_all leapyear r3 ltac:(lia)) as Y.
    unfold yday_ok in Y.
    destruct (month_day_of_yday leapyear r3) as [m d].
    rewrite !andb_true_iff in Y. destruct Y as ((((M1 & M2) & D1) & D2) & S).
    replace (a * 400 + 1 + b * 100 + c * 4 + e)
      with (400 * a + 100 * b + 4 * c + e + 1) by lia.
    unfold valid_date, toordinal, ymd2ord, days_in_month, days_before_month,
      MINYEAR, MAXYEAR. cbn [year month day].
    rewrite dby_shape, leap_shape by lia. fold leapyear.
    apply Z.eqb_eq in S. split; [|lia].
    repeat (apply andb_true_intro; split); auto; apply Z.leb_le; lia.
Qed.


Lemma days_before_year_mono y1 y2 :
  y1 < y2 ->
  days_before_year y1 + 365 + (if is_leap y1 then 1 else 0)
  <= days_before_year y2.
Proof.
  intros H. unfold days_before_year, is_leap. cbv zeta.
  repeat match goal with
         | |- context [?x =? ?y] => destruct (Z.eqb_spec x y)
         end; cbn [andb orb negb]; Z.div_mod_to_equations; lia.
Qed.

Lemma month_table :
  forallb (fun i => forallb (fun j =>
      month_table_ok false (Z.of_nat i) (Z.of_nat j)
      && month_table_ok true (Z.of_nat i) (Z.of_nat j)) (seq 1 12)) (seq 1 12)
  = true.
Proof. vm_compute. reflexivity. Qed.

Lemma month_table_ok_all leap m1 m2 :
  1 <= m1 <= 12 -> 1 <= m2 <= 12 -> month_table_ok leap m1 m2 = true.
Proof.
  intros H1 H2. pose proof month_table as T.
  rewrite forallb_forall in T.
  specialize (T (Z.to_nat m1) ltac:(apply in_seq; lia)).
  rewrite forallb_forall in T.
  specialize (T (Z.to_nat m2) ltac:(apply in_seq; lia)).
  rewrite !Z2Nat.id in T by lia.
  apply andb_prop in T. destruct leap; tauto.
Qed.

Lemma valid_date_fields d :
  valid_date d = true ->
  1 <= year d <= 9999 /\ 1 <= month d <= 12
  /\ 1 <= day d <= days_in_month (year d) (month d).
Proof.
  unfold valid_date, MINYEAR, MAXYEAR. rewrite !andb_true_iff, !Z.leb_le. lia.
Qed.

Lemma date_compare_ordinal a b :
  valid_date a = true -> valid_date b = true ->
  date_compare a b = (toordinal a ?= toordinal b).
Proof.
  intros Va Vb.
  apply valid_date_fields in Va, Vb.
  destruct a as [ya ma da], b as [yb mb db]. cbn [year month day] in *.
  unfold date_compare, toordinal, ymd2ord. cbn [year month day].
  destruct Va as (_ & Ma & Da), Vb as (_ & Mb & Db).
  pose proof (month_table_ok_all (is_leap ya) ma mb Ma Mb) as Tab.
  pose proof (month_table_ok_all (is_leap yb) mb ma Mb Ma) as Tba.
  unfold month_table_ok in Tab, Tba. cbv zeta in Tab, Tba.
  fold (days_before_month ya ma) (days_before_month ya mb)
       (days_in_month ya ma) in Tab.
  fold (days_before_month yb mb) (days_before_month yb ma)
       (days_in_month yb mb) in Tba.
  rewrite !andb_true_iff, !Z.leb_le in Tab, Tba.
  destruct Tab as ((A0 & A1) & A2), Tba as ((B0 & B1) & B2).
  destruct (Z.compare_spec ya yb) as [Ey|Ly|Ly].
  - subst yb.
    destruct (Z.compare_spec ma mb) as [Em|Lm|Lm].
    + subst mb. destruct (Z.compare_spec da db); symmetry;
        [apply Z.compare_eq_iff | apply Z.compare_lt_iff | apply Z.compare_gt_iff]; lia.
    + apply Z.ltb_lt in Lm. rewrite Lm in A2. apply Z.leb_le in A2.
      symmetry. apply Z.compare_lt_iff. lia.
    + apply Z.ltb_lt in Lm. rewrite Lm in B2. apply Z.leb_le in B2.
      symmetry. apply Z.compare_gt_iff. lia.
  - pose proof (days_before_year_mono ya yb Ly).
    symmetry. apply Z.compare_lt_iff. lia.
  - pose proof (days_before_year_mono yb ya Ly).
    symmetry. apply Z.compare_gt_iff. lia.
Qed.


(** * Facts about date strings and sorting *)

Lemma compare_app s t u v :
  String.length s = String.length t ->
  String.compare (s ++ u) (t ++ v)
  = lex (String.compare s t) (String.compare u v).
Proof.
  revert t. induction s as [|a s IH]; intros [|b t] L; try discriminate.
  - reflexivity.
  - cbn in *. destruct (Ascii.compare a b); auto.
Qed.

Lemma length_app s t :
  String.length (s ++ t) = (String.length s + String.length t)%nat.
Proof. induction s; cbn; auto. Qed.

Lemma length_zfill w n : String.length (zfill w n) = w.
Proof.
  revert n. induction w as [|w IH]; intros n; cbn; auto.
  rewrite length_app, IH. cbn. lia.
Qed.

Lemma N_of_digit_char n :
  0 <= n <= 9 -> N_of_ascii (digit_char n) = (48 + Z.to_N n)%N.
Proof.
  intros H. unfold digit_char. apply N_ascii_embedding. lia.
Qed.

Lemma compare_digit_char x y :
  0 <= x <= 9 -> 0 <= y <= 9 ->
  Ascii.compare (digit_char x) (digit_char y) = (x ?= y).
Proof.
  intros Hx Hy. unfold Ascii.compare. rewrite !N_of_digit_char by lia.
  rewrite <- N2Z.inj_compare, !N2Z.inj_add, !Z2N.id by lia.
  apply Z.add_compare_mono_l.
Qed.

Lemma lex_div_mod a b :
  0 <= a -> 0 <= b ->
  lex (a / 10 ?= b / 10) (a mod 10 ?= b mod 10) = (a ?= b).
Proof.
  intros Ha Hb. unfold lex.
  destruct (Z.compare_spec (a / 10) (b / 10)) as [E|L|L].
  - destruct (Z.compare_spec (a mod 10) (b mod 10)); symmetry;
      [apply Z.compare_eq_iff | apply Z.compare_lt_iff | apply Z.compare_gt_iff];
      Z.div_mod_to_equations; lia.
  - symmetry. apply Z.compare_lt_iff. Z.div_mod_to_equations; lia.
  - symmetry. apply Z.compare_gt_iff. Z.div_mod_to_equations; lia.
Qed.

Lemma compare_zfill w a b :
  0 <= a < 10 ^ Z.of_nat w -> 0 <= b < 10 ^ Z.of_nat w ->
  String.compare (zfill w a) (zfill w b) = (a ?= b).
Proof.
  revert a b. induction w as [|w IH]; intros a b Ha Hb.
  - cbn in *. assert (a = 0) by lia. assert (b = 0) by lia. subst.
    reflexivity.
  - rewrite Nat2Z.inj_succ, Z.pow_succ_r in Ha, Hb by lia.
    cbn [zfill]. rewrite compare_app by (rewrite !length_zfill; reflexivity).
    rewrite IH by (Z.div_mod_to_equations; lia).
    cbn [String.compare].
    rewrite compare_digit_char by (Z.div_mod_to_equations; lia).
    replace (match a mod 10 ?= b mod 10 with Eq => Eq | Lt => Lt | Gt => Gt end)
      with (a mod 10 ?= b mod 10) by (destruct (a mod 10 ?= b mod 10); auto).
    apply lex_div_mod; lia.
Qed.

Lemma compare_dash x y :
  String.compare ("-" ++ x) ("-" ++ y) = String.compare x y.
Proof. reflexivity. Qed.

Lemma compare_strftime a b :
  printable a -> printable b ->
  String.compare (strftime a) (strftime b) = date_compare a b.
Proof.
  intros (Ya & Ma & Da) (Yb & Mb & Db). unfold strftime, date_compare.
  rewrite compare_app by (rewrite !length_zfill; reflexivity).
  rewrite compare_zfill by (cbn; lia).
  rewrite compare_dash.
  rewrite compare_app by (rewrite !length_zfill; reflexivity).
  rewrite compare_zfill by (cbn; lia).
  rewrite compare_dash.
  rewrite compare_zfill by (cbn; lia).
  unfold lex. destruct (year a ?= year b), (month a ?= month b); reflexivity.
Qed.


Lemma ascii_compare_refl c : Ascii.compare c c = Eq.
Proof. apply N.compare_refl. Qed.

Lemma string_compare_refl s : String.compare s s = Eq.
Proof. induction s; cbn; auto. rewrite ascii_compare_refl. auto. Qed.

Lemma string_compare_lt_trans s t u :
  String.compare s t = Lt -> String.compare t u = Lt ->
  String.compare s u = Lt.
Proof.
  revert t u. induction s as [|a s IH]; intros [|b t] [|c u]; cbn;
    try discriminate; auto.
  unfold Ascii.compare.
  destruct (N.compare_spec (N_of_ascii a) (N_of_ascii b)) as [E1|L1|L1];
    try discriminate;
    destruct (N.compare_spec (N_of_ascii b) (N_of_ascii c)) as [E2|L2|L2];
    try discriminate; intros H1 H2.
  - rewrite E1, E2, N.compare_refl. eauto.
  - rewrite E1. apply N.compare_lt_iff in L2. rewrite L2. auto.
  - rewrite <- E2. apply N.compare_lt_iff in L1. rewrite L1. auto.
  - assert (N_of_ascii a < N_of_ascii c)%N as L by lia.
    apply N.compare_lt_iff in L. rewrite L. auto.
Qed.

Lemma leb_trans s t u :
  String.leb s t = true -> String.leb t u = true -> String.leb s u = true.
Proof.
  unfold String.leb.
  destruct (String.compare s t) eqn:E1; try discriminate;
    destruct (String.compare t u) eqn:E2; try discriminate; intros _ _.
  - apply String.compare_eq_iff in E1, E2. subst. now rewrite string_compare_refl.
  - apply String.compare_eq_iff in E1. subst. now rewrite E2.
  - apply String.compare_eq_iff in E2. subst. now rewrite E1.
  - now rewrite (string_compare_lt_trans _ _ _ E1 E2).
Qed.

Lemma leb_false_flip s t : String.leb s t = false -> String.leb t s = true.
Proof.
  intros H. destruct (String.leb_total s t) as [E|E]; congruence.
Qed.

Lemma insert_insert x y l :
  insert x (insert y l) = insert y (insert x l).
Proof.
  induction l as [|h l IH]; cbn.
  - destruct (String.leb x y) eqn:Exy, (String.leb y x) eqn:Eyx; auto.
    + now rewrite (String.leb_antisym _ _ Exy Eyx).
    + apply leb_false_flip in Exy. congruence.
  - destruct (String.leb y h) eqn:Eyh, (String.leb x h) eqn:Exh; cbn;
      rewrite ?Eyh, ?Exh.
    + destruct (String.leb x y) eqn:Exy, (String.leb y x) eqn:Eyx; auto.
      * now rewrite (String.leb_antisym _ _ Exy Eyx).
      * apply leb_false_flip in Exy. congruence.
    + destruct (String.leb x y) eqn:Exy; auto.
      rewrite (leb_trans _ _ _ Exy Eyh) in Exh. discriminate.
    + destruct (String.leb y x) eqn:Eyx; auto.
      rewrite (leb_trans _ _ _ Eyx Exh) in Eyh. discriminate.
    + now rewrite IH.
Qed.

Lemma sorted_Permutation l1 l2 :
  Permutation l1 l2 -> sorted l1 = sorted l2.
Proof.
  induction 1; cbn; auto.
  - now f_equal.
  - apply insert_insert.
  - congruence.
Qed.


(** * Streaks *)

Lemma insert_Permutation x l : Permutation (x :: l) (insert x l).
Proof.
  induction l as [|h l IH]; cbn; auto.
  destruct (String.leb x h); auto.
  rewrite perm_swap. now constructor.
Qed.

Lemma sorted_perm l : Permutation l (sorted l).
Proof.
  induction l as [|h l IH]; cbn; auto.
  rewrite <- insert_Permutation. now constructor.
Qed.

Lemma insert_sorted x l :
  StronglySorted leS l -> StronglySorted leS (insert x l).
Proof.
  induction 1 as [|h l S IH F]; cbn.
  - repeat constructor.
  - destruct (String.leb x h) eqn:E.
    + constructor; [now constructor|]. constructor; auto.
      eapply Forall_impl; [|exact F]. intros b Hb. eapply leb_trans; eauto.
    + constructor; auto.
      rewrite <- insert_Permutation. constructor; auto.
      now apply leb_false_flip.
Qed.

Lemma sorted_sorted l : StronglySorted leS (sorted l).
Proof.
  induction l; cbn; [constructor|]. now apply insert_sorted.
Qed.

Lemma run_scan_ge rest : forall prev mx cur,
  mx <= run_scan prev rest mx cur /\ cur <= run_scan prev rest mx cur.
Proof.
  induction rest as [|o r IH]; intros; cbn; [lia|].
  destruct (o - prev =? 1).
  - destruct (IH o mx (cur + 1)); lia.
  - destruct (IH o (Z.max mx cur) 1); lia.
Qed.

Lemma run_scan_run rest : forall p mx cur k,
  StronglySorted Z.lt (p :: rest) ->
  0 <= k ->
  (forall j, 0 < j <= k -> In (p + j) rest) ->
  cur + k <= run_scan p rest mx cur.
Proof.
  induction rest as [|o r IH]; intros p mx cur k S Hk Hin.
  - destruct (Z.eq_dec k 0) as [->|Hn]; [cbn; lia|].
    destruct (Hin 1); lia.
  - destruct (Z.eq_dec k 0) as [->|Hn].
    + destruct (run_scan_ge (o :: r) p mx cur); lia.
    + inversion S as [|? ? S' F]; subst.
      inversion S' as [|? ? S'' F']; subst.
      inversion F as [|? ? Hpo F'']; subst.
      assert (o = p + 1) as ->.
      { destruct (Hin 1 ltac:(lia)) as [E|E]; [lia|].
        rewrite Forall_forall in F'. specialize (F' _ E). lia. }
      cbn. replace (p + 1 - p =? 1) with true by (symmetry; apply Z.eqb_eq; lia).
      specialize (IH (p + 1) mx (cur + 1) (k - 1) S' ltac:(lia)).
      assert (cur + 1 + (k - 1) <= run_scan (p + 1) r mx (cur + 1)); [|lia].
      apply IH. intros j Hj.
      destruct (Hin (j + 1) ltac:(lia)) as [E|E]; [lia|].
      now replace (p + 1 + j) with (p + (j + 1)) by lia.
Qed.

Lemma run_scan_covers rest : forall p mx cur x k,
  StronglySorted Z.lt (p :: rest) ->
  1 <= cur ->
  (forall j, 0 <= j < k -> In (x - j) (p :: rest)) ->
  k <= run_scan p rest mx cur.
Proof.
  induction rest as [|o r IH]; intros p mx cur x k S Hc Hin.
  - destruct (Z_le_gt_dec k 1); [cbn; lia|].
    destruct (Hin 0 ltac:(lia)) as [E|[]].
    destruct (Hin 1 ltac:(lia)) as [E'|[]]. lia.
  - destruct (Z_le_gt_dec k 0) as [Hk|Hk].
    { destruct (run_scan_ge (o :: r) p mx cur); lia. }
    inversion S as [|? ? S' F]; subst.
    destruct (Z.eq_dec (x - (k - 1)) p) as [Ep|Np].
    + assert (cur + (k - 1) <= run_scan p (o :: r) mx cur); [|lia].
      apply run_scan_run; auto; try lia.
      intros j Hj. destruct (Hin (k - 1 - j) ltac:(lia)) as [E|E]; [lia|].
      now replace (p + j) with (x - (k - 1 - j)) by lia.
    + assert (Hlow : p < x - (k - 1)).
      { destruct (Hin (k - 1) ltac:(lia)) as [E|E]; [lia|].
        rewrite Forall_forall in F. now apply F. }
      assert (Hin' : forall j, 0 <= j < k -> In (x - j) (o :: r)).
      { intros j Hj. destruct (Hin j Hj) as [E|E]; [lia|auto]. }
      cbn. destruct (o - p =? 1).
      * apply (IH o mx (cur + 1) x k); auto; lia.
      * apply (IH o (Z.max mx cur) 1 x k); auto; lia.
Qed.

Lemma strptime_valid s d : strptime s = Ok d -> valid_date d = true.
Proof.
  unfold strptime. destruct (re_match s) as [[[[y m] d'] rest]|]; [|discriminate].
  destruct rest; [|discriminate].
  destruct (valid_date (mkDate y m d')) eqn:V; [|discriminate].
  intros [= <-]. exact V.
Qed.

Lemma iso_spec k :
  is_iso_date k = true ->
  strptime k = Ok (date_of_key k) /\ strftime (date_of_key k) = k
  /\ valid_date (date_of_key k) = true.
Proof.
  unfold is_iso_date, date_of_key. destruct (strptime k) as [d|e] eqn:E;
    [|discriminate].
  intros H. apply String.eqb_eq in H. repeat split; auto.
  eapply strptime_valid; eauto.
Qed.

Lemma days_in_month_le y m : days_in_month y m <= 31.
Proof.
  unfold days_in_month. destruct ((m =? 2) && is_leap y); [lia|].
  destruct m as [|p|p]; cbn; try lia.
  do 4 (destruct p as [p|p|]; cbn; try lia).
Qed.

Lemma valid_printable d : valid_date d = true -> printable d.
Proof.
  intros V. destruct (valid_date_fields d V) as (Y & M & D).
  pose proof (days_in_month_le (year d) (month d)).
  unfold printable. lia.
Qed.

Lemma strftime_ordinal a b :
  valid_date a = true -> valid_date b = true ->
  String.compare (strftime a) (strftime b) = (toordinal a ?= toordinal b).
Proof.
  intros Va Vb. rewrite compare_strftime by now apply valid_printable.
  now apply date_compare_ordinal.
Qed.

(** ** Parsing what [strftime] prints *)

Lemma is_digit_digit_char x : 0 <= x <= 9 -> is_digit (digit_char x) = true.
Proof.
  intros H. unfold is_digit. rewrite N_of_digit_char by lia.
  apply andb_true_intro. split; apply N.leb_le; lia.
Qed.

Lemma digit_value_digit_char x : 0 <= x <= 9 -> digit_value (digit_char x) = x.
Proof.
  intros H. unfold digit_value. rewrite N_of_digit_char by lia. lia.
Qed.

Lemma re_Y_zfill y rest :
  0 <= y <= 9999 -> re_Y (zfill 4 y ++ rest) = [(y, rest)].
Proof.
  intros H. cbn [zfill String.append]. unfold re_Y.
  assert (D : forall x, 0 <= x mod 10 <= 9)
    by (intros x; Z.div_mod_to_equations; lia).
  rewrite !is_digit_digit_char, !digit_value_digit_char by apply D.
  cbn [andb]. do 2 f_equal. Z.div_mod_to_equations; lia.
Qed.

Lemma md_table :
  forallb (fun m => forallb (fun d =>
      md_roundtrip_ok (Z.of_nat m) (Z.of_nat d)) (seq 1 31)) (seq 1 12)
  = true.
Proof. vm_compute. reflexivity. Qed.

Lemma md_roundtrip m d :
  1 <= m <= 12 -> 1 <= d <= 31 ->
  exists others,
    re_md ("-" ++ zfill 2 m ++ "-" ++ zfill 2 d) = (m, d, ""%string) :: others.
Proof.
  intros Hm Hd. pose proof md_table as T.
  rewrite forallb_forall in T.
  specialize (T (Z.to_nat m) ltac:(apply in_seq; lia)).
  rewrite forallb_forall in T.
  specialize (T (Z.to_nat d) ltac:(apply in_seq; lia)).
  rewrite !Z2Nat.id in T by lia. unfold md_roundtrip_ok in T.
  destruct (re_md _) as [|[[m' d'] rest] others]; [discriminate|].
  cbn [hd_error] in T. rewrite !andb_true_iff in T.
  destruct T as ((Em & Ed) & Er).
  apply Z.eqb_eq in Em, Ed. apply String.eqb_eq in Er. subst. eauto.
Qed.

Lemma strptime_strftime d :
  valid_date d = true -> strptime (strftime d) = Ok d.
Proof.
  intros V. pose proof (valid_printable d V) as (Y & M & D).
  destruct (valid_date_fields d V) as (_ & M' & D').
  pose proof (days_in_month_le (year d) (month d)) as D31.
  destruct (md_roundtrip (month d) (day d)) as (others & E); try lia.
  unfold strptime, re_match, strftime.
  rewrite re_Y_zfill by lia. cbn [flat_map]. rewrite E. cbn [map app hd_error].
  destruct d as [y m dd]. cbn [year month day] in *. now rewrite V.
Qed.

Lemma strftime_is_iso d : valid_date d = true -> is_iso_date (strftime d) = true.
Proof.
  intros V. unfold is_iso_date. rewrite strptime_strftime by auto.
  apply String.eqb_refl.
Qed.

Lemma key_ordinal_lt a b :
  is_iso_date a = true -> is_iso_date b = true ->
  String.leb a b = true -> a <> b -> key_ordinal a < key_ordinal b.
Proof.
  intros Ia Ib L N.
  destruct (iso_spec a Ia) as (_ & Fa & Va), (iso_spec b Ib) as (_ & Fb & Vb).
  pose proof (strftime_ordinal _ _ Va Vb) as C. rewrite Fa, Fb in C.
  unfold key_ordinal, Z.lt. rewrite <- C.
  unfold String.leb in L. destruct (String.compare a b) eqn:E; auto.
  - apply String.compare_eq_iff in E. contradiction.
  - discriminate.
Qed.

Lemma sorted_ordinals ks :
  StronglySorted leS ks -> NoDup ks -> Forall (fun k => is_iso_date k = true) ks ->
  StronglySorted Z.lt (map key_ordinal ks).
Proof.
  induction 1 as [|k ks S IH F]; intros ND I; cbn; constructor.
  - apply IH; [now inversion ND | now inversion I].
  - inversion ND as [|? ? Hn ND']; subst. inversion I as [|? ? Ik I']; subst.
    rewrite Forall_forall in *. intros o Ho.
    apply in_map_iff in Ho. destruct Ho as (b & <- & Hb).
    apply key_ordinal_lt; auto.
    + now apply F.
    + intros ->. contradiction.
Qed.

Lemma longest_scan_ordinals rest : forall prev mx cur,
  Forall (fun k => is_iso_date k = true) (prev :: rest) ->
  longest_scan prev rest mx cur
  = Ok (run_scan (key_ordinal prev) (map key_ordinal rest) mx cur).
Proof.
  induction rest as [|k r IH]; intros prev mx cur I; cbn; auto.
  inversion I as [|? ? Ip I']; subst. inversion I' as [|? ? Ik I'']; subst.
  destruct (iso_spec prev Ip) as (-> & _), (iso_spec k Ik) as (-> & _).
  cbn. unfold days_between. fold (key_ordinal k) (key_ordinal prev).
  destruct (key_ordinal k - key_ordinal prev =? 1); now apply IH.
Qed.

Lemma dict_get_In k (m : dict) c : dict_get k m = Some c -> In k (keys m).
Proof.
  induction m as [|[k' v] m IH]; cbn; [discriminate|].
  destruct (String.eqb_spec k k'); auto.
Qed.

Lemma add_days_spec d k d' :
  add_days d k = Ok d' ->
  valid_date d' = true /\ toordinal d' = toordinal d + k.
Proof.
  unfold add_days.
  destruct ((0 <? toordinal d + k) && (toordinal d + k <=? MAXORDINAL)) eqn:E;
    [|discriminate].
  intros [= <-]. apply andb_prop in E. destruct E as (E1 & E2).
  apply Z.ltb_lt in E1. apply Z.leb_le in E2.
  apply fromordinal_spec. lia.
Qed.

Lemma streak_walk_spec (m : dict) today idx : forall s r,
  streak_walk m today idx s = Ok r ->
  exists k, (k <= List.length idx)%nat /\ r = s + Z.of_nat k
    /\ forall i, In i (firstn k idx) ->
         exists d, add_days today (- i) = Ok d /\ In (strftime d) (keys m).
Proof.
  induction idx as [|i idx IH]; intros s r; cbn [streak_walk].
  - intros [= <-]. exists 0%nat. cbn. repeat split; auto; try lia; tauto.
  - destruct (add_days today (- i)) as [d|e] eqn:A; cbn [bind]; [|discriminate].
    destruct (dict_get (strftime d) m) as [c|] eqn:G.
    + destruct (0 <? c).
      * intros H. destruct (IH _ _ H) as (k & Hk & -> & Hin).
        exists (S k). cbn [List.length firstn]. repeat split; try lia.
        intros j [<-|Hj]; eauto using dict_get_In.
      * intros [= <-]. exists 0%nat. cbn. repeat split; auto; try lia; tauto.
    + intros [= <-]. exists 0%nat. cbn. repeat split; auto; try lia; tauto.
Qed.

Lemma firstn_seq k : forall a n,
  (k <= n)%nat -> firstn k (seq a n) = seq a k.
Proof.
  induction k as [|k IH]; intros a [|n] H; cbn; auto; try lia.
  f_equal. apply IH. lia.
Qed.

Lemma firstn_range k n j :
  (k <= n)%nat -> 0 <= j < Z.of_nat k ->
  In j (firstn k (range 0 (Z.of_nat n))).
Proof.
  intros Hk Hj. unfold range. rewrite Z.sub_0_r, Nat2Z.id.
  rewrite firstn_map, firstn_seq by lia.
  apply in_map_iff. exists (Z.to_nat j). split; [lia|].
  apply in_seq. lia.
Qed.

Lemma toordinal_range d :
  valid_date d = true -> 1 <= toordinal d <= MAXORDINAL.
Proof.
  intros V.
  pose proof (date_compare_ordinal (mkDate 1 1 1) d eq_refl V) as L.
  pose proof (date_compare_ordinal d (mkDate 9999 12 31) V eq_refl) as U.
  apply valid_date_fields in V. destruct V as (Y & M & D).
  change (toordinal (mkDate 1 1 1)) with 1 in L.
  change (toordinal (mkDate 9999 12 31)) with MAXORDINAL in U.
  unfold date_compare in L, U. cbn [year month day] in L, U.
  split.
  - unfold Z.le. rewrite <- L.
    destruct (Z.compare_spec 1 (year d)); try discriminate; try lia.
    destruct (Z.compare_spec 1 (month d)); try discriminate; try lia.
    destruct (Z.compare_spec 1 (day d)); try discriminate; lia.
  - unfold Z.le. rewrite <- U.
    destruct (Z.compare_spec (year d) 9999); try discriminate; try lia.
    destruct (Z.compare_spec (month d) 12); try discriminate; try lia.
    destruct (Z.compare_spec (day d) 31); try discriminate.
    unfold days_in_month in D.
    replace (month d) with 12 in D by lia. cbn in D. lia.
Qed.

Lemma streak_walk_returns (m : dict) today idx : forall s,
  (forall i, In i idx -> 0 < toordinal today - i <= MAXORDINAL) ->
  exists r, streak_walk m today idx s = Ok r.
Proof.
  induction idx as [|i idx IH]; intros s H; cbn [streak_walk]; eauto.
  unfold add_days.
  assert (0 < toordinal today - i <= MAXORDINAL) as Hi by (apply H; now left).
  replace (toordinal today + - i) with (toordinal today - i) by lia.
  replace ((0 <? toordinal today - i) && (toordinal today - i <=? MAXORDINAL))
    with true.
  2:{ symmetry. apply andb_true_intro. split; [apply Z.ltb_lt|apply Z.leb_le]; lia. }
  cbn [bind]. destruct (dict_get _ m) as [c|]; eauto.
  destruct (0 <? c); eauto. apply IH. intros j Hj. apply H. now right.
Qed.

Lemma longest_ge_current (m : dict) (today : date) :
  wf m -> iso_keys m ->
  exists longest,
    calculate_longest_streak m = Ok longest
    /\ (forall current,
          calculate_current_streak m today = Ok current -> current <= longest)
    /\ (valid_date today = true -> 30 <= toordinal today ->
        exists current, calculate_current_streak m today = Ok current).
Proof.
  intros W I. unfold calculate_longest_streak, calculate_current_streak.
  destruct m as [|kv m']; cbn [is_empty].
  { exists 0. repeat split; eauto. intros c [= <-]. lia. }
  set (m := kv :: m') in *.
  pose proof (sorted_perm (keys m)) as P.
  pose proof (sorted_sorted (keys m)) as S.
  assert (ND : NoDup (sorted (keys m))) by (eapply Permutation_NoDup; eauto).
  assert (I' : Forall (fun k => is_iso_date k = true) (sorted (keys m)))
    by (eapply Permutation_Forall; eauto).
  destruct (sorted (keys m)) as [|first rest] eqn:E.
  { apply Permutation_sym, Permutation_nil in P. discriminate. }
  rewrite longest_scan_ordinals by auto.
  eexists. split; [reflexivity|]. split.
  - intros c Hc. apply streak_walk_spec in Hc.
    destruct Hc as (k & Hk & -> & Hin). cbn [Z.add].
    pose proof (sorted_ordinals _ S ND I') as SO. cbn [map] in SO.
    apply (run_scan_covers _ _ _ _ (toordinal today)); auto; try lia.
    intros j Hj.
    destruct (Hin j) as (d & A & K).
    { change 30 with (Z.of_nat 30).
      apply firstn_range; [|lia]. unfold range in Hk.
      now rewrite length_map, length_seq in Hk. }
    apply add_days_spec in A. destruct A as (Vd & Od).
    assert (K' : In (strftime d) (first :: rest)) by (eapply Permutation_in; eauto).
    rewrite Forall_forall in I'. specialize (I' _ K').
    destruct (iso_spec _ I') as (_ & F & V).
    pose proof (strftime_ordinal _ _ V Vd) as C.
    rewrite F, string_compare_refl in C. symmetry in C.
    apply Z.compare_eq_iff in C.
    change (key_ordinal first :: map key_ordinal rest)
      with (map key_ordinal (first :: rest)).
    apply in_map_iff. exists (strftime d). split; auto.
    unfold key_ordinal. lia.
  - intros V H30. apply streak_walk_returns.
    intros i Hi. unfold range in Hi. apply in_map_iff in Hi.
    destruct Hi as (j & <- & Hj). apply in_seq in Hj.
    pose proof (toordinal_range _ V). cbn in Hj. lia.
Qed.

(** * The aggregation *)

Lemma bindM_lift_Ok {A B : Type} (a : A) (k : A -> M B) w :
  bindM (liftM (Ok a)) k w = k a w.
Proof. reflexivity. Qed.

Lemma bindM_lift_Raise {A B : Type} (e : exn) (k : A -> M B) w :
  bindM (liftM (Raise e)) k w = (w, Raise e).
Proof. reflexivity. Qed.

Lemma keeps_bindM {A B : Type} (m : M A) (k : A -> M B) :
  keeps_counts m -> (forall a, keeps_counts (k a)) -> keeps_counts (bindM m k).
Proof.
  intros Hm Hk w. unfold bindM. specialize (Hm w).
  destruct (m w) as [w' [a|e]]; cbn in *; [|auto].
  now rewrite Hk.
Qed.

Lemma keeps_liftM {A : Type} (r : result A) : keeps_counts (liftM r).
Proof. now intros w. Qed.

Lemma keeps_getM : keeps_counts getM.
Proof. now intros w. Qed.

Lemma keeps_modifyM f :
  (forall w, review_counts (f w) = review_counts w) -> keeps_counts (modifyM f).
Proof. intros H w. apply H. Qed.

Create HintDb keeps.
#[local] Hint Resolve keeps_liftM keeps_getM : keeps.

(** A chain of binds keeps the counts when each of its steps does. *)
Ltac keeps_chain :=
  repeat first
    [ solve [auto with keeps]
    | apply keeps_modifyM; reflexivity
    | apply keeps_bindM; [|intros ?] ].

Lemma keeps_update_stats_label now : keeps_counts (update_stats_label now).
Proof.
  unfold update_stats_label.
  apply keeps_bindM; [auto with keeps|]. intros self.
  apply keeps_bindM; [auto with keeps|]. intros total.
  destruct (0 <? total); keeps_chain.
Qed.

Lemma keeps_update_date_range_label now :
  keeps_counts (update_date_range_label now).
Proof. unfold update_date_range_label. keeps_chain. Qed.

#[local] Hint Resolve keeps_update_stats_label keeps_update_date_range_label
  : keeps.

(** The three ways through a call: the listing fails and the exception
    propagates, no collection is found, or the [try] statement runs on the
    collection found. *)
Lemma load_anki_data_cases env self :
  (find_anki_collection (files env) = ListingFailed
   /\ load_anki_data_call env self
      = (set_review_counts [] self, Some OSError))
  \/ (find_anki_collection (files env) <> ListingFailed
      /\ collection env = None
      /\ load_anki_data_call env self
         = (set_stats_label CollectionNotFound (set_review_counts [] self),
            None))
  \/ (exists db,
        collection env = Some db
        /\ load_anki_data_call env self
           = (load_from env db (set_review_counts [] self), None)).
Proof.
  unfold load_anki_data_call, collection. cbv zeta.
  destruct (find_anki_collection (files env)) as [[path|]|].
  - destruct (String.eqb path "").
    + right. left. repeat split. discriminate.
    + right. right. eexists. split; reflexivity.
  - right. left. repeat split. discriminate.
  - left. split; reflexivity.
Qed.

Lemma load_anki_data_located env self db :
  collection env = Some db ->
  load_anki_data_call env self
  = (load_from env db (set_review_counts [] self), None).
Proof.
  intros C.
  destruct (load_anki_data_cases env self)
    as [(F & _)|[(_ & N & _)|(db' & C' & E)]].
  - unfold collection in C. rewrite F in C. discriminate.
  - congruence.
  - rewrite C' in C. apply (f_equal (fun o => match o with
                                             | Some x => x
                                             | None => db
                                             end)) in C.
    subst db'. exact E.
Qed.

(** The dictionary a load leaves behind is empty or is what the row loop
    built from the rows of the review-history query. *)
Lemma load_review_counts env self :
  review_counts (load_anki_data env self) = []
  \/ exists db t rows,
       collection env = Some db /\ revlog db = Some t
       /\ select_revlog db t = Ok rows
       /\ review_counts (load_anki_data env self)
          = fst (process_rows (utcoffset env) rows []).
Proof.
  unfold load_anki_data.
  destruct (load_anki_data_cases env self)
    as [(_ & E)|[(_ & _ & E)|(db & C & E)]]; rewrite E; cbn [fst];
    [now left|now left|].
  unfold load_from, load_try.
  destruct (sql_exec db Connect) as [[]|e];
    [rewrite bindM_lift_Ok|rewrite bindM_lift_Raise; now left].
  destruct (sql_exec db SelectMaster) as [[]|e];
    [rewrite bindM_lift_Ok|rewrite bindM_lift_Raise; now left].
  destruct (revlog db) as [t|] eqn:R; [|now left].
  destruct (sql_exec db PragmaTableInfo) as [[]|e];
    [rewrite bindM_lift_Ok|rewrite bindM_lift_Raise; now left].
  destruct (select_revlog db t) as [rows|e] eqn:S;
    [rewrite bindM_lift_Ok|rewrite bindM_lift_Raise; now left].
  right. exists db, t, rows. repeat split; auto.
  unfold bindM at 1. cbn [review_counts set_review_counts].
  destruct (process_rows (utcoffset env) rows []) as [counts [e|]] eqn:P;
    cbn [fst]; [reflexivity|].
  match goal with
  | |- context [match ?k ?w with _ => _ end] =>
      assert (K : review_counts (fst (k w)) = counts)
  end.
  { match goal with
    | |- review_counts (fst (?k ?w)) = _ =>
        change counts with (review_counts w)
    end.
    keeps_chain. }
  match goal with
  | |- context [match ?x with _ => _ end] => destruct x as [w' [u|e]]
  end; cbn [fst] in K; cbn [review_counts set_stats_label]; auto.
Qed.

Lemma count_insert_positive d groups :
  positive_rows groups -> positive_rows (count_insert d groups).
Proof.
  unfold positive_rows.
  induction 1 as [|[d' c] g H F IH]; cbn [count_insert].
  - repeat constructor. cbn. lia.
  - cbn in H. destruct (d <? d'); [|destruct (d =? d')].
    + repeat constructor; auto. cbn. lia.
    + constructor; auto. cbn. lia.
    + constructor; auto.
Qed.

Lemma group_count_positive days : positive_rows (group_count days).
Proof.
  unfold group_count.
  assert (G : forall acc, positive_rows acc ->
            positive_rows (fold_left (fun g d => count_insert d g) days acc)).
  { induction days as [|d days IH]; intros acc H; cbn; auto.
    apply IH. now apply count_insert_positive. }
  apply G. constructor.
Qed.

Lemma group_insert_nonempty r groups :
  Forall (fun g => snd g <> []) groups ->
  Forall (fun g => snd g <> []) (group_insert r groups).
Proof.
  induction 1 as [|[d' rs] g H F IH]; cbn [group_insert].
  - repeat constructor. discriminate.
  - cbn [snd] in H. destruct (row_day r <? d'); [|destruct (row_day r =? d')].
    + repeat constructor; auto. discriminate.
    + constructor; auto. cbn [snd]. now destruct rs.
    + constructor; auto.
Qed.

Lemma group_rows_nonempty rows :
  Forall (fun g => snd g <> []) (group_rows rows).
Proof.
  unfold group_rows.
  assert (G : forall acc, Forall (fun g => snd g <> []) acc ->
            Forall (fun g => snd g <> [])
                   (fold_left (fun g r => group_insert r g) rows acc)).
  { induction rows as [|r rows IH]; intros acc H; cbn; auto.
    apply IH. now apply group_insert_nonempty. }
  apply G. constructor.
Qed.

Lemma order_insert_Forall (P : Z * Z * Z -> Prop) x l :
  P x -> Forall P l -> Forall P (order_insert x l).
Proof.
  intros Hx. induction 1 as [|y l Hy F IH]; cbn [order_insert].
  - repeat constructor; auto.
  - destruct (result_before x y); repeat constructor; auto.
Qed.

Lemma order_by_day_Forall (P : Z * Z * Z -> Prop) l :
  Forall P l -> Forall P (order_by_day l).
Proof.
  unfold order_by_day.
  assert (G : forall acc, Forall P l -> Forall P acc ->
            Forall P (fold_left (fun acc x => order_insert x acc) l acc)).
  { induction l as [|x l IH]; intros acc H A; cbn; auto.
    inversion H; subst. apply IH; auto. now apply order_insert_Forall. }
  intros H. apply G; auto.
Qed.

Lemma group_by_stored_day_positive db rows :
  positive_rows (group_by_stored_day db rows).
Proof.
  unfold positive_rows, group_by_stored_day.
  apply Forall_map.
  apply (order_by_day_Forall (fun x => 1 <= snd x)).
  apply Forall_map.
  eapply Forall_impl; [|apply group_rows_nonempty].
  intros [d rs] H. cbn [snd] in *. unfold group_result. cbn [snd].
  destruct rs; [contradiction|]. cbn [List.length]. lia.
Qed.

Lemma select_revlog_positive db t rows :
  select_revlog db t = Ok rows -> positive_rows rows.
Proof.
  unfold select_revlog. destruct (sql_exec db SelectRevlog); cbn [bind];
    [|discriminate].
  destruct (mem_string "id" (column_names t)).
  - destruct (has_column "day" (column_names t)); intros H; apply Ok_inj in H;
      subst rows.
    + apply group_by_stored_day_positive.
    + apply group_count_positive.
  - destruct (has_column "day" (column_names t)); [|discriminate].
    intros H. apply Ok_inj in H. subst rows. apply group_count_positive.
Qed.

Lemma dict_set_positive k v (d : dict) :
  1 <= v -> positive_counts d -> positive_counts (dict_set k v d).
Proof.
  unfold positive_counts. intros Hv.
  induction 1 as [|[k' v'] d H F IH]; cbn [dict_set].
  - repeat constructor. cbn. lia.
  - destruct (String.eqb k k'); constructor; auto.
Qed.

Lemma process_rows_positive tz rows : forall counts,
  positive_rows rows -> positive_counts counts ->
  positive_counts (fst (process_rows tz rows counts)).
Proof.
  induction rows as [|[day c] rows IH]; intros counts R C; cbn [process_rows];
    auto.
  inversion R as [|? ? Hc R']; subst. cbn in Hc.
  destruct (fromtimestamp tz (day * 86400)) as [d|e].
  - cbv zeta. destruct (String.prefix "2025-" (strftime d)); apply IH; auto.
    now apply dict_set_positive.
  - destruct (is_conversion_error e); auto.
Qed.

Lemma dict_get_positive k (d : dict) v :
  positive_counts d -> dict_get k d = Some v -> 1 <= v.
Proof.
  unfold positive_counts.
  induction 1 as [|[k' v'] d H F IH]; cbn [dict_get]; [discriminate|].
  destruct (String.eqb k k'); auto. intros [= <-]. exact H.
Qed.

Lemma load_positive env self :
  positive_counts (review_counts (load_anki_data env self)).
Proof.
  destruct (load_review_counts env self) as [->|(db & t & rows & _ & _ & S & ->)].
  - constructor.
  - apply process_rows_positive; [|constructor].
    eapply select_revlog_positive; eauto.
Qed.

Lemma dict_set_keys_in k v (d : dict) k' :
  In k' (keys (dict_set k v d)) <-> k' = k \/ In k' (keys d).
Proof.
  induction d as [|[k0 v0] d IH]; cbn [dict_set keys map fst In].
  - intuition.
  - destruct (String.eqb_spec k k0) as [->|N]; cbn [keys map fst In].
    + intuition.
    + fold (keys (dict_set k v d)). rewrite IH. fold (keys d). intuition.
Qed.

Lemma dict_set_wf k v (d : dict) : wf d -> wf (dict_set k v d).
Proof.
  unfold wf. induction d as [|[k0 v0] d IH]; cbn [dict_set keys map fst].
  - intros _. repeat constructor. intros [].
  - intros ND. inversion ND as [|? ? Hn ND']; subst.
    destruct (String.eqb_spec k k0) as [->|N]; cbn [keys map fst]; auto.
    constructor; [|now apply IH].
    fold (keys (dict_set k v d)). rewrite dict_set_keys_in.
    intros [E|E]; [congruence|contradiction].
Qed.

Lemma dict_set_iso k v (d : dict) :
  is_iso_date k = true -> iso_keys d -> iso_keys (dict_set k v d).
Proof.
  unfold iso_keys. rewrite !Forall_forall. intros Hk H k' Hin.
  apply dict_set_keys_in in Hin. destruct Hin as [->|Hin]; auto.
Qed.

Lemma fromtimestamp_cases tz t :
  (exists e, fromtimestamp tz t = Raise e
             /\ (is_conversion_error e = true
                 \/ (e = localtime_overflow
                     /\ localtime_fails tz t = true)))
  \/ (exists o, 1 <= o <= MAXORDINAL /\ fromtimestamp tz t = Ok (fromordinal o)
                /\ localtime_fails tz t = false
                /\ o = EPOCH_ORDINAL + (t + tz t) / 86400).
Proof.
  unfold fromtimestamp, localtime_fails. cbv zeta.
  destruct (orb (t <? - 2 ^ 63) (2 ^ 63 <=? t));
    [left; eexists; split; [reflexivity|now left]|].
  cbn [negb andb].
  set (o := EPOCH_ORDINAL + (t + tz t) / 86400).
  destruct (orb (year (fromordinal o) - 1900 <? - 2 ^ 31)
                (2 ^ 31 <=? year (fromordinal o) - 1900));
    [left; eexists; split; [reflexivity|right; now split]|].
  destruct (Z.leb_spec 1 o), (Z.leb_spec o MAXORDINAL); cbn [andb];
    try (left; eexists; split; [reflexivity|now left]).
  destruct (1 <=? EPOCH_ORDINAL + (t - 86400 + tz (t - 86400)) / 86400);
    [|left; eexists; split; [reflexivity|now left]].
  right. exists o. split; [lia|]. repeat split; reflexivity.
Qed.

Lemma fromtimestamp_valid tz t d :
  fromtimestamp tz t = Ok d -> valid_date d = true.
Proof.
  destruct (fromtimestamp_cases tz t) as [(e & -> & _)|(o & Ho & -> & _ & _)];
    [discriminate|].
  intros H. apply Ok_inj in H. subst d. now apply fromordinal_spec.
Qed.

Lemma Raise_inj {A : Type} (e e' : exn) :
  @Raise A e = Raise e' -> e = e'.
Proof.
  intros H.
  exact (f_equal (fun r => match r with Ok _ => e | Raise x => x end) H).
Qed.

(** Where [localtime] does not fail, a failure of the conversion is one
    of the two the loop catches. *)
Lemma fromtimestamp_raises tz t e :
  localtime_fails tz t = false ->
  fromtimestamp tz t = Raise e -> is_conversion_error e = true.
Proof.
  intros L.
  destruct (fromtimestamp_cases tz t)
    as [(e' & -> & [C|(_ & C)])|(o & Ho & -> & _ & _)];
    try discriminate; [|congruence].
  intros H. apply Raise_inj in H. now subst e'.
Qed.

Lemma fromtimestamp_localtime_fails tz t :
  localtime_fails tz t = true ->
  fromtimestamp tz t = Raise localtime_overflow.
Proof.
  intros L.
  destruct (fromtimestamp_cases tz t)
    as [(e' & E & [C|(-> & _)])|(o & Ho & _ & C & _)]; auto; [|congruence].
  unfold fromtimestamp, localtime_fails in *. cbv zeta in *.
  destruct (orb (t <? - 2 ^ 63) (2 ^ 63 <=? t)); [discriminate|].
  cbn [negb andb] in L. rewrite L in E. apply Raise_inj in E. now subst e'.
Qed.

Lemma process_rows_wf_iso tz rows : forall counts,
  wf counts -> iso_keys counts ->
  wf (fst (process_rows tz rows counts))
  /\ iso_keys (fst (process_rows tz rows counts)).
Proof.
  induction rows as [|[day c] rows IH]; intros counts W I; cbn [process_rows];
    auto.
  destruct (fromtimestamp tz (day * 86400)) as [d|e] eqn:F.
  - cbv zeta. destruct (String.prefix "2025-" (strftime d)); apply IH; auto.
    + now apply dict_set_wf.
    + apply dict_set_iso; auto. apply strftime_is_iso.
      eapply fromtimestamp_valid; eauto.
  - destruct (is_conversion_error e); auto.
Qed.

(** What a load leaves in [review_counts] is a dictionary of the data
    model: distinct keys, each an ISO date string. *)
Lemma load_wf_iso env self :
  wf (review_counts (load_anki_data env self))
  /\ iso_keys (review_counts (load_anki_data env self)).
Proof.
  destruct (load_review_counts env self) as [->|(db & t & rows & _ & _ & S & ->)].
  - split; constructor.
  - apply process_rows_wf_iso; constructor.
Qed.

(** A row whose conversion raises one of the two caught errors is
    skipped. *)
Lemma process_rows_skip tz pre : forall day count post counts e,
  fromtimestamp tz (day * 86400) = Raise e ->
  is_conversion_error e = true ->
  process_rows tz (pre ++ (day, count) :: post) counts
  = process_rows tz (pre ++ post) counts.
Proof.
  induction pre as [|[day' c'] pre IH]; intros day count post counts e F C;
    cbn [app process_rows].
  - rewrite F. now rewrite C.
  - destruct (fromtimestamp tz (day' * 86400)) as [d|e'] eqn:F'.
    + cbv zeta. destruct (String.prefix "2025-" (strftime d)); eauto.
    + destruct (is_conversion_error e'); eauto.
Qed.

(** Where [localtime] fails on no row, nothing escapes the loop. *)
Lemma process_rows_no_escape tz rows : forall counts,
  Forall (fun r => localtime_fails tz (fst r * 86400) = false) rows ->
  snd (process_rows tz rows counts) = None.
Proof.
  induction rows as [|[day c] rows IH]; intros counts H; cbn [process_rows];
    auto.
  inversion H as [|? ? H1 H2]; subst. cbn [fst] in H1.
  destruct (fromtimestamp tz (day * 86400)) as [d|e] eqn:F.
  - cbv zeta. destruct (String.prefix "2025-" (strftime d)); auto.
  - rewrite (fromtimestamp_raises _ _ _ H1 F). auto.
Qed.

(** Where it fails on some row, its [OSError] escapes the loop. *)
Lemma process_rows_escape tz rows : forall counts,
  Exists (fun r => localtime_fails tz (fst r * 86400) = true) rows ->
  snd (process_rows tz rows counts) = Some localtime_overflow.
Proof.
  induction rows as [|[day c] rows IH]; intros counts H; cbn [process_rows];
    [inversion H|].
  destruct (localtime_fails tz (day * 86400)) eqn:L.
  - rewrite (fromtimestamp_localtime_fails _ _ L). reflexivity.
  - assert (R : Exists (fun r => localtime_fails tz (fst r * 86400) = true)
                       rows).
    { inversion H as [? ? H1|? ? H1]; subst; auto. cbn [fst] in H1.
      congruence. }
    destruct (fromtimestamp tz (day * 86400)) as [d|e] eqn:F.
    + cbv zeta. destruct (String.prefix "2025-" (strftime d)); auto.
    + rewrite (fromtimestamp_raises _ _ _ L F). auto.
Qed.

Lemma sql_exec_fault db st msg :
  fault db = Some (st, msg) ->
  sql_exec db st = Raise (mkExn OperationalError msg)
  /\ forall st', st' <> st -> sql_exec db st' = Ok tt.
Proof.
  intros F. unfold sql_exec. rewrite F. split.
  - now destruct st.
  - intros st' N. destruct st', st; cbn; congruence.
Qed.

(** * Properties of the streaks *)

(** A concrete dictionary has distinct keys, each an ISO date string. *)
Ltac distinct_keys :=
  unfold wf; simpl;
  repeat (constructor; [simpl; intuition discriminate|]); constructor.

Ltac all_iso :=
  unfold iso_keys; simpl; repeat (constructor; [reflexivity|]); constructor.

(** C1, as stated, fails: with the clock on 5 January 2025 the current
    streak of the scenario is 1 but the longest streak is not 2. *)
Lemma scenario_longest_streak_is_not_two :
  ~ (calculate_current_streak scenario_counts (mkDate 2025 1 5) = Ok 1
     /\ calculate_longest_streak scenario_counts = Ok 2).
Proof. intros [_ H]. vm_compute in H. discriminate. Qed.

(** C1, amended: in the scenario of section 8, whenever the effective
    today is 5 January 2025 the current streak is 1 and the longest streak
    is 3, the run 1-3 January: the zero count of 3 January is a key of the
    dictionary like any other. *)
Theorem scenario_streaks (now : date) :
  effective_today now = mkDate 2025 1 5 ->
  calculate_current_streak scenario_counts now = Ok 1
  /\ calculate_longest_streak scenario_counts = Ok 3.
Proof.
  unfold effective_today. destruct (year now =? 2025); [|discriminate].
  intros ->. split; reflexivity.
Qed.

Lemma scenario_streaks_witness :
  effective_today (mkDate 2025 1 5) = mkDate 2025 1 5
  /\ calculate_current_streak scenario_counts (mkDate 2025 1 5) = Ok 1
  /\ calculate_longest_streak scenario_counts = Ok 3.
Proof.
  split; [reflexivity|].
  apply (scenario_streaks (mkDate 2025 1 5)). reflexivity.
Defined.

(** C4: for a dictionary of the data model (distinct keys, each an ISO date
    string) the longest streak is computed, and it is at least the current
    streak for every reading of the clock; the current streak is computed
    for every clock reading from 30 January of year 1 on.  The empty
    dictionary is included. *)
Theorem longest_streak_ge_current_streak (m : dict) (today : date) :
  wf m -> iso_keys m ->
  exists longest,
    calculate_longest_streak m = Ok longest
    /\ (forall current,
          calculate_current_streak m today = Ok current -> current <= longest)
    /\ (valid_date today = true -> 30 <= toordinal today ->
        exists current, calculate_current_streak m today = Ok current).
Proof.
  apply longest_ge_current.
Qed.

Lemma longest_streak_ge_current_streak_witness :
  wf scenario_counts /\ iso_keys scenario_counts
  /\ exists longest,
       calculate_longest_streak scenario_counts = Ok longest
       /\ (forall current,
             calculate_current_streak scenario_counts (mkDate 2025 1 5)
             = Ok current -> current <= longest)
       /\ (valid_date (mkDate 2025 1 5) = true ->
           30 <= toordinal (mkDate 2025 1 5) ->
           exists current,
             calculate_current_streak scenario_counts (mkDate 2025 1 5)
             = Ok current).
Proof.
  assert (W : wf scenario_counts) by distinct_keys.
  assert (I : iso_keys scenario_counts) by all_iso.
  split; [exact W|]. split; [exact I|].
  exact (longest_streak_ge_current_streak scenario_counts (mkDate 2025 1 5) W I).
Defined.

(** Without the ISO form of the keys the inequality fails: ["2025-01-1"]
    parses as 1 January and sorts between 9 and 10 January. *)
Example short_key_breaks_the_inequality :
  let m := [("2025-01-09"%string, 1); ("2025-01-1"%string, 1);
            ("2025-01-10"%string, 1)] in
  calculate_current_streak m (mkDate 2025 1 10) = Ok 2
  /\ calculate_longest_streak m = Ok 1.
Proof. split; reflexivity. Qed.

(** The dictionaries a load produces satisfy the hypotheses of C4. *)
Corollary loaded_longest_ge_current env self today :
  let m := review_counts (load_anki_data env self) in
  exists longest,
    calculate_longest_streak m = Ok longest
    /\ forall current,
         calculate_current_streak m today = Ok current -> current <= longest.
Proof.
  intros m. destruct (load_wf_iso env self) as (W & I).
  destruct (longest_ge_current m today W I) as (l & L & C & _). eauto.
Qed.

(** C7: the longest streak does not depend on the order in which the
    date/count pairs are held. *)
Theorem longest_streak_order_invariant (m1 m2 : dict) :
  Permutation m1 m2 ->
  calculate_longest_streak m1 = calculate_longest_streak m2.
Proof.
  intros P. unfold calculate_longest_streak.
  assert (E : is_empty m1 = is_empty m2).
  { destruct m1, m2; auto.
    - apply Permutation_nil in P. discriminate.
    - apply Permutation_sym, Permutation_nil in P. discriminate. }
  rewrite E.
  now rewrite (sorted_Permutation (keys m1) (keys m2))
    by (unfold keys; now apply Permutation_map).
Qed.

Lemma longest_streak_order_invariant_witness :
  let m1 := [("2025-01-02"%string, 5); ("2025-01-01"%string, 3);
             ("2025-01-05"%string, 2)] in
  let m2 := [("2025-01-01"%string, 3); ("2025-01-02"%string, 5);
             ("2025-01-05"%string, 2)] in
  Permutation m1 m2
  /\ calculate_longest_streak m1 = calculate_longest_streak m2.
Proof.
  intros m1 m2. assert (P : Permutation m1 m2) by apply perm_swap.
  split; [exact P|]. exact (longest_streak_order_invariant m1 m2 P).
Defined.

(** C9: the longest streak is a function of the set of keys alone; the
    counts, zero or not, play no part. *)
Theorem longest_streak_depends_on_keys_only (m1 m2 : dict) :
  wf m1 -> wf m2 ->
  (forall k, In k (keys m1) <-> In k (keys m2)) ->
  calculate_longest_streak m1 = calculate_longest_streak m2.
Proof.
  intros W1 W2 H. unfold calculate_longest_streak.
  assert (P : Permutation (keys m1) (keys m2)) by now apply NoDup_Permutation.
  assert (E : is_empty m1 = is_empty m2).
  { destruct m1 as [|[k1 v1] m1], m2 as [|[k2 v2] m2]; auto.
    - apply Permutation_nil in P. discriminate.
    - apply Permutation_sym, Permutation_nil in P. discriminate. }
  now rewrite E, (sorted_Permutation _ _ P).
Qed.

Lemma longest_streak_depends_on_keys_only_witness :
  wf scenario_counts /\ wf scenario_recounted
  /\ (forall k, In k (keys scenario_counts) <-> In k (keys scenario_recounted))
  /\ calculate_longest_streak scenario_counts
     = calculate_longest_streak scenario_recounted.
Proof.
  assert (W1 : wf scenario_counts) by distinct_keys.
  assert (W2 : wf scenario_recounted) by distinct_keys.
  assert (K : forall k, In k (keys scenario_counts)
                        <-> In k (keys scenario_recounted))
    by (intros k; simpl; tauto).
  repeat (split; [assumption|]).
  exact (longest_streak_depends_on_keys_only _ _ W1 W2 K).
Defined.

(** * Properties of the loaded counts *)

(** C8: every count a load stores is at least 1; a date without reviews is
    not a key of the dictionary. *)
Theorem loaded_counts_at_least_one (env : environment) (self : widget)
    (k : string) (v : Z) :
  dict_get k (review_counts (load_anki_data env self)) = Some v -> 1 <= v.
Proof.
  apply dict_get_positive, load_positive.
Qed.

Lemma loaded_counts_at_least_one_witness :
  dict_get "2025-02-26"
    (review_counts (load_anki_data late_env initial_widget)) = Some 4
  /\ 1 <= 4.
Proof.
  split; [reflexivity|].
  apply (loaded_counts_at_least_one late_env initial_widget "2025-02-26").
  reflexivity.
Defined.

(** * Properties of the colour ramp *)

Lemma max_of_ge xs : forall x, x <= max_of x xs.
Proof.
  unfold max_of. induction xs as [|y xs IH]; intros x; cbn; [lia|].
  specialize (IH (Z.max x y)). lia.
Qed.

Lemma max_count_positive (d : dict) : positive_counts d -> 1 <= max_count d.
Proof.
  unfold max_count, positive_counts. destruct d as [|[k v] d]; cbn; [lia|].
  intros H. inversion H as [|? ? Hv _]; subst. cbn in Hv.
  pose proof (max_of_ge (values d) v). fold (values d). lia.
Qed.

Lemma quotient_mono (mx c1 c2 : Z) :
  0 < mx -> c1 <= c2 ->
  (inject_Z c1 / inject_Z mx <= inject_Z c2 / inject_Z mx)%Q.
Proof.
  intros Hm Hc. unfold Qdiv. apply Qmult_le_compat_r.
  - now rewrite <- Zle_Qle.
  - apply Qinv_le_0_compat. change 0%Q with (inject_Z 0).
    rewrite <- Zle_Qle. lia.
Qed.

Lemma intensity_mono (mx c1 c2 : Z) :
  0 < mx -> c1 <= c2 ->
  exists i1 i2,
    intensity mx c1 = Ok i1 /\ intensity mx c2 = Ok i2 /\ (i1 <= i2)%Q.
Proof.
  intros Hm Hc. unfold intensity.
  replace (mx =? 0) with false by (symmetry; apply Z.eqb_neq; lia).
  destruct (Z.ltb_spec 0 c1) as [H1|H1], (Z.ltb_spec 0 c2) as [H2|H2];
    try lia; do 2 eexists; (split; [reflexivity|]); (split; [reflexivity|]).
  - apply Q.min_le_compat_l. now apply quotient_mono.
  - apply Q.min_glb; [discriminate|].
    apply Qle_trans with (inject_Z 0 / inject_Z mx)%Q.
    + unfold Qdiv. rewrite Qmult_0_l. apply Qle_refl.
    + apply quotient_mono; lia.
  - apply Qle_refl.
Qed.

(** C5: for a positive period maximum the intensity of a cell does not
    decrease when the count grows, and on the days with reviews the green
    component grows with it while red and blue stay fixed; a count of 0 is
    painted in the neutral colour exactly; and the maximum that scales the
    colours of a loaded widget is at least 1. *)
Theorem cell_color_scale (mx c1 c2 : Z) :
  0 < mx -> c1 <= c2 ->
  (exists i1 i2,
      intensity mx c1 = Ok i1 /\ intensity mx c2 = Ok i2 /\ (i1 <= i2)%Q
      /\ (0 < c1 ->
          cell_color mx c1 = Ok (15 # 100, (4 # 10) + i1 * (5 # 10), 15 # 100)%Q
          /\ cell_color mx c2
             = Ok (15 # 100, (4 # 10) + i2 * (5 # 10), 15 # 100)%Q
          /\ ((4 # 10) + i1 * (5 # 10) <= (4 # 10) + i2 * (5 # 10))%Q))
  /\ cell_color mx 0 = Ok NEUTRAL
  /\ NEUTRAL = (9 # 10, 9 # 10, 9 # 10)%Q
  /\ (forall env self, 1 <= max_count (review_counts (load_anki_data env self))).
Proof.
  intros Hm Hc. split; [|split; [|split]].
  - destruct (intensity_mono mx c1 c2 Hm Hc) as (i1 & i2 & E1 & E2 & L).
    exists i1, i2. repeat (split; auto).
    + unfold cell_color. rewrite E1. cbn [bind].
      now replace (0 <? c1) with true by (symmetry; apply Z.ltb_lt; lia).
    + unfold cell_color. rewrite E2. cbn [bind].
      now replace (0 <? c2) with true by (symmetry; apply Z.ltb_lt; lia).
    + apply Qplus_le_r. apply Qmult_le_compat_r; [exact L|discriminate].
  - reflexivity.
  - reflexivity.
  - intros env self. apply max_count_positive, load_positive.
Qed.

Lemma cell_color_scale_witness :
  0 < 5 /\ 2 <= 5 /\
  (exists i1 i2,
      intensity 5 2 = Ok i1 /\ intensity 5 5 = Ok i2 /\ (i1 <= i2)%Q
      /\ (0 < 2 ->
          cell_color 5 2 = Ok (15 # 100, (4 # 10) + i1 * (5 # 10), 15 # 100)%Q
          /\ cell_color 5 5
             = Ok (15 # 100, (4 # 10) + i2 * (5 # 10), 15 # 100)%Q
          /\ ((4 # 10) + i1 * (5 # 10) <= (4 # 10) + i2 * (5 # 10))%Q))
  /\ cell_color 5 0 = Ok NEUTRAL
  /\ NEUTRAL = (9 # 10, 9 # 10, 9 # 10)%Q
  /\ (forall env self, 1 <= max_count (review_counts (load_anki_data env self))).
Proof.
  split; [lia|]. split; [lia|]. apply (cell_color_scale 5 2 5); lia.
Defined.

(** At the period maximum the intensity is 1: the cell is at full green. *)
Example full_intensity_at_maximum :
  exists i, intensity 5 5 = Ok i /\ (i == 1)%Q
            /\ exists g, cell_color 5 5 = Ok (15 # 100, g, 15 # 100)%Q
                         /\ (g == 9 # 10)%Q.
Proof.
  eexists. split; [reflexivity|]. split; [reflexivity|].
  eexists. split; reflexivity.
Qed.

(** * The command line *)

(** C10, as stated, fails: [--install extra] has an argument that is
    neither flag, and the program installs the desklet. *)
Lemma install_with_extra_argument :
  let argv := ["anki_heatmap.py"; "--install"; "extra"]%string in
  (exists a, In a (tl argv) /\ a <> "--install"%string
             /\ a <> "--autostart"%string)
  /\ main argv <> [].
Proof.
  cbn. split; [|discriminate].
  exists "extra"%string. repeat split; auto; discriminate.
Qed.

(** C10, amended: when the first command-line argument is neither
    [--install] nor [--autostart], the program does nothing: it installs
    nothing and does not start the widget. *)
Theorem unknown_first_argument_does_nothing (argv : list string) (a : string) :
  nth_error argv 1 = Some a ->
  a <> "--install"%string -> a <> "--autostart"%string ->
  main argv = [].
Proof.
  intros H N1 N2. unfold main. rewrite H.
  apply String.eqb_neq in N1, N2. rewrite N1, N2.
  destruct (Z.ltb_spec 1 (Z.of_nat (List.length argv))) as [L|L];
    [reflexivity|].
  assert (S : nth_error argv 1 <> None) by congruence.
  apply nth_error_Some in S. lia.
Qed.

Lemma unknown_first_argument_does_nothing_witness :
  nth_error ["anki_heatmap.py"; "--help"]%string 1 = Some "--help"%string
  /\ "--help"%string <> "--install"%string
  /\ "--help"%string <> "--autostart"%string
  /\ main ["anki_heatmap.py"; "--help"]%string = [].
Proof.
  split; [reflexivity|]. split; [discriminate|]. split; [discriminate|].
  apply (unknown_first_argument_does_nothing _ "--help"%string).
  - reflexivity.
  - discriminate.
  - discriminate.
Defined.

(** The recognised invocations. *)
Example main_dispatch :
  main ["anki_heatmap.py"]%string = [RunWidget]
  /\ main ["anki_heatmap.py"; "--install"]%string = [InstallAsDesklet]
  /\ main ["anki_heatmap.py"; "--autostart"]%string = [SetupDesktopFile].
Proof. repeat split. Qed.

(** * The grid and the clock *)

Lemma inline_effective_today now :
  (if negb (year now =? 2025) then mkDate 2025 2 26 else now)
  = effective_today now.
Proof. unfold effective_today. now destruct (year now =? 2025). Qed.

Lemma effective_today_year now : year (effective_today now) = 2025.
Proof.
  unfold effective_today. destruct (Z.eqb_spec (year now) 2025); auto.
Qed.

Lemma effective_today_valid now :
  valid_date now = true -> valid_date (effective_today now) = true.
Proof. unfold effective_today. now destruct (year now =? 2025). Qed.

Lemma effective_today_idem now :
  effective_today (effective_today now) = effective_today now.
Proof.
  unfold effective_today at 1. now rewrite effective_today_year.
Qed.

Lemma in_2025_after_start d :
  valid_date d = true -> year d = 2025 ->
  date_gt (mkDate 2025 1 1) d = false /\ 739252 <= toordinal d.
Proof.
  intros V Y.
  pose proof (date_compare_ordinal (mkDate 2025 1 1) d eq_refl V) as C.
  change (toordinal (mkDate 2025 1 1)) with 739252 in C.
  assert (G : date_compare (mkDate 2025 1 1) d <> Gt).
  { apply valid_date_fields in V. destruct V as (_ & M & D).
    unfold date_compare. cbn [year month day]. rewrite Y.
    change (2025 ?= 2025) with Eq. cbv iota.
    destruct (Z.compare_spec 1 (month d)); try discriminate; try lia.
    destruct (Z.compare_spec 1 (day d)); try discriminate; lia. }
  split.
  - unfold date_gt. now destruct (date_compare (mkDate 2025 1 1) d).
  - unfold Z.le. now rewrite <- C.
Qed.

Lemma get_days_in_2025_effective now :
  get_days_in_2025 now
  = days_between (effective_today now) (mkDate 2025 1 1) + 1.
Proof. unfold get_days_in_2025. cbv zeta. now rewrite inline_effective_today. Qed.

Lemma get_days_in_2025_positive now :
  valid_date now = true -> 1 <= get_days_in_2025 now.
Proof.
  intros V. rewrite get_days_in_2025_effective. unfold days_between.
  destruct (in_2025_after_start (effective_today now)) as (_ & H).
  - now apply effective_today_valid.
  - apply effective_today_year.
  - change (toordinal (mkDate 2025 1 1)) with 739252. lia.
Qed.

Lemma range_cons a b : a < b -> range a b = a :: range (a + 1) b.
Proof.
  intros H. unfold range.
  replace (Z.to_nat (b - a)) with (S (Z.to_nat (b - (a + 1)))) by lia.
  cbn [seq map]. f_equal; [lia|].
  rewrite <- seq_shift, map_map. apply map_ext. intros i. lia.
Qed.

(** Where [draw_heatmap] paints 1 January 2025 whenever it paints. *)
Lemma draw_heatmap_first_cell now counts width cells :
  valid_date now = true ->
  draw_heatmap now counts width = Ok cells ->
  cell_of_date cells (mkDate 2025 1 1) = Some (2, 0).
Proof.
  intros V. unfold draw_heatmap. cbv zeta.
  rewrite inline_effective_today.
  destruct (Z.min (Z.min (get_days_in_2025 now) 105 / 7 + 1) (width / 20) =? 0);
    [discriminate|].
  pose proof (get_days_in_2025_positive now V) as P.
  rewrite range_cons by lia. cbn [draw_cells].
  unfold draw_cell at 1.
  change (add_days (mkDate 2025 1 1) 0) with (Ok (mkDate 2025 1 1)).
  cbn [bind].
  destruct (in_2025_after_start (effective_today now)) as (G & _);
    [now apply effective_today_valid | apply effective_today_year |].
  rewrite G.
  destruct (cell_color _ _) as [rgb|e]; cbn [bind]; [|discriminate].
  destruct (draw_cells _ _ _ _) as [cs|e]; cbn [bind]; [|discriminate].
  intros [= <-]. reflexivity.
Qed.

(** The tooltip of the cell in column 0, row 2 never names 1 January 2025. *)
Lemma motion_first_cell now width :
  on_heatmap_motion now width 0 2 <> Ok (Some (mkDate 2025 1 1)).
Proof.
  unfold on_heatmap_motion. cbv zeta.
  set (cols := Z.min (Z.min (get_days_in_2025 now) 105 / 7) (width / 20)).
  destruct (cols =? 0); [discriminate|].
  destruct (Z.leb_spec cols 0) as [L|L]; cbn [orb]; [discriminate|].
  change (7 <=? 2) with false. cbv iota.
  destruct (add_days (mkDate 2025 1 1) ((cols - 1 - 0) * 7 + 2)) as [d|e] eqn:A;
    cbn [bind]; [|discriminate].
  destruct (date_gt d _); [discriminate|].
  intros [= ->]. apply add_days_spec in A. destruct A as (_ & A).
  change (toordinal (mkDate 2025 1 1)) with 739252 in A. lia.
Qed.

(** C3: the two addressings disagree.  Whatever the clock and the width of
    the area, [draw_heatmap] paints 1 January 2025 in row 2 of column 0,
    and [on_heatmap_motion] never answers 1 January 2025 for row 2 of
    column 0: it counts the columns from the right and takes the row for
    the number of days into the week. *)
Theorem tooltip_does_not_invert_layout (now : date) (counts : dict)
    (width : Z) (cells : list cell) :
  valid_date now = true ->
  draw_heatmap now counts width = Ok cells ->
  cell_of_date cells (mkDate 2025 1 1) = Some (2, 0)
  /\ on_heatmap_motion now width 0 2 <> Ok (Some (mkDate 2025 1 1)).
Proof.
  intros V D. split.
  - eapply draw_heatmap_first_cell; eauto.
  - apply motion_first_cell.
Qed.

Lemma tooltip_does_not_invert_layout_witness :
  let cells := match draw_heatmap (mkDate 2025 2 26) [] 380 with
               | Ok cells => cells
               | Raise _ => []
               end in
  valid_date (mkDate 2025 2 26) = true
  /\ draw_heatmap (mkDate 2025 2 26) [] 380 = Ok cells
  /\ cell_of_date cells (mkDate 2025 1 1) = Some (2, 0)
  /\ on_heatmap_motion (mkDate 2025 2 26) 380 0 2
     <> Ok (Some (mkDate 2025 1 1)).
Proof.
  intros cells.
  assert (V : valid_date (mkDate 2025 2 26) = true) by reflexivity.
  assert (D : draw_heatmap (mkDate 2025 2 26) [] 380 = Ok cells)
    by (vm_compute; reflexivity).
  split; [exact V|]. split; [exact D|].
  exact (tooltip_does_not_invert_layout (mkDate 2025 2 26) [] 380 cells V D).
Defined.

(** On 26 February 2025, in an area 380 pixels wide, the tooltip of the
    cell that shows 1 January names 21 February. *)
Example tooltip_of_first_cell :
  on_heatmap_motion (mkDate 2025 2 26) 380 0 2 = Ok (Some (mkDate 2025 2 21)).
Proof. reflexivity. Qed.

(** The sites that do substitute the effective today: they give the same
    result for the clock reading and for its effective today. *)
Lemma sites_using_effective_today now :
  get_days_in_2025 now = get_days_in_2025 (effective_today now)
  /\ update_date_range_label now = update_date_range_label (effective_today now)
  /\ update_stats_label now = update_stats_label (effective_today now)
  /\ (forall counts width,
        draw_heatmap now counts width
        = draw_heatmap (effective_today now) counts width)
  /\ (forall width col row,
        on_heatmap_motion now width col row
        = on_heatmap_motion (effective_today now) width col row).
Proof.
  assert (G : get_days_in_2025 now = get_days_in_2025 (effective_today now)).
  { now rewrite !get_days_in_2025_effective, effective_today_idem. }
  repeat split.
  - exact G.
  - unfold update_date_range_label. cbv zeta.
    now rewrite !inline_effective_today, effective_today_idem.
  - unfold update_stats_label. cbv zeta.
    now rewrite !inline_effective_today, effective_today_idem.
  - intros. unfold draw_heatmap. cbv zeta.
    now rewrite !inline_effective_today, effective_today_idem, G.
  - intros. unfold on_heatmap_motion. cbv zeta.
    now rewrite !inline_effective_today, effective_today_idem, G.
Qed.

(** C2: the current-streak walk starts from the clock, not from the
    effective today.  With four reviews on 26 February 2025 and the clock
    on 1 March 2026, the effective today is 26 February 2025; the labels
    are built for that day ("Today: 4 reviews", a range ending on
    26 February) while the streak shown next to them is 0, although the
    walk from the effective today counts 1. *)
Theorem current_streak_walks_from_the_clock :
  let loaded := load_anki_data late_env initial_widget in
  effective_today (clock late_env) = mkDate 2025 2 26
  /\ stats_label loaded = Statistics 4 0 1 4
  /\ date_range_label loaded
     = Displaying (mkDate 2025 1 1) (mkDate 2025 2 26)
  /\ calculate_current_streak (review_counts loaded) (clock late_env) = Ok 0
  /\ calculate_current_streak (review_counts loaded)
       (effective_today (clock late_env)) = Ok 1.
Proof. vm_compute. repeat split. Qed.

(** * Further properties of the program *)

(** * More on the calendar *)

Lemma toordinal_inj a b :
  valid_date a = true -> valid_date b = true ->
  toordinal a = toordinal b -> a = b.
Proof.
  intros Va Vb E. pose proof (date_compare_ordinal a b Va Vb) as C.
  rewrite E, Z.compare_refl in C. unfold date_compare in C.
  destruct a as [ya ma da], b as [yb mb db]. cbn [year month day] in C.
  destruct (Z.compare_spec ya yb); try discriminate.
  destruct (Z.compare_spec ma mb); try discriminate.
  destruct (Z.compare_spec da db); try discriminate.
  congruence.
Qed.

Lemma fromordinal_toordinal d :
  valid_date d = true -> fromordinal (toordinal d) = d.
Proof.
  intros V. pose proof (toordinal_range d V) as R.
  destruct (fromordinal_spec (toordinal d) R) as (V' & E).
  now apply toordinal_inj.
Qed.

Lemma strftime_inj a b :
  valid_date a = true -> valid_date b = true ->
  strftime a = strftime b -> a = b.
Proof.
  intros Va Vb E. apply toordinal_inj; auto.
  pose proof (strftime_ordinal a b Va Vb) as C.
  rewrite E, string_compare_refl in C. symmetry in C.
  now apply Z.compare_eq_iff in C.
Qed.

Lemma add_days_ok d k :
  0 < toordinal d + k <= MAXORDINAL ->
  add_days d k = Ok (fromordinal (toordinal d + k)).
Proof.
  intros H. unfold add_days.
  replace ((0 <? toordinal d + k) && (toordinal d + k <=? MAXORDINAL))
    with true; auto.
  symmetry. apply andb_true_intro. split; [apply Z.ltb_lt|apply Z.leb_le]; lia.
Qed.

(** * The streaks, in full *)

Lemma streak_walk_exact (m : dict) today idx : forall s r,
  streak_walk m today idx s = Ok r ->
  exists k, (k <= List.length idx)%nat /\ r = s + Z.of_nat k
    /\ (forall i, In i (firstn k idx) ->
          exists d, add_days today (- i) = Ok d /\ studied m d = true)
    /\ (forall i, nth_error idx k = Some i ->
          exists d, add_days today (- i) = Ok d /\ studied m d = false).
Proof.
  induction idx as [|i idx IH]; intros s r; cbn [streak_walk].
  - intros [= <-]. exists 0%nat. cbn. repeat split; auto; try lia; try tauto.
    discriminate.
  - destruct (add_days today (- i)) as [d|e] eqn:A; cbn [bind]; [|discriminate].
    assert (Stop : Ok s = Ok r -> studied m d = false ->
                   exists k, (k <= List.length (i :: idx))%nat
                     /\ r = s + Z.of_nat k
                     /\ (forall i0, In i0 (firstn k (i :: idx)) ->
                           exists d0, add_days today (- i0) = Ok d0
                                      /\ studied m d0 = true)
                     /\ (forall i0, nth_error (i :: idx) k = Some i0 ->
                           exists d0, add_days today (- i0) = Ok d0
                                      /\ studied m d0 = false)).
    { intros [= <-] F. exists 0%nat. cbn. repeat split; try lia; try tauto.
      intros i0 [= <-]. eauto. }
    unfold studied in Stop.
    destruct (dict_get (strftime d) m) as [c|] eqn:G; [|auto].
    destruct (0 <? c) eqn:P; [|auto].
    intros H. destruct (IH _ _ H) as (k & Hk & -> & Hin & Hstop).
    exists (S k). cbn [List.length firstn nth_error]. repeat split; try lia; auto.
    intros j [<-|Hj]; auto.
    exists d. split; auto. unfold studied. now rewrite G.
Qed.

Lemma nth_error_range n k :
  (k < n)%nat -> nth_error (range 0 (Z.of_nat n)) k = Some (Z.of_nat k).
Proof.
  intros H. unfold range. rewrite Z.sub_0_r, Nat2Z.id.
  rewrite nth_error_map, nth_error_seq.
  destruct (Nat.ltb_spec k n); [reflexivity|lia].
Qed.

(** X1: from 30 January of year 1 on, the current streak is computed, and
    it is the number of studied days in a row ending today, capped at 30:
    the days today, today - 1, ..., today - (c - 1) each have a positive
    count, and unless c is 30 the day today - c has none.  In particular
    the streak is 0 exactly when today itself has no positive count. *)
Theorem current_streak_counts_the_run (m : dict) (today : date) :
  valid_date today = true -> 30 <= toordinal today ->
  exists c,
    calculate_current_streak m today = Ok c
    /\ 0 <= c <= 30
    /\ (forall j, 0 <= j < c ->
          studied m (fromordinal (toordinal today - j)) = true)
    /\ (c < 30 -> studied m (fromordinal (toordinal today - c)) = false)
    /\ (c = 0 <-> studied m today = false).
Proof.
  intros V H30. pose proof (toordinal_range today V) as R.
  assert (A : forall j, 0 <= j < 30 ->
            add_days today (- j) = Ok (fromordinal (toordinal today - j))).
  { intros j Hj. rewrite add_days_ok by lia. reflexivity. }
  assert (Z0 : studied m today = studied m (fromordinal (toordinal today - 0))).
  { now rewrite Z.sub_0_r, fromordinal_toordinal. }
  unfold calculate_current_streak. destruct m as [|kv m']; cbn [is_empty].
  { exists 0. repeat split; auto; try lia. }
  set (m := kv :: m') in *.
  destruct (streak_walk_returns m today (range 0 30) 0) as (c & Hc).
  { intros i Hi. unfold range in Hi. apply in_map_iff in Hi.
    destruct Hi as (j & <- & Hj). apply in_seq in Hj. cbn in Hj. lia. }
  exists c. split; [exact Hc|].
  apply streak_walk_exact in Hc. destruct Hc as (k & Hk & -> & Hin & Hstop).
  assert (L : List.length (range 0 30) = 30%nat) by reflexivity.
  rewrite L in Hk. cbn [Z.add].
  assert (Run : forall j, 0 <= j < Z.of_nat k ->
            studied m (fromordinal (toordinal today - j)) = true).
  { intros j Hj. destruct (Hin j) as (d & Ad & S).
    - change 30 with (Z.of_nat 30). apply firstn_range; auto.
    - rewrite A in Ad by lia. now injection Ad as <-. }
  assert (Stop : Z.of_nat k < 30 ->
            studied m (fromordinal (toordinal today - Z.of_nat k)) = false).
  { intros Hlt. destruct (Hstop (Z.of_nat k)) as (d & Ad & S).
    - change 30 with (Z.of_nat 30). apply nth_error_range. lia.
    - rewrite A in Ad by lia. now injection Ad as <-. }
  repeat split; auto; try lia.
  - intros E. rewrite Z0, <- E. apply Stop. lia.
  - intros F. destruct (Z.eq_dec (Z.of_nat k) 0) as [E|N]; auto.
    rewrite Z0, Run in F by lia. discriminate.
Qed.

Lemma current_streak_counts_the_run_witness :
  valid_date (mkDate 2025 1 5) = true /\ 30 <= toordinal (mkDate 2025 1 5)
  /\ exists c,
       calculate_current_streak scenario_counts (mkDate 2025 1 5) = Ok c
       /\ 0 <= c <= 30
       /\ (forall j, 0 <= j < c ->
             studied scenario_counts
               (fromordinal (toordinal (mkDate 2025 1 5) - j)) = true)
       /\ (c < 30 ->
           studied scenario_counts
             (fromordinal (toordinal (mkDate 2025 1 5) - c)) = false)
       /\ (c = 0 <-> studied scenario_counts (mkDate 2025 1 5) = false).
Proof.
  split; [reflexivity|]. split; [discriminate|].
  apply (current_streak_counts_the_run scenario_counts (mkDate 2025 1 5)).
  - reflexivity.
  - discriminate.
Defined.

Lemma run_scan_attained (all : list Z) rest : forall p mx cur,
  incl (p :: rest) all ->
  1 <= cur ->
  (forall j, 0 <= j < cur -> In (p - j) all) ->
  (mx = 0 \/ exists x, forall j, 0 <= j < mx -> In (x - j) all) ->
  exists x, forall j, 0 <= j < run_scan p rest mx cur -> In (x - j) all.
Proof.
  induction rest as [|o r IH]; intros p mx cur I Hc Hrun Hmx; cbn [run_scan].
  - destruct (Z.max_spec mx cur) as [(Lt & ->)|(Lt & ->)]; eauto.
    destruct Hmx as [->|Hx]; [lia|auto].
  - assert (I' : incl (o :: r) all).
    { intros y Hy. apply I. now right. }
    assert (Ho : In o all) by (apply I; right; now left).
    destruct (Z.eqb_spec (o - p) 1) as [E|N].
    + apply IH; auto; try lia.
      intros j Hj. destruct (Z.eq_dec j 0) as [->|Nj].
      * now rewrite Z.sub_0_r.
      * replace (o - j) with (p - (j - 1)) by lia. apply Hrun. lia.
    + apply IH; auto; try lia.
      * intros j Hj. replace j with 0 by lia. now rewrite Z.sub_0_r.
      * right. destruct (Z.max_spec mx cur) as [(Lt & ->)|(Lt & ->)]; eauto.
        destruct Hmx as [->|Hx]; [lia|auto].
Qed.

Lemma run_scan_le_length rest : forall p mx cur,
  1 <= cur ->
  run_scan p rest mx cur <= Z.max mx (cur + Z.of_nat (List.length rest)).
Proof.
  induction rest as [|o r IH]; intros p mx cur Hc; cbn [run_scan List.length].
  - lia.
  - destruct (o - p =? 1).
    + specialize (IH o mx (cur + 1)). lia.
    + specialize (IH o (Z.max mx cur) 1). lia.
Qed.

Lemma recorded_ordinal (m : dict) o :
  iso_keys m ->
  In o (map key_ordinal (keys m))
  <-> 1 <= o <= MAXORDINAL /\ In (strftime (fromordinal o)) (keys m).
Proof.
  intros I. unfold iso_keys in I. rewrite Forall_forall in I. split.
  - intros H. apply in_map_iff in H. destruct H as (k & <- & Hk).
    destruct (iso_spec k (I k Hk)) as (_ & F & V).
    unfold key_ordinal. split; [now apply toordinal_range|].
    now rewrite fromordinal_toordinal, F.
  - intros (R & H). apply in_map_iff. exists (strftime (fromordinal o)).
    split; auto. destruct (iso_spec _ (I _ H)) as (_ & F & V).
    destruct (fromordinal_spec o R) as (V' & E).
    apply strftime_inj in F; auto. unfold key_ordinal. now rewrite F.
Qed.

(** X2: for a nonempty dictionary of the data model the longest streak is
    the length of the longest run of consecutive calendar days that are all
    keys: some run of that length exists, no run is longer, and the result
    lies between 1 and the number of keys. *)
Theorem longest_streak_is_the_longest_run (m : dict) :
  wf m -> iso_keys m -> m <> [] ->
  exists longest,
    calculate_longest_streak m = Ok longest
    /\ 1 <= longest <= Z.of_nat (List.length m)
    /\ (exists x, day_run m x longest)
    /\ (forall x k, day_run m x k -> k <= longest).
Proof.
  intros W I N. unfold calculate_longest_streak.
  destruct m as [|kv m']; [contradiction|]. cbn [is_empty].
  set (m := kv :: m') in *.
  pose proof (sorted_perm (keys m)) as P.
  pose proof (sorted_sorted (keys m)) as S.
  assert (ND : NoDup (sorted (keys m))) by (eapply Permutation_NoDup; eauto).
  assert (I' : Forall (fun k => is_iso_date k = true) (sorted (keys m)))
    by (eapply Permutation_Forall; eauto).
  assert (Len : List.length (sorted (keys m)) = List.length m).
  { rewrite <- (Permutation_length P). unfold keys. apply length_map. }
  assert (Mem : forall o, In o (map key_ordinal (sorted (keys m)))
                          <-> In o (map key_ordinal (keys m))).
  { intros o. split; apply Permutation_in, Permutation_map;
      [now apply Permutation_sym | assumption]. }
  pose proof (sorted_ordinals _ S ND I') as SO.
  destruct (sorted (keys m)) as [|first rest] eqn:E.
  { apply Permutation_sym, Permutation_nil in P. discriminate. }
  rewrite longest_scan_ordinals by auto.
  cbn [map] in SO, Mem.
  set (p := key_ordinal first) in *. set (os := map key_ordinal rest) in *.
  eexists. split; [reflexivity|].
  destruct (run_scan_ge os p 0 1) as (_ & Hge).
  pose proof (run_scan_le_length os p 0 1 ltac:(lia)) as Hle.
  split; [|split].
  - assert (Lo : List.length os = List.length rest) by apply length_map.
    rewrite Lo in Hle. cbn [List.length] in Len. lia.
  - destruct (run_scan_attained (p :: os) os p 0 1) as (x & Hx).
    + apply incl_refl.
    + lia.
    + intros j Hj. replace j with 0 by lia. rewrite Z.sub_0_r. now left.
    + now left.
    + exists x.
      assert (R : forall j, 0 <= j < run_scan p os 0 1 ->
                1 <= x - j <= MAXORDINAL
                /\ In (strftime (fromordinal (x - j))) (keys m)).
      { intros j Hj. apply recorded_ordinal; auto. apply Mem. now apply Hx. }
      repeat split.
      * destruct (R (run_scan p os 0 1 - 1)); lia.
      * destruct (R 0) as ((_ & U) & _); lia.
      * intros j Hj. now apply R.
  - intros x k (Lo & Hi & Run).
    apply (run_scan_covers os p 0 1 x k); auto; try lia.
    intros j Hj. apply Mem. apply recorded_ordinal; auto.
    split; [lia|]. now apply Run.
Qed.

Lemma longest_streak_is_the_longest_run_witness :
  wf scenario_counts /\ iso_keys scenario_counts /\ scenario_counts <> []
  /\ exists longest,
       calculate_longest_streak scenario_counts = Ok longest
       /\ 1 <= longest <= Z.of_nat (List.length scenario_counts)
       /\ (exists x, day_run scenario_counts x longest)
       /\ (forall x k, day_run scenario_counts x k -> k <= longest).
Proof.
  assert (W : wf scenario_counts) by distinct_keys.
  assert (I : iso_keys scenario_counts) by all_iso.
  assert (N : scenario_counts <> []) by discriminate.
  repeat (split; [assumption|]).
  exact (longest_streak_is_the_longest_run scenario_counts W I N).
Defined.

(** * More on the aggregation *)

Lemma digit_char_inj x c :
  0 <= x <= 9 -> c = digit_char x -> x = digit_value c.
Proof. intros H ->. now rewrite digit_value_digit_char. Qed.

Lemma prefix_2025_year d :
  printable d -> String.prefix "2025-" (strftime d) = true -> year d = 2025.
Proof.
  intros (Y & _ & _). unfold strftime. cbn [zfill String.append].
  assert (D : forall x, 0 <= x mod 10 <= 9)
    by (intros x; Z.div_mod_to_equations; lia).
  cbn [String.prefix].
  repeat match goal with
         | |- context [ascii_dec ?a ?b] =>
             destruct (ascii_dec a b); [|discriminate]
         end.
  intros _.
  repeat match goal with
         | H : _ = digit_char _ |- _ => apply digit_char_inj in H; [|apply D]
         end.
  cbn in *. Z.div_mod_to_equations; lia.
Qed.

Lemma process_rows_2025 tz rows : forall counts,
  Forall date_of_2025 (keys counts) ->
  Forall date_of_2025 (keys (fst (process_rows tz rows counts))).
Proof.
  induction rows as [|[day c] rows IH]; intros counts H; cbn [process_rows];
    auto.
  destruct (fromtimestamp tz (day * 86400)) as [d|e] eqn:F.
  - cbv zeta. destruct (String.prefix "2025-" (strftime d)) eqn:P; auto.
    apply IH. rewrite Forall_forall in *. intros k Hk.
    apply dict_set_keys_in in Hk. destruct Hk as [->|Hk]; auto.
    pose proof (fromtimestamp_valid _ _ _ F) as V.
    exists d. repeat split; auto.
    apply prefix_2025_year; auto. now apply valid_printable.
  - destruct (is_conversion_error e); auto.
Qed.

(** X3: the year filter.  Every key a load stores is the ISO string of a
    valid date of 2025; rows of any other year leave no trace. *)
Theorem loaded_keys_are_dates_of_2025 (env : environment) (self : widget)
    (k : string) :
  In k (keys (review_counts (load_anki_data env self))) -> date_of_2025 k.
Proof.
  assert (H : Forall date_of_2025
                (keys (review_counts (load_anki_data env self)))).
  { destruct (load_review_counts env self)
      as [->|(db & t & rows & _ & _ & S & ->)].
    - constructor.
    - apply process_rows_2025. constructor. }
  rewrite Forall_forall in H. apply H.
Qed.

Lemma loaded_keys_are_dates_of_2025_witness :
  In "2025-02-26"%string
     (keys (review_counts (load_anki_data late_env initial_widget)))
  /\ date_of_2025 "2025-02-26".
Proof.
  assert (H : In "2025-02-26"%string
                (keys (review_counts (load_anki_data late_env initial_widget))))
    by (vm_compute; left; reflexivity).
  split; [exact H|].
  exact (loaded_keys_are_dates_of_2025 late_env initial_widget _ H).
Defined.

(** ** What the grouped query returns *)

Lemma group_days_insert d g :
  forall x, In x (map fst (count_insert d g)) <-> x = d \/ In x (map fst g).
Proof.
  induction g as [|[d' c] g IH]; intros x; cbn [count_insert map fst In].
  - intuition.
  - destruct (Z.ltb_spec d d'); [|destruct (Z.eqb_spec d d')];
      cbn [map fst In].
    + intuition.
    + subst. intuition.
    + rewrite IH. intuition.
Qed.

Lemma count_insert_sorted d g :
  StronglySorted Z.lt (map fst g) ->
  StronglySorted Z.lt (map fst (count_insert d g)).
Proof.
  induction g as [|[d' c] g IH]; intros S; cbn [count_insert map fst].
  - repeat constructor.
  - cbn [map fst] in S. inversion S as [|? ? S' F]; subst.
    destruct (Z.ltb_spec d d'); [|destruct (Z.eqb_spec d d')];
      cbn [map fst].
    + constructor; auto. constructor; auto.
      eapply Forall_impl; [|exact F]. intros; lia.
    + assumption.
    + constructor; auto. rewrite Forall_forall in *. intros x Hx.
      apply group_days_insert in Hx. destruct Hx as [->|Hx]; [lia|auto].
Qed.

Lemma group_get_absent day g :
  ~ In day (map fst g) -> group_get day g = None.
Proof.
  induction g as [|[d c] g IH]; cbn [group_get map fst In]; auto.
  intros N. destruct (Z.eqb_spec day d); [subst; tauto|]. apply IH. tauto.
Qed.

Lemma group_get_insert d g : forall day,
  StronglySorted Z.lt (map fst g) ->
  group_get day (count_insert d g)
  = if day =? d
    then Some (match group_get d g with Some c => c + 1 | None => 1 end)
    else group_get day g.
Proof.
  induction g as [|[d' c] g IH]; intros day S; cbn [count_insert group_get].
  - reflexivity.
  - cbn [map fst] in S. inversion S as [|? ? S' F]; subst.
    destruct (Z.ltb_spec d d') as [L|L]; [|destruct (Z.eqb_spec d d') as [E|E]];
      cbn [group_get].
    + destruct (Z.eqb_spec day d) as [Ed|N]; [|reflexivity].
      destruct (Z.eqb_spec d d'); [lia|].
      rewrite group_get_absent; auto.
      intros Hin. rewrite Forall_forall in F. specialize (F _ Hin). lia.
    + subst d'. destruct (Z.eqb_spec day d) as [Ed|N]; reflexivity.
    + rewrite IH by auto.
      destruct (Z.eqb_spec day d') as [Ed|N'].
      * subst day. destruct (Z.eqb_spec d' d); [lia|reflexivity].
      * destruct (Z.eqb_spec d d'); [lia|reflexivity].
Qed.

Lemma sum_where_insert f d g :
  sum_where f (count_insert d g) = (if f d then 1 else 0) + sum_where f g.
Proof.
  induction g as [|[d' c] g IH]; cbn [count_insert sum_where].
  - reflexivity.
  - destruct (Z.ltb_spec d d'); [|destruct (Z.eqb_spec d d')];
      cbn [sum_where].
    + reflexivity.
    + subst. destruct (f d'); lia.
    + rewrite IH. lia.
Qed.

(** The grouped query: ascending distinct days, each with the number of
    rows of its bucket, and no row lost. *)
Lemma group_count_spec days :
  StronglySorted Z.lt (map fst (group_count days))
  /\ (forall day,
        group_get day (group_count days)
        = if rows_in_bucket days day =? 0 then None
          else Some (rows_in_bucket days day))
  /\ (forall f,
        sum_where f (group_count days)
        = Z.of_nat (List.length (filter f days))).
Proof.
  unfold group_count.
  assert (G : forall acc,
    StronglySorted Z.lt (map fst acc) ->
    StronglySorted Z.lt
      (map fst (fold_left (fun g d => count_insert d g) days acc))
    /\ (forall day,
          group_get day (fold_left (fun g d => count_insert d g) days acc)
          = match group_get day acc with
            | Some c => Some (c + rows_in_bucket days day)
            | None => if rows_in_bucket days day =? 0 then None
                      else Some (rows_in_bucket days day)
            end)
    /\ (forall f,
          sum_where f (fold_left (fun g d => count_insert d g) days acc)
          = sum_where f acc + Z.of_nat (List.length (filter f days)))).
  { induction days as [|d days IH]; intros acc Hs; cbn [fold_left].
    - split; [assumption|split].
      + intros day. unfold rows_in_bucket. cbn [count_occ Z.of_nat Z.eqb].
        destruct (group_get day acc); auto. f_equal. lia.
      + intros f. cbn [filter List.length Z.of_nat]. lia.
    - destruct (IH (count_insert d acc) (count_insert_sorted d acc Hs))
        as (Hs' & Get & Sum).
      split; [assumption|split].
      + intros day. rewrite Get, group_get_insert by auto.
        unfold rows_in_bucket. cbn [count_occ].
        destruct (Z.eq_dec d day) as [->|N].
        * rewrite Z.eqb_refl.
          destruct (group_get day acc); [f_equal; lia|].
          destruct (Z.eqb_spec (Z.of_nat (S (count_occ Z.eq_dec days day))) 0);
            [lia|]. f_equal. lia.
        * destruct (Z.eqb_spec day d); [congruence|reflexivity].
      + intros f. rewrite Sum, sum_where_insert. cbn [filter].
        destruct (f d); cbn [List.length]; lia. }
  destruct (G [] ltac:(constructor)) as (S & Get & Sum).
  split; [assumption|split].
  - intros day. now rewrite Get.
  - intros f. now rewrite Sum.
Qed.

(** ** The dictionary of a load in a zone with a fixed offset *)

Lemma group_count_days days d :
  In d (map fst (group_count days)) <-> In d days.
Proof.
  unfold group_count.
  assert (G : forall acc,
            In d (map fst (fold_left (fun g x => count_insert x g) days acc))
            <-> In d days \/ In d (map fst acc)).
  { induction days as [|x days IH]; intros acc; cbn [fold_left In].
    - tauto.
    - rewrite IH, group_days_insert. intuition. }
  rewrite G. cbn [map In]. tauto.
Qed.

(** ** Where [localtime] cannot fail *)

Lemma year_bounds o :
  400 * ((o - 1) / 146097) <= year (fromordinal o)
  <= 400 * ((o - 1) / 146097) + 501.
Proof.
  unfold fromordinal, ord2ymd, DI400Y, DI100Y, DI4Y. cbv zeta.
  set (a := (o - 1) / 146097). set (n := (o - 1) mod 146097).
  assert (Hn : 0 <= n < 146097) by (apply Z.mod_pos_bound; lia).
  destruct (divmod_pos n 36524) as (Hb & Hr1 & E1); try lia.
  set (b := n / 36524) in *. set (r1 := n mod 36524) in *.
  destruct (divmod_pos r1 1461) as (Hc & Hr2 & E2); try lia.
  set (c := r1 / 1461) in *. set (r2 := r1 mod 1461) in *.
  destruct (divmod_pos r2 365) as (Hd & Hr3 & E3); try lia.
  set (d := r2 / 365) in *. set (r3 := r2 mod 365) in *.
  destruct (orb (d =? 4) (b =? 4)); cbn [year]; [lia|].
  destruct (month_day_of_yday _ r3) as [m dd]. cbn [year]. lia.
Qed.

Lemma sql_day_of_id_range id :
  - 2 ^ 63 <= id < 2 ^ 63 ->
  - 106751991167 <= sql_day_of_id id <= 106751991167.
Proof.
  change (2 ^ 63) with 9223372036854775808. intros H.
  unfold sql_day_of_id. Z.quot_rem_to_equations. lia.
Qed.

Lemma bucket_localtime tz day :
  bounded_offsets tz ->
  - 106751991167 <= day <= 106751991167 ->
  localtime_fails tz (day * 86400) = false.
Proof.
  intros B H. unfold localtime_fails. cbv zeta.
  apply andb_false_iff. right.
  pose proof (year_bounds (EPOCH_ORDINAL + (day * 86400 + tz (day * 86400))
                                             / 86400)) as Y.
  specialize (B (day * 86400)). unfold EPOCH_ORDINAL in *.
  change (2 ^ 31) with 2147483648.
  apply orb_false_iff. split; [apply Z.ltb_ge|apply Z.leb_gt];
    Z.div_mod_to_equations; lia.
Qed.

Lemma healthy_rows_convert tz db t :
  healthy db t -> bounded_offsets tz ->
  Forall (fun r => localtime_fails tz (fst r * 86400) = false)
         (group_count (bucket_days t)).
Proof.
  intros (_ & _ & _ & _ & I) B. apply Forall_forall. intros [d c] Hin.
  cbn [fst].
  assert (Hd : In d (map fst (group_count (bucket_days t))))
    by (apply in_map_iff; exists (d, c); auto).
  apply (proj1 (group_count_days _ _)) in Hd. unfold bucket_days in Hd.
  apply in_map_iff in Hd. destruct Hd as (r & <- & Hr).
  rewrite Forall_forall in I.
  apply bucket_localtime; auto. apply sql_day_of_id_range. auto.
Qed.

Lemma sql_exec_no_fault db st : fault db = None -> sql_exec db st = Ok tt.
Proof. intros F. unfold sql_exec. now rewrite F. Qed.

Lemma healthy_query db t :
  healthy db t -> select_revlog db t = Ok (group_count (bucket_days t)).
Proof.
  intros (F & _ & Ci & Cd & _). unfold select_revlog, bucket_days.
  rewrite sql_exec_no_fault by auto. cbn [bind]. now rewrite Ci, Cd.
Qed.

(** The widget a load leaves when every step of the [try] body succeeds. *)
Lemma load_try_success env db t rows self cs ls :
  fault db = None -> revlog db = Some t -> select_revlog db t = Ok rows ->
  review_counts self = [] ->
  snd (process_rows (utcoffset env) rows []) = None ->
  let counts := fst (process_rows (utcoffset env) rows []) in
  calculate_current_streak counts (clock env) = Ok cs ->
  calculate_longest_streak counts = Ok ls ->
  load_try env db self
  = (mkWidget counts (Some cs) (Some ls) (Some (sum (values counts)))
       (stats_markup_of counts (effective_today (clock env)) cs ls
          (sum (values counts)))
       (Displaying (mkDate 2025 1 1) (effective_today (clock env))),
     Ok tt).
Proof.
  intros F R S E NE counts Hc Hl. unfold load_try.
  rewrite !(sql_exec_no_fault db) by auto. rewrite !bindM_lift_Ok, R.
  rewrite bindM_lift_Ok, S, bindM_lift_Ok.
  unfold bindM at 1. rewrite E.
  fold counts. destruct (process_rows (utcoffset env) rows []) as [c esc] eqn:P.
  cbn [fst snd] in *. subst esc. subst counts.
  unfold bindM at 1, getM at 1. cbn [review_counts set_review_counts].
  rewrite Hc, bindM_lift_Ok.
  unfold bindM at 1, modifyM at 1.
  rewrite Hl, bindM_lift_Ok.
  unfold bindM at 1, modifyM at 1.
  unfold bindM at 1, modifyM at 1.
  unfold bindM at 1, update_stats_label, update_date_range_label.
  cbv zeta. rewrite !inline_effective_today.
  unfold bindM, getM, liftM, modifyM, attribute, stats_markup_of.
  cbn [review_counts current_streak longest_streak total_reviews
       stats_label date_range_label set_review_counts set_current_streak
       set_longest_streak set_total_reviews set_stats_label
       set_date_range_label].
  destruct (0 <? sum (values c)); reflexivity.
Qed.

Lemma healthy_load_snapshot env self db t :
  collection env = Some db -> healthy db t ->
  bounded_offsets (utcoffset env) ->
  valid_date (clock env) = true -> 30 <= toordinal (clock env) ->
  let counts := review_counts (load_anki_data env self) in
  exists cs ls,
    calculate_current_streak counts (clock env) = Ok cs
    /\ calculate_longest_streak counts = Ok ls
    /\ cs <= ls
    /\ load_anki_data env self
       = mkWidget counts (Some cs) (Some ls) (Some (sum (values counts)))
           (stats_markup_of counts (effective_today (clock env)) cs ls
              (sum (values counts)))
           (Displaying (mkDate 2025 1 1) (effective_today (clock env))).
Proof.
  intros C H B V H30.
  pose proof (healthy_query db t H) as S.
  pose proof (process_rows_no_escape _ _ []
                (healthy_rows_convert (utcoffset env) db t H B)) as NE.
  destruct H as (F & R & _).
  set (rows := group_count (bucket_days t)) in *.
  set (c := fst (process_rows (utcoffset env) rows [])).
  destruct (process_rows_wf_iso (utcoffset env) rows []) as (W & I);
    [constructor|constructor|]. fold c in W, I.
  destruct (longest_ge_current c (clock env) W I) as (ls & Hl & Le & Ex).
  destruct (Ex V H30) as (cs & Hc).
  assert (L : load_anki_data env self
              = mkWidget c (Some cs) (Some ls) (Some (sum (values c)))
                  (stats_markup_of c (effective_today (clock env)) cs ls
                     (sum (values c)))
                  (Displaying (mkDate 2025 1 1) (effective_today (clock env)))).
  { unfold load_anki_data.
    rewrite (load_anki_data_located env self db C). cbn [fst].
    unfold load_from.
    now rewrite (load_try_success env db t rows (set_review_counts [] self)
                   cs ls F R S eq_refl NE Hc Hl). }
  cbv zeta. rewrite L. cbn [review_counts]. exists cs, ls. auto.
Qed.

Lemma sum_from xs : forall a, fold_left Z.add xs a = a + sum xs.
Proof.
  unfold sum. induction xs as [|x xs IH]; intros a; cbn [fold_left]; [lia|].
  rewrite IH, (IH (0 + x)). lia.
Qed.

Lemma sum_cons x xs : sum (x :: xs) = x + sum xs.
Proof. unfold sum at 1. cbn [fold_left]. rewrite sum_from. lia. Qed.

Lemma sum_values_ge_length (d : dict) :
  positive_counts d -> Z.of_nat (List.length d) <= sum (values d).
Proof.
  unfold positive_counts. induction 1 as [|[k v] d H F IH].
  - reflexivity.
  - cbn [values map snd List.length] in *. fold (values d).
    rewrite sum_cons. lia.
Qed.

Lemma february_log_healthy :
  healthy (readable (Some february_log)) february_log.
Proof.
  repeat split. unfold february_log, table_rows.
  repeat constructor; cbn [row_id]; try discriminate; reflexivity.
Defined.

Lemma late_env_offsets : bounded_offsets (utcoffset late_env).
Proof. intros x. cbn. split; reflexivity. Defined.

(** X4: with a collection SQLite reads without error, whose [revlog] has
    Anki's layout (an [id] column of 64-bit integers and no [day] column),
    in a zone less than a day from UTC, a load never ends in an error
    message: it leaves a full snapshot, the dictionary, the two streaks as
    the streak methods compute them from it (the current one at most the
    longest), the sum of the counts, the statistics line or the no-data
    notice, and the date range up to the effective today. *)
Theorem healthy_load_leaves_a_full_snapshot (env : environment)
    (self : widget) (db : database) (t : revlog_table) :
  collection env = Some db -> healthy db t ->
  bounded_offsets (utcoffset env) ->
  valid_date (clock env) = true -> 30 <= toordinal (clock env) ->
  let counts := review_counts (load_anki_data env self) in
  exists cs ls,
    calculate_current_streak counts (clock env) = Ok cs
    /\ calculate_longest_streak counts = Ok ls
    /\ cs <= ls
    /\ load_anki_data env self
       = mkWidget counts (Some cs) (Some ls) (Some (sum (values counts)))
           (stats_markup_of counts (effective_today (clock env)) cs ls
              (sum (values counts)))
           (Displaying (mkDate 2025 1 1) (effective_today (clock env))).
Proof. apply healthy_load_snapshot. Qed.

Lemma healthy_load_leaves_a_full_snapshot_witness :
  collection late_env = Some (readable (Some february_log))
  /\ healthy (readable (Some february_log)) february_log
  /\ bounded_offsets (utcoffset late_env)
  /\ valid_date (clock late_env) = true /\ 30 <= toordinal (clock late_env)
  /\ let counts := review_counts (load_anki_data late_env initial_widget) in
     exists cs ls,
       calculate_current_streak counts (clock late_env) = Ok cs
       /\ calculate_longest_streak counts = Ok ls
       /\ cs <= ls
       /\ load_anki_data late_env initial_widget
          = mkWidget counts (Some cs) (Some ls) (Some (sum (values counts)))
              (stats_markup_of counts (effective_today (clock late_env)) cs ls
                 (sum (values counts)))
              (Displaying (mkDate 2025 1 1) (effective_today (clock late_env))).
Proof.
  assert (C : collection late_env = Some (readable (Some february_log)))
    by reflexivity.
  pose proof february_log_healthy as H.
  pose proof late_env_offsets as B.
  assert (V : valid_date (clock late_env) = true) by reflexivity.
  assert (O : 30 <= toordinal (clock late_env)) by discriminate.
  split; [exact C|]. split; [exact H|]. split; [exact B|].
  split; [exact V|]. split; [exact O|].
  exact (healthy_load_leaves_a_full_snapshot late_env initial_widget _ _
           C H B V O).
Defined.

(** X5: after such a load the label shows the no-data notice exactly when
    the dictionary is empty, that is when no day of 2025 has a review; and
    the total is never smaller than the number of days recorded. *)
Theorem no_data_notice_iff_no_day_recorded (env : environment)
    (self : widget) (db : database) (t : revlog_table) :
  collection env = Some db -> healthy db t ->
  bounded_offsets (utcoffset env) ->
  valid_date (clock env) = true -> 30 <= toordinal (clock env) ->
  let loaded := load_anki_data env self in
  (stats_label loaded = NoReviewData <-> review_counts loaded = [])
  /\ total_reviews loaded = Some (sum (values (review_counts loaded)))
  /\ Z.of_nat (List.length (review_counts loaded))
     <= sum (values (review_counts loaded)).
Proof.
  intros C H B V H30 loaded.
  destruct (healthy_load_snapshot env self db t C H B V H30)
    as (cs & ls & _ & _ & _ & L).
  pose proof (sum_values_ge_length _ (load_positive env self)) as G.
  fold loaded in L, G. split; [|split; auto].
  - rewrite L at 1. cbn [stats_label]. unfold stats_markup_of.
    destruct (Z.ltb_spec 0 (sum (values (review_counts loaded)))) as [P|P].
    + split; [discriminate|]. intros E. rewrite E in P. cbn in P. lia.
    + split; auto. intros _.
      destruct (review_counts loaded); auto. cbn [List.length] in G. lia.
  - rewrite L at 1. reflexivity.
Qed.

Lemma no_data_notice_iff_no_day_recorded_witness :
  collection late_env = Some (readable (Some february_log))
  /\ healthy (readable (Some february_log)) february_log
  /\ bounded_offsets (utcoffset late_env)
  /\ valid_date (clock late_env) = true /\ 30 <= toordinal (clock late_env)
  /\ let loaded := load_anki_data late_env initial_widget in
     (stats_label loaded = NoReviewData <-> review_counts loaded = [])
     /\ total_reviews loaded = Some (sum (values (review_counts loaded)))
     /\ Z.of_nat (List.length (review_counts loaded))
        <= sum (values (review_counts loaded)).
Proof.
  assert (C : collection late_env = Some (readable (Some february_log)))
    by reflexivity.
  pose proof february_log_healthy as H.
  pose proof late_env_offsets as B.
  assert (V : valid_date (clock late_env) = true) by reflexivity.
  assert (O : 30 <= toordinal (clock late_env)) by discriminate.
  split; [exact C|]. split; [exact H|]. split; [exact B|].
  split; [exact V|]. split; [exact O|].
  exact (no_data_notice_iff_no_day_recorded late_env initial_widget _ _
           C H B V O).
Defined.

Lemma fromtimestamp_ext tz1 tz2 t :
  (forall x, tz1 x = tz2 x) -> fromtimestamp tz1 t = fromtimestamp tz2 t.
Proof.
  intros H. unfold fromtimestamp. now rewrite (H t), (H (t - 86400)).
Qed.

Lemma process_rows_ext tz1 tz2 rows :
  (forall x, tz1 x = tz2 x) ->
  forall counts, process_rows tz1 rows counts = process_rows tz2 rows counts.
Proof.
  intros H. induction rows as [|[day c] rows IH]; intros counts;
    cbn [process_rows]; auto.
  rewrite (fromtimestamp_ext tz1 tz2 _ H).
  destruct (fromtimestamp tz2 (day * 86400)) as [d|e].
  - cbv zeta. destruct (String.prefix "2025-" (strftime d)); auto.
  - destruct (is_conversion_error e); auto.
Qed.

Lemma fromtimestamp_fixed_cases off day :
  (1 <= EPOCH_ORDINAL + day + off / 86400 <= MAXORDINAL
   /\ fromtimestamp (fun _ => off) (day * 86400)
      = Ok (fromordinal (EPOCH_ORDINAL + day + off / 86400)))
  \/ exists e, fromtimestamp (fun _ => off) (day * 86400) = Raise e.
Proof.
  unfold fromtimestamp. cbv zeta.
  destruct (orb (day * 86400 <? - 2 ^ 63) (2 ^ 63 <=? day * 86400));
    [right; eauto|].
  rewrite Z.div_add_l, Z.add_assoc by lia.
  set (o := EPOCH_ORDINAL + day + off / 86400).
  destruct (orb (year (fromordinal o) - 1900 <? - 2 ^ 31)
                (2 ^ 31 <=? year (fromordinal o) - 1900));
    [right; eauto|].
  destruct (Z.leb_spec 1 o), (Z.leb_spec o MAXORDINAL); cbn [andb];
    try (right; eexists; reflexivity).
  destruct (1 <=? EPOCH_ORDINAL + (day * 86400 - 86400 + off) / 86400);
    [|right; eexists; reflexivity].
  left. split; [lia|reflexivity].
Qed.

Lemma fromtimestamp_fixed_offset off day d :
  fromtimestamp (fun _ => off) (day * 86400) = Ok d ->
  valid_date d = true /\ toordinal d = EPOCH_ORDINAL + day + off / 86400.
Proof.
  intros F.
  destruct (fromtimestamp_fixed_cases off day) as [(R & E)|(e & E)];
    rewrite E in F; [|discriminate].
  apply Ok_inj in F. subst d. now apply fromordinal_spec.
Qed.

Lemma key_of_bucket_inj off d1 d2 k :
  key_of_bucket off d1 = Some k -> key_of_bucket off d2 = Some k -> d1 = d2.
Proof.
  unfold key_of_bucket.
  destruct (fromtimestamp (fun _ => off) (d1 * 86400)) as [a|] eqn:F1;
    [|discriminate].
  destruct (fromtimestamp (fun _ => off) (d2 * 86400)) as [b|] eqn:F2;
    [|discriminate].
  destruct (String.prefix "2025-" (strftime a)); [|discriminate].
  destruct (String.prefix "2025-" (strftime b)); [|discriminate].
  intros K1 K2. assert (E : strftime a = strftime b) by congruence.
  apply fromtimestamp_fixed_offset in F1, F2.
  destruct F1 as (Va & Oa), F2 as (Vb & Ob).
  apply strftime_inj in E; auto. subst b. lia.
Qed.

Lemma dict_set_fresh k v (d : dict) :
  ~ In k (keys d) -> dict_set k v d = d ++ [(k, v)].
Proof.
  induction d as [|[k' v'] d IH]; cbn [dict_set keys map fst In app]; auto.
  intros N. destruct (String.eqb_spec k k') as [->|_]; [tauto|].
  f_equal. apply IH. fold (keys d). tauto.
Qed.

Lemma filter_map_app {A B : Type} (f : A -> option B) l1 l2 :
  filter_map f (l1 ++ l2) = filter_map f l1 ++ filter_map f l2.
Proof.
  induction l1 as [|a l1 IH]; cbn [filter_map app]; auto.
  destruct (f a); cbn [app]; now rewrite IH.
Qed.

Lemma keys_of_entries off groups k :
  In k (keys (filter_map (entry_of_group off) groups)) ->
  exists g, In g groups /\ key_of_bucket off (fst g) = Some k.
Proof.
  induction groups as [|g groups IH]; cbn [filter_map]; [intros []|].
  unfold entry_of_group at 1.
  destruct (key_of_bucket off (fst g)) as [k'|] eqn:K.
  - cbn [keys map fst In]. fold (keys (filter_map (entry_of_group off) groups)).
    intros [<-|H]; [exists g; split; [now left|auto]|].
    destruct (IH H) as (g' & Hg & Hk). exists g'. split; [now right|auto].
  - intros H. destruct (IH H) as (g' & Hg & Hk). exists g'.
    split; [now right|auto].
Qed.

Lemma process_rows_fixed_offset off post : forall pre,
  NoDup (map fst (pre ++ post)) ->
  Forall (fun r => localtime_fails (fun _ => off) (fst r * 86400) = false)
         post ->
  process_rows (fun _ => off) post (filter_map (entry_of_group off) pre)
  = (filter_map (entry_of_group off) (pre ++ post), None).
Proof.
  induction post as [|[day c] post IH]; intros pre ND NF; cbn [process_rows].
  - now rewrite app_nil_r.
  - inversion NF as [|? ? L NF']; subst. cbn [fst] in L.
    assert (E : pre ++ (day, c) :: post = (pre ++ [(day, c)]) ++ post)
      by now rewrite <- app_assoc.
    rewrite E in *.
    assert (Step : forall counts,
              counts = filter_map (entry_of_group off) (pre ++ [(day, c)]) ->
              process_rows (fun _ => off) post counts
              = (filter_map (entry_of_group off) ((pre ++ [(day, c)]) ++ post),
                 None)).
    { intros counts ->. now apply IH. }
    rewrite filter_map_app in Step. cbn [filter_map] in Step.
    unfold entry_of_group at 2 in Step. unfold key_of_bucket in Step.
    cbn [fst snd] in Step.
    destruct (fromtimestamp (fun _ => off) (day * 86400)) as [d|e] eqn:F.
    + cbv zeta. destruct (String.prefix "2025-" (strftime d)) eqn:P.
      * apply Step. apply dict_set_fresh. intros Hin.
        apply keys_of_entries in Hin. destruct Hin as ((day' & c') & Hg & Hk).
        cbn [fst] in Hk.
        assert (K : key_of_bucket off day = Some (strftime d))
          by (unfold key_of_bucket; now rewrite F, P).
        pose proof (key_of_bucket_inj _ _ _ _ Hk K) as ->.
        rewrite <- app_assoc, map_app in ND. apply NoDup_remove_2 in ND.
        apply ND. rewrite <- map_app. apply in_map_iff.
        exists (day, c'). split; auto. apply in_or_app. now left.
      * apply Step. now rewrite app_nil_r.
    + rewrite (fromtimestamp_raises _ _ _ L F). apply Step.
      now rewrite app_nil_r.
Qed.

Lemma dict_get_entries off groups day k :
  key_of_bucket off day = Some k ->
  dict_get k (filter_map (entry_of_group off) groups) = group_get day groups.
Proof.
  intros K. induction groups as [|[d c] groups IH];
    cbn [filter_map group_get]; auto.
  unfold entry_of_group at 1. cbn [fst snd].
  destruct (key_of_bucket off d) as [k'|] eqn:K'.
  - cbn [dict_get]. destruct (String.eqb_spec k k') as [<-|N].
    + rewrite (key_of_bucket_inj _ _ _ _ K K'). now rewrite Z.eqb_refl.
    + destruct (Z.eqb_spec day d) as [->|_]; [congruence|auto].
  - destruct (Z.eqb_spec day d) as [->|_]; [congruence|auto].
Qed.

Lemma sum_values_entries off groups :
  sum (values (filter_map (entry_of_group off) groups))
  = sum_where (in_2025 off) groups.
Proof.
  induction groups as [|[d c] groups IH]; cbn [filter_map sum_where]; auto.
  unfold entry_of_group at 1, in_2025 at 1. cbn [fst snd].
  destruct (key_of_bucket off d).
  - cbn [values map snd]. fold (values (filter_map (entry_of_group off) groups)).
    rewrite sum_cons. lia.
  - lia.
Qed.

Lemma healthy_load_counts env self db t :
  collection env = Some db -> healthy db t ->
  review_counts (load_anki_data env self)
  = fst (process_rows (utcoffset env) (group_count (bucket_days t)) []).
Proof.
  intros C H. pose proof (healthy_query db t H) as Q.
  destruct H as (F & R & _).
  unfold load_anki_data.
  rewrite (load_anki_data_located env self db C). cbn [fst].
  unfold load_from, load_try.
  rewrite !(sql_exec_no_fault db) by auto. rewrite !bindM_lift_Ok, R.
  rewrite bindM_lift_Ok, Q, bindM_lift_Ok.
  unfold bindM at 1. cbn [review_counts set_review_counts].
  destruct (process_rows (utcoffset env) (group_count (bucket_days t)) [])
    as [counts [e|]] eqn:P; cbn [fst]; [reflexivity|].
  match goal with
  | |- context [match ?k ?w with _ => _ end] =>
      assert (K : review_counts (fst (k w)) = counts)
  end.
  { match goal with
    | |- review_counts (fst (?k ?w)) = _ =>
        change counts with (review_counts w)
    end.
    keeps_chain. }
  match goal with
  | |- context [match ?x with _ => _ end] => destruct x as [w' [u|e]]
  end; cbn [fst] in K; cbn [review_counts set_stats_label]; auto.
Qed.

Lemma healthy_load_entries env self db t off :
  collection env = Some db -> healthy db t ->
  (forall x, utcoffset env x = off) -> - 86400 < off < 86400 ->
  review_counts (load_anki_data env self)
  = filter_map (entry_of_group off) (group_count (bucket_days t)).
Proof.
  intros C H Hz Ho. rewrite (healthy_load_counts env self db t C H).
  rewrite (process_rows_ext _ (fun _ => off)) by exact Hz.
  destruct (group_count_spec (bucket_days t)) as (Hs & _).
  change (@nil (string * Z)) with (filter_map (entry_of_group off) []).
  rewrite process_rows_fixed_offset.
  - reflexivity.
  - cbn [app]. clear - Hs. induction Hs; constructor; auto.
    rewrite Forall_forall in H. intros Hin. specialize (H _ Hin). lia.
  - apply (healthy_rows_convert _ db); auto. intros x. exact Ho.
Qed.

(** X6: for a collection read without error whose [revlog] has Anki's
    layout, in a zone with a fixed offset of less than a day, what a load
    stores under the key of a day bucket is the number of log rows of that
    bucket; a bucket without rows has no entry. *)
Theorem loaded_count_is_rows_of_the_bucket (env : environment)
    (self : widget) (db : database) (t : revlog_table) (off day : Z)
    (k : string) :
  collection env = Some db -> healthy db t ->
  (forall x, utcoffset env x = off) -> - 86400 < off < 86400 ->
  key_of_bucket off day = Some k ->
  dict_get k (review_counts (load_anki_data env self))
  = if rows_in_bucket (bucket_days t) day =? 0 then None
    else Some (rows_in_bucket (bucket_days t) day).
Proof.
  intros C H Hz Ho K.
  rewrite (healthy_load_entries env self db t off C H Hz Ho).
  rewrite (dict_get_entries off _ day k K).
  destruct (group_count_spec (bucket_days t)) as (_ & G & _). apply G.
Qed.

(** X7: under the same conditions the total of the counts is the number
    of log rows whose bucket converts to a date of 2025: no review of 2025
    is lost or counted twice, none of another year is counted. *)
Theorem loaded_total_is_rows_of_2025 (env : environment) (self : widget)
    (db : database) (t : revlog_table) (off : Z) :
  collection env = Some db -> healthy db t ->
  (forall x, utcoffset env x = off) -> - 86400 < off < 86400 ->
  sum (values (review_counts (load_anki_data env self)))
  = Z.of_nat (List.length (filter (in_2025 off) (bucket_days t))).
Proof.
  intros C H Hz Ho.
  rewrite (healthy_load_entries env self db t off C H Hz Ho).
  rewrite sum_values_entries.
  destruct (group_count_spec (bucket_days t)) as (_ & _ & G). apply G.
Qed.

(** ** Refreshing *)

Lemma load_from_is_a_patch env db :
  exists p,
    (exists m, p_stats p = Some m)
    /\ forall self,
         load_from env db (set_review_counts [] self) = apply_patch p self.
Proof.
  unfold load_from, load_try.
  destruct (sql_exec db Connect) as [[]|e].
  2:{ exists (mkPatch [] None None None (Some (ErrorMessage (exn_msg e))) None).
      split; [cbn [p_stats]; eauto|].
      intros self. rewrite bindM_lift_Raise. reflexivity. }
  destruct (sql_exec db SelectMaster) as [[]|e].
  2:{ exists (mkPatch [] None None None (Some (ErrorMessage (exn_msg e))) None).
      split; [cbn [p_stats]; eauto|].
      intros self. rewrite bindM_lift_Ok, bindM_lift_Raise. reflexivity. }
  destruct (revlog db) as [t|].
  2:{ exists (mkPatch [] None None None (Some RevlogNotFound) None).
      split; [cbn [p_stats]; eauto|].
      intros self. rewrite !bindM_lift_Ok. reflexivity. }
  destruct (sql_exec db PragmaTableInfo) as [[]|e].
  2:{ exists (mkPatch [] None None None (Some (ErrorMessage (exn_msg e))) None).
      split; [cbn [p_stats]; eauto|].
      intros self. rewrite !bindM_lift_Ok, bindM_lift_Raise. reflexivity. }
  destruct (select_revlog db t) as [rows|e].
  2:{ exists (mkPatch [] None None None (Some (ErrorMessage (exn_msg e))) None).
      split; [cbn [p_stats]; eauto|].
      intros self. rewrite !bindM_lift_Ok, bindM_lift_Raise. reflexivity. }
  destruct (process_rows (utcoffset env) rows []) as [c [e|]] eqn:P.
  { exists (mkPatch c None None None (Some (ErrorMessage (exn_msg e))) None).
    split; [cbn [p_stats]; eauto|].
    intros self. rewrite !bindM_lift_Ok.
    unfold bindM at 1. cbn [review_counts set_review_counts]. rewrite P.
    reflexivity. }
  destruct (calculate_current_streak c (clock env)) as [cs|e] eqn:Hc.
  2:{ exists (mkPatch c None None None (Some (ErrorMessage (exn_msg e))) None).
      split; [cbn [p_stats]; eauto|].
      intros self. rewrite !bindM_lift_Ok.
      unfold bindM at 1. cbn [review_counts set_review_counts]. rewrite P.
      unfold bindM at 1, getM at 1. cbn [review_counts set_review_counts].
      rewrite Hc, bindM_lift_Raise. reflexivity. }
  destruct (calculate_longest_streak c) as [ls|e] eqn:Hl.
  2:{ exists (mkPatch c (Some cs) None None
                (Some (ErrorMessage (exn_msg e))) None).
      split; [cbn [p_stats]; eauto|].
      intros self. rewrite !bindM_lift_Ok.
      unfold bindM at 1. cbn [review_counts set_review_counts]. rewrite P.
      unfold bindM at 1, getM at 1. cbn [review_counts set_review_counts].
      rewrite Hc, bindM_lift_Ok.
      unfold bindM at 1, modifyM at 1.
      rewrite Hl, bindM_lift_Raise. reflexivity. }
  exists (mkPatch c (Some cs) (Some ls) (Some (sum (values c)))
            (Some (stats_markup_of c (effective_today (clock env)) cs ls
                     (sum (values c))))
            (Some (Displaying (mkDate 2025 1 1) (effective_today (clock env))))).
  split; [cbn [p_stats]; eauto|].
  intros self. rewrite !bindM_lift_Ok.
  unfold bindM at 1. cbn [review_counts set_review_counts]. rewrite P.
  unfold bindM at 1, getM at 1. cbn [review_counts set_review_counts].
  rewrite Hc, bindM_lift_Ok.
  unfold bindM at 1, modifyM at 1.
  rewrite Hl, bindM_lift_Ok.
  unfold bindM at 1, modifyM at 1.
  unfold bindM at 1, modifyM at 1.
  unfold bindM at 1, update_stats_label, update_date_range_label.
  cbv zeta. rewrite !inline_effective_today.
  unfold bindM, getM, liftM, modifyM, attribute, stats_markup_of, apply_patch,
    keep_or.
  cbn [review_counts current_streak longest_streak total_reviews
       stats_label date_range_label set_review_counts set_current_streak
       set_longest_streak set_total_reviews set_stats_label
       set_date_range_label p_counts p_current p_longest p_total p_stats
       p_range].
  destruct (0 <? sum (values c)); reflexivity.
Qed.

(** A call is a patch of the widget; it assigns the statistics label
    exactly when nothing propagates out of it. *)
Lemma load_is_a_patch env :
  exists p esc,
    (forall self, load_anki_data_call env self = (apply_patch p self, esc))
    /\ match esc with
       | None => exists m, p_stats p = Some m
       | Some _ => p_stats p = None
       end.
Proof.
  unfold load_anki_data_call. cbv zeta.
  destruct (find_anki_collection (files env)) as [[path|]|].
  - destruct (String.eqb path "").
    + exists (mkPatch [] None None None (Some CollectionNotFound) None), None.
      split; [reflexivity|cbn [p_stats]; eauto].
    + destruct (load_from_is_a_patch env
                  (sqlite3_connect env (collection_uri path)))
        as (p & M & H).
      exists p, None. split; [|exact M]. intros self. now rewrite H.
  - exists (mkPatch [] None None None (Some CollectionNotFound) None), None.
    split; [reflexivity|cbn [p_stats]; eauto].
  - exists (mkPatch [] None None None None None), (Some OSError).
    split; reflexivity.
Qed.

Lemma apply_patch_idem p w : apply_patch p (apply_patch p w) = apply_patch p w.
Proof.
  unfold apply_patch, keep_or. cbn [current_streak longest_streak
    total_reviews stats_label date_range_label].
  destruct (p_current p), (p_longest p), (p_total p), (p_stats p),
    (p_range p); reflexivity.
Qed.

(** X9: a call of [load_anki_data] is decided by the environment: loading
    twice against the same data leaves the same widget as loading once,
    and neither the dictionary after a call nor whether the call raises
    depends on what the widget held before.  When the call returns, the
    statistics label does not depend on it either; when it raises, the
    label is the one the widget had before the call. *)
Theorem refresh_is_idempotent (env : environment) (self other : widget) :
  load_anki_data env (load_anki_data env self) = load_anki_data env self
  /\ review_counts (load_anki_data env self)
     = review_counts (load_anki_data env other)
  /\ snd (load_anki_data_call env self) = snd (load_anki_data_call env other)
  /\ match snd (load_anki_data_call env self) with
     | None =>
         stats_label (load_anki_data env self)
         = stats_label (load_anki_data env other)
     | Some _ => stats_label (load_anki_data env self) = stats_label self
     end.
Proof.
  destruct (load_is_a_patch env) as (p & esc & H & M).
  unfold load_anki_data. rewrite !H. cbn [fst snd].
  split; [apply apply_patch_idem|]. split; [reflexivity|].
  split; [reflexivity|].
  unfold apply_patch. cbn [stats_label].
  destruct esc; [now rewrite M|]. destruct M as (m & ->). reflexivity.
Qed.

Lemma loaded_count_is_rows_of_the_bucket_witness :
  collection late_env = Some (readable (Some february_log))
  /\ healthy (readable (Some february_log)) february_log
  /\ (forall x, utcoffset late_env x = 0) /\ - 86400 < 0 < 86400
  /\ key_of_bucket 0 20145 = Some "2025-02-26"%string
  /\ dict_get "2025-02-26"
       (review_counts (load_anki_data late_env initial_widget))
     = if rows_in_bucket (bucket_days february_log) 20145 =? 0 then None
       else Some (rows_in_bucket (bucket_days february_log) 20145).
Proof.
  assert (C : collection late_env = Some (readable (Some february_log)))
    by reflexivity.
  pose proof february_log_healthy as H.
  assert (O : forall x, utcoffset late_env x = 0) by reflexivity.
  assert (B : - 86400 < 0 < 86400) by (split; reflexivity).
  assert (K : key_of_bucket 0 20145 = Some "2025-02-26"%string)
    by (vm_compute; reflexivity).
  split; [exact C|]. split; [exact H|]. split; [exact O|].
  split; [exact B|]. split; [exact K|].
  exact (loaded_count_is_rows_of_the_bucket late_env initial_widget _ _ 0
           20145 _ C H O B K).
Defined.

Lemma loaded_total_is_rows_of_2025_witness :
  collection late_env = Some (readable (Some february_log))
  /\ healthy (readable (Some february_log)) february_log
  /\ (forall x, utcoffset late_env x = 0) /\ - 86400 < 0 < 86400
  /\ sum (values (review_counts (load_anki_data late_env initial_widget)))
     = Z.of_nat (List.length (filter (in_2025 0) (bucket_days february_log))).
Proof.
  assert (C : collection late_env = Some (readable (Some february_log)))
    by reflexivity.
  pose proof february_log_healthy as H.
  assert (O : forall x, utcoffset late_env x = 0) by reflexivity.
  assert (B : - 86400 < 0 < 86400) by (split; reflexivity).
  split; [exact C|]. split; [exact H|]. split; [exact O|]. split; [exact B|].
  exact (loaded_total_is_rows_of_2025 late_env initial_widget _ _ 0 C H O B).
Defined.




(** ** Where a load fails *)

Lemma fromtimestamp_overflow_fails tz t :
  fromtimestamp tz t = Raise localtime_overflow ->
  localtime_fails tz t = true.
Proof.
  intros F.
  destruct (fromtimestamp_cases tz t)
    as [(e & E & [C|(_ & L)])|(o & _ & E & _)]; auto.
  - rewrite E in F. apply Raise_inj in F. subst e. discriminate C.
  - congruence.
Qed.

Lemma load_from_escape env db t rows self c e :
  fault db = None -> revlog db = Some t -> select_revlog db t = Ok rows ->
  review_counts self = [] ->
  process_rows (utcoffset env) rows [] = (c, Some e) ->
  load_from env db self
  = set_stats_label (ErrorMessage (exn_msg e)) (set_review_counts c self).
Proof.
  intros F R S E P. unfold load_from, load_try.
  rewrite !(sql_exec_no_fault db) by auto. rewrite !bindM_lift_Ok, R.
  rewrite bindM_lift_Ok, S, bindM_lift_Ok.
  unfold bindM at 1. rewrite E, P. reflexivity.
Qed.

(** A day before the epoch is not a day of 2025. *)
Lemma early_day_is_not_filed tz x d :
  bounded_offsets tz -> x < 0 -> fromtimestamp tz (x * 86400) = Ok d ->
  String.prefix "2025-" (strftime d) = false.
Proof.
  intros B Hx F.
  destruct (String.prefix "2025-" (strftime d)) eqn:P; auto. exfalso.
  pose proof (fromtimestamp_valid _ _ _ F) as V.
  pose proof (prefix_2025_year d (valid_printable d V) P) as Y.
  destruct (in_2025_after_start d V Y) as (_ & O).
  destruct (fromtimestamp_cases tz (x * 86400))
    as [(e & E & _)|(o & Ho & E & _ & Eo)]; [congruence|].
  rewrite E in F. apply Ok_inj in F. subst d.
  destruct (fromordinal_spec o Ho) as (_ & T). rewrite T in O.
  specialize (B (x * 86400)). unfold EPOCH_ORDINAL in Eo.
  Z.div_mod_to_equations; lia.
Qed.

(** The rows come in ascending order of day: when one before the epoch
    fails in [localtime], the loop is left before anything is filed. *)
Lemma process_rows_abort_empty tz rows :
  bounded_offsets tz ->
  forall d, d < 0 -> localtime_fails tz (d * 86400) = true ->
  StronglySorted Z.lt (map fst rows) -> In d (map fst rows) ->
  process_rows tz rows [] = ([], Some localtime_overflow).
Proof.
  intros B d Hd L.
  induction rows as [|[x c] rows IH]; cbn [map fst In]; intros S Hin;
    [destruct Hin|].
  inversion S as [|? ? S' Hall]; subst.
  assert (Hx : x <= d).
  { destruct Hin as [->|Hin]; [lia|]. rewrite Forall_forall in Hall.
    specialize (Hall _ Hin). lia. }
  cbn [process_rows].
  destruct (localtime_fails tz (x * 86400)) eqn:Lx.
  - rewrite (fromtimestamp_localtime_fails _ _ Lx). reflexivity.
  - assert (Hin' : In d (map fst rows)).
    { destruct Hin as [->|Hin]; [congruence|auto]. }
    assert (Hx0 : x < 0) by lia.
    destruct (fromtimestamp tz (x * 86400)) as [dt|e] eqn:F.
    + cbv zeta. rewrite (early_day_is_not_filed tz x dt B Hx0 F).
      now apply IH.
    + rewrite (fromtimestamp_raises _ _ _ Lx F). now apply IH.
Qed.

(** C6: where the code departs from the claim.  A row whose conversion
    fails in [localtime] is not skipped: for a log in the older layout
    (a [day] column and no [id] column) with a day whose conversion raises
    the [OSError] of [localtime], the load returns with that error's text
    in the statistics label and assigns neither streak, total nor date
    range; when the day is before the epoch, in a zone less than a day
    from UTC, the dictionary is left empty whatever else the log holds.
    And a failure is propagated: when the [Anki2] directory exists and
    its listing fails, the [OSError] leaves the method, which has emptied
    the dictionary and touched nothing else, whether or not a collection
    exists at one of the common paths. *)
Theorem uncaught_failures_of_a_load (env : environment) (self : widget) :
  (forall db t d,
     collection env = Some db -> fault db = None -> revlog db = Some t ->
     mem_string "id" (column_names t) = false ->
     has_column "day" (column_names t) = true ->
     In d (map row_day (table_rows t)) ->
     fromtimestamp (utcoffset env) (d * 86400) = Raise localtime_overflow ->
     snd (load_anki_data_call env self) = None
     /\ stats_label (load_anki_data env self)
        = ErrorMessage "[Errno 75] Value too large for defined data type"
     /\ current_streak (load_anki_data env self) = current_streak self
     /\ longest_streak (load_anki_data env self) = longest_streak self
     /\ total_reviews (load_anki_data env self) = total_reviews self
     /\ date_range_label (load_anki_data env self) = date_range_label self
     /\ (d < 0 -> bounded_offsets (utcoffset env) ->
         review_counts (load_anki_data env self) = []))
  /\ (path_exists (files env) (anki2_dir (files env)) = true ->
      listdir (files env) (anki2_dir (files env)) = None ->
      load_anki_data_call env self
      = (set_review_counts [] self, Some OSError)).
Proof.
  split.
  - intros db t d C F R Ci Cd Hin Fd.
    pose proof (fromtimestamp_overflow_fails _ _ Fd) as L.
    set (rows := group_count (map row_day (table_rows t))).
    assert (S : select_revlog db t = Ok rows).
    { unfold select_revlog. rewrite sql_exec_no_fault by auto. cbn [bind].
      now rewrite Ci, Cd. }
    assert (Hd : In d (map fst rows)) by now apply group_count_days.
    assert (E : snd (process_rows (utcoffset env) rows [])
                = Some localtime_overflow).
    { apply process_rows_escape. apply Exists_exists.
      apply in_map_iff in Hd. destruct Hd as ([d' c] & Ed & Hr).
      cbn [fst] in Ed. subst d'. exists (d, c). split; auto. }
    destruct (process_rows (utcoffset env) rows []) as [c esc] eqn:P.
    cbn [snd] in E. subst esc.
    unfold load_anki_data.
    rewrite (load_anki_data_located env self db C). cbn [fst snd].
    rewrite (load_from_escape env db t rows (set_review_counts [] self) c _
               F R S eq_refl P).
    split; [reflexivity|]. split; [reflexivity|].
    split; [reflexivity|]. split; [reflexivity|].
    split; [reflexivity|]. split; [reflexivity|].
    intros Hneg B. cbn [review_counts set_stats_label set_review_counts].
    destruct (group_count_spec (map row_day (table_rows t))) as (Srt & _).
    fold rows in Srt.
    pose proof (process_rows_abort_empty (utcoffset env) rows B d Hneg L
                  Srt Hd) as A.
    rewrite P in A. congruence.
  - intros E L. unfold load_anki_data_call, find_anki_collection. cbv zeta.
    now rewrite E, L.
Qed.

Lemma uncaught_failures_of_a_load_witness :
  (collection corrupt_env = Some (readable (Some corrupt_log))
   /\ fault (readable (Some corrupt_log)) = None
   /\ revlog (readable (Some corrupt_log)) = Some corrupt_log
   /\ mem_string "id" (column_names corrupt_log) = false
   /\ has_column "day" (column_names corrupt_log) = true
   /\ In (- 10 ^ 12) (map row_day (table_rows corrupt_log))
   /\ fromtimestamp (utcoffset corrupt_env) (- 10 ^ 12 * 86400)
      = Raise localtime_overflow
   /\ snd (load_anki_data_call corrupt_env initial_widget) = None
   /\ stats_label (load_anki_data corrupt_env initial_widget)
      = ErrorMessage "[Errno 75] Value too large for defined data type"
   /\ current_streak (load_anki_data corrupt_env initial_widget)
      = current_streak initial_widget
   /\ longest_streak (load_anki_data corrupt_env initial_widget)
      = longest_streak initial_widget
   /\ total_reviews (load_anki_data corrupt_env initial_widget)
      = total_reviews initial_widget
   /\ date_range_label (load_anki_data corrupt_env initial_widget)
      = date_range_label initial_widget
   /\ (- 10 ^ 12 < 0 -> bounded_offsets (utcoffset corrupt_env) ->
       review_counts (load_anki_data corrupt_env initial_widget) = []))
  /\ path_exists (files unlistable_env) (anki2_dir (files unlistable_env))
     = true
  /\ listdir (files unlistable_env) (anki2_dir (files unlistable_env)) = None
  /\ load_anki_data_call unlistable_env initial_widget
     = (set_review_counts [] initial_widget, Some OSError).
Proof.
  destruct (uncaught_failures_of_a_load corrupt_env initial_widget)
    as (A & _).
  destruct (uncaught_failures_of_a_load unlistable_env initial_widget)
    as (_ & B).
  assert (C : collection corrupt_env = Some (readable (Some corrupt_log)))
    by reflexivity.
  assert (F : fault (readable (Some corrupt_log)) = None) by reflexivity.
  assert (R : revlog (readable (Some corrupt_log)) = Some corrupt_log)
    by reflexivity.
  assert (Ci : mem_string "id" (column_names corrupt_log) = false)
    by reflexivity.
  assert (Cd : has_column "day" (column_names corrupt_log) = true)
    by reflexivity.
  assert (Hin : In (- 10 ^ 12) (map row_day (table_rows corrupt_log)))
    by (left; reflexivity).
  assert (Fd : fromtimestamp (utcoffset corrupt_env) (- 10 ^ 12 * 86400)
               = Raise localtime_overflow) by (vm_compute; reflexivity).
  assert (E : path_exists (files unlistable_env)
                (anki2_dir (files unlistable_env)) = true) by reflexivity.
  assert (L : listdir (files unlistable_env)
                (anki2_dir (files unlistable_env)) = None) by reflexivity.
  split.
  - split; [exact C|]. split; [exact F|]. split; [exact R|].
    split; [exact Ci|]. split; [exact Cd|]. split; [exact Hin|].
    split; [exact Fd|].
    exact (A _ _ _ C F R Ci Cd Hin Fd).
  - split; [exact E|]. split; [exact L|]. exact (B E L).
Defined.

(** What skipping the failing row of [corrupt_log] would have filed, and
    what the load files. *)
Lemma corrupt_log_loses_its_review :
  process_rows (fun _ => 0) [(20145, 1)] [] = ([("2025-02-26"%string, 1)], None)
  /\ review_counts (load_anki_data corrupt_env initial_widget) = []
  /\ stats_label (load_anki_data corrupt_env initial_widget)
     = ErrorMessage "[Errno 75] Value too large for defined data type".
Proof. vm_compute. repeat split. Qed.

(** * More on the grid *)

Lemma max_of_bounds xs : forall x y, In y (x :: xs) -> y <= max_of x xs.
Proof.
  unfold max_of. induction xs as [|z xs IH]; intros x y; cbn [fold_left].
  - intros [->|[]]. lia.
  - intros [->|[->|H]].
    + specialize (IH (Z.max y z) (Z.max y z) ltac:(now left)). lia.
    + specialize (IH (Z.max x y) (Z.max x y) ltac:(now left)). lia.
    + apply (IH (Z.max x z) y). now right.
Qed.

Lemma dict_get_le_max k (d : dict) c :
  dict_get k d = Some c -> c <= max_count d.
Proof.
  intros G. assert (H : In c (values d)).
  { induction d as [|[k' v] d IH]; cbn [dict_get] in G; [discriminate|].
    cbn [values map snd]. destruct (String.eqb k k').
    - left. congruence.
    - right. now apply IH. }
  unfold max_count. destruct (values d) as [|v vs]; [destruct H|].
  now apply max_of_bounds.
Qed.

Lemma cell_color_returns (counts : dict) d :
  cell_color (max_count counts) (count_on counts d)
  = Ok (rgb_of (max_count counts) (count_on counts d)).
Proof.
  unfold rgb_of.
  destruct (cell_color (max_count counts) (count_on counts d)) as [rgb|e] eqn:E;
    [reflexivity|exfalso].
  unfold cell_color, intensity, count_on in E.
  destruct (dict_get (strftime d) counts) as [c|] eqn:G.
  - apply dict_get_le_max in G.
    destruct (Z.ltb_spec 0 c); [|discriminate].
    destruct (Z.eqb_spec (max_count counts) 0); [lia|discriminate].
  - discriminate.
Qed.

Lemma weekday_from_start i :
  (739252 + i + 6) mod 7 = (i + 2) mod 7.
Proof. Z.div_mod_to_equations; lia. Qed.

Lemma draw_cell_painted counts today i :
  valid_date today = true ->
  0 <= i -> 739252 + i <= toordinal today ->
  draw_cell counts (max_count counts) today i
  = Ok (Some (painted counts today i)).
Proof.
  intros V Hi Hle. pose proof (toordinal_range today V) as R.
  unfold draw_cell. cbv zeta.
  rewrite add_days_ok
    by (change (toordinal (mkDate 2025 1 1)) with 739252; lia).
  change (toordinal (mkDate 2025 1 1)) with 739252. cbn [bind].
  set (d := fromordinal (739252 + i)).
  destruct (fromordinal_spec (739252 + i) ltac:(lia)) as (Vd & Od).
  fold d in Vd, Od.
  assert (G : date_gt d today = false).
  { unfold date_gt. rewrite (date_compare_ordinal d today Vd V), Od.
    destruct (Z.compare_spec (739252 + i) (toordinal today)); auto. lia. }
  rewrite G. fold (count_on counts d). rewrite cell_color_returns. cbn [bind].
  unfold painted. cbv zeta. fold d. unfold days_between, weekday.
  change (toordinal (mkDate 2025 1 1)) with 739252.
  rewrite Od, weekday_from_start.
  replace (739252 + i - 739252) with i by lia. reflexivity.
Qed.

Lemma draw_cells_painted counts today idx :
  valid_date today = true ->
  (forall i, In i idx -> 0 <= i /\ 739252 + i <= toordinal today) ->
  draw_cells counts (max_count counts) today idx
  = Ok (map (painted counts today) idx).
Proof.
  intros V. induction idx as [|i idx IH]; intros H; cbn [draw_cells map]; auto.
  destruct (H i ltac:(now left)) as (H0 & H1).
  rewrite draw_cell_painted by auto. cbn [bind].
  rewrite IH by (intros j Hj; apply H; now right). reflexivity.
Qed.

Lemma in_range a b i : In i (range a b) <-> a <= i < b.
Proof.
  unfold range. rewrite in_map_iff. split.
  - intros (n & <- & Hn). apply in_seq in Hn. lia.
  - intros H. exists (Z.to_nat (i - a)). split; [lia|]. apply in_seq. lia.
Qed.

Lemma days_to_show_in_window now :
  valid_date now = true ->
  1 <= Z.min (get_days_in_2025 now) 105 <= 105
  /\ 739252 + Z.min (get_days_in_2025 now) 105 - 1
     <= toordinal (effective_today now).
Proof.
  intros V. pose proof (get_days_in_2025_positive now V) as P.
  rewrite get_days_in_2025_effective in *. unfold days_between in *.
  change (toordinal (mkDate 2025 1 1)) with 739252 in *. lia.
Qed.

(** What [draw_heatmap] returns, for every clock, dictionary and width. *)
Lemma draw_heatmap_cells now counts width :
  valid_date now = true -> 0 <= width ->
  draw_heatmap now counts width
  = if width <? 20 then Raise zero_division
    else Ok (map (painted counts (effective_today now))
               (range 0 (Z.min (get_days_in_2025 now) 105))).
Proof.
  intros V W. destruct (days_to_show_in_window now V) as (D & T).
  unfold draw_heatmap. cbv zeta. rewrite inline_effective_today.
  set (n := Z.min (get_days_in_2025 now) 105) in *.
  assert (Q : 1 <= n / 7 + 1) by (Z.div_mod_to_equations; lia).
  destruct (Z.ltb_spec width 20) as [L|L].
  - replace (Z.min (n / 7 + 1) (width / 20)) with 0; [reflexivity|].
    rewrite (Z.div_small width 20) by lia. lia.
  - assert (1 <= width / 20) by (Z.div_mod_to_equations; lia).
    destruct (Z.eqb_spec (Z.min (n / 7 + 1) (width / 20)) 0); [lia|].
    apply draw_cells_painted; [now apply effective_today_valid|].
    intros i Hi. apply in_range in Hi. lia.
Qed.

Lemma painted_in now counts width cells c :
  valid_date now = true -> 0 <= width ->
  draw_heatmap now counts width = Ok cells -> In c cells ->
  exists i, 0 <= i < Z.min (get_days_in_2025 now) 105
            /\ c = painted counts (effective_today now) i.
Proof.
  intros V W D Hin. rewrite draw_heatmap_cells in D by auto.
  destruct (width <? 20); [discriminate|]. apply Ok_inj in D. subst cells.
  apply in_map_iff in Hin. destruct Hin as (i & <- & Hi).
  apply in_range in Hi. eauto.
Qed.

(** X10: in an area at least 20 pixels wide [draw_heatmap] paints, in
    order and once each, the first n days of 2025, where n is the number of
    days from 1 January to the effective today, at most 105: the window
    starts on 1 January and does not slide.  In a narrower area it raises
    [ZeroDivisionError]. *)
Theorem draw_heatmap_paints_the_first_days (now : date) (counts : dict)
    (width : Z) :
  valid_date now = true -> 0 <= width ->
  let n := Z.min (get_days_in_2025 now) 105 in
  (width < 20 -> draw_heatmap now counts width = Raise zero_division)
  /\ (20 <= width ->
      exists cells,
        draw_heatmap now counts width = Ok cells
        /\ map cell_date cells
           = map (fun i => fromordinal (739252 + i)) (range 0 n)
        /\ Z.of_nat (List.length cells) = n
        /\ 1 <= n <= 105).
Proof.
  intros V W n. rewrite draw_heatmap_cells by auto.
  destruct (days_to_show_in_window now V) as (D & _). fold n in D.
  split; intros H.
  - now replace (width <? 20) with true by (symmetry; apply Z.ltb_lt; lia).
  - replace (width <? 20) with false by (symmetry; apply Z.ltb_ge; lia).
    eexists. split; [reflexivity|]. fold n. split; [|split; auto].
    + rewrite map_map. reflexivity.
    + rewrite length_map. unfold range. rewrite length_map, length_seq. lia.
Qed.

Lemma draw_heatmap_paints_the_first_days_witness :
  valid_date (mkDate 2025 2 26) = true /\ 0 <= 380
  /\ let n := Z.min (get_days_in_2025 (mkDate 2025 2 26)) 105 in
     (380 < 20 ->
      draw_heatmap (mkDate 2025 2 26) scenario_counts 380
      = Raise zero_division)
     /\ (20 <= 380 ->
         exists cells,
           draw_heatmap (mkDate 2025 2 26) scenario_counts 380 = Ok cells
           /\ map cell_date cells
              = map (fun i => fromordinal (739252 + i)) (range 0 n)
           /\ Z.of_nat (List.length cells) = n
           /\ 1 <= n <= 105).
Proof.
  split; [reflexivity|]. split; [discriminate|].
  apply (draw_heatmap_paints_the_first_days (mkDate 2025 2 26)
           scenario_counts 380).
  - reflexivity.
  - discriminate.
Defined.

Lemma painted_fields counts today i :
  0 <= i -> 739252 + i <= MAXORDINAL ->
  let c := painted counts today i in
  valid_date (cell_date c) = true
  /\ toordinal (cell_date c) = 739252 + i
  /\ cell_row c = weekday (cell_date c)
  /\ cell_col c = days_between (cell_date c) (mkDate 2025 1 1) / 7.
Proof.
  intros Hi Hm. cbv zeta. unfold painted. cbn [cell_date cell_row cell_col].
  destruct (fromordinal_spec (739252 + i) ltac:(lia)) as (V & O).
  unfold weekday, days_between. rewrite O, weekday_from_start.
  change (toordinal (mkDate 2025 1 1)) with 739252.
  replace (739252 + i - 739252) with i by lia. auto.
Qed.

(** X11: the layout of the painted cells.  A cell's row is the weekday of
    its day, from 0 to 6, its column is the number of whole weeks since
    1 January, from 0 to 14, its colour is the colour of the day's count,
    and no two painted days share a cell. *)
Theorem painted_cells_layout (now : date) (counts : dict) (width : Z)
    (cells : list cell) :
  valid_date now = true -> 0 <= width ->
  draw_heatmap now counts width = Ok cells ->
  (forall c, In c cells ->
     valid_date (cell_date c) = true
     /\ cell_row c = weekday (cell_date c) /\ 0 <= cell_row c <= 6
     /\ cell_col c = days_between (cell_date c) (mkDate 2025 1 1) / 7
     /\ 0 <= cell_col c <= 14
     /\ cell_color (max_count counts) (count_on counts (cell_date c))
        = Ok (cell_rgb c))
  /\ (forall c1 c2, In c1 cells -> In c2 cells ->
        cell_row c1 = cell_row c2 -> cell_col c1 = cell_col c2 -> c1 = c2).
Proof.
  intros V W D. split.
  - intros c Hc.
    destruct (painted_in now counts width cells c V W D Hc) as (i & Hi & ->).
    destruct (painted_fields counts (effective_today now) i) as (Vd & O & R & C);
      try (unfold MAXORDINAL; lia).
    repeat split; auto.
    + cbn [painted cell_row]. apply Z.mod_pos_bound. lia.
    + cbn [painted cell_row].
      assert (0 <= (i + 2) mod 7 < 7) by (apply Z.mod_pos_bound; lia). lia.
    + cbn [painted cell_col]. apply Z.div_pos; lia.
    + cbn [painted cell_col]. Z.div_mod_to_equations; lia.
    + cbn [painted cell_rgb cell_date]. apply cell_color_returns.
  - intros c1 c2 H1 H2.
    destruct (painted_in now counts width cells c1 V W D H1) as (i & Hi & ->).
    destruct (painted_in now counts width cells c2 V W D H2) as (j & Hj & ->).
    cbn [painted cell_row cell_col]. intros R C.
    assert (i = j) by (Z.div_mod_to_equations; lia). now subst.
Qed.

Lemma painted_cells_layout_witness :
  let cells := match draw_heatmap (mkDate 2025 2 26) scenario_counts 380 with
               | Ok cells => cells
               | Raise _ => []
               end in
  valid_date (mkDate 2025 2 26) = true /\ 0 <= 380
  /\ draw_heatmap (mkDate 2025 2 26) scenario_counts 380 = Ok cells
  /\ (forall c, In c cells ->
        valid_date (cell_date c) = true
        /\ cell_row c = weekday (cell_date c) /\ 0 <= cell_row c <= 6
        /\ cell_col c = days_between (cell_date c) (mkDate 2025 1 1) / 7
        /\ 0 <= cell_col c <= 14
        /\ cell_color (max_count scenario_counts)
             (count_on scenario_counts (cell_date c))
           = Ok (cell_rgb c))
  /\ (forall c1 c2, In c1 cells -> In c2 cells ->
        cell_row c1 = cell_row c2 -> cell_col c1 = cell_col c2 -> c1 = c2).
Proof.
  intros cells.
  assert (V : valid_date (mkDate 2025 2 26) = true) by reflexivity.
  assert (W : 0 <= 380) by discriminate.
  assert (D : draw_heatmap (mkDate 2025 2 26) scenario_counts 380 = Ok cells)
    by (vm_compute; reflexivity).
  repeat (split; [assumption|]).
  exact (painted_cells_layout (mkDate 2025 2 26) scenario_counts 380 cells
           V W D).
Defined.

Lemma date_eqb_eq a b :
  valid_date a = true -> valid_date b = true ->
  date_eqb a b = true <-> a = b.
Proof.
  intros Va Vb. unfold date_eqb. rewrite (date_compare_ordinal a b Va Vb).
  split.
  - destruct (Z.compare_spec (toordinal a) (toordinal b)); try discriminate.
    intros _. now apply toordinal_inj.
  - intros ->. now rewrite Z.compare_refl.
Qed.

(** X12: the outline of today.  A painted cell is outlined exactly when
    its day is the effective today, and some cell is outlined exactly when
    the effective today is among the first 105 days of 2025: from
    16 April 2025 on, nothing is outlined and today is not painted. *)
Theorem today_is_outlined_within_105_days (now : date) (counts : dict)
    (width : Z) (cells : list cell) :
  valid_date now = true -> 0 <= width ->
  draw_heatmap now counts width = Ok cells ->
  (forall c, In c cells ->
     (cell_today c = true <-> cell_date c = effective_today now))
  /\ ((exists c, In c cells /\ cell_today c = true)
      <-> get_days_in_2025 now <= 105).
Proof.
  intros V W D. pose proof (effective_today_valid now V) as Ve.
  assert (P : forall c, In c cells ->
            (cell_today c = true <-> cell_date c = effective_today now)).
  { intros c Hc.
    destruct (painted_in now counts width cells c V W D Hc) as (i & Hi & ->).
    destruct (painted_fields counts (effective_today now) i) as (Vd & _);
      try (unfold MAXORDINAL; lia).
    cbn [painted cell_today cell_date] in *. now apply date_eqb_eq. }
  split; [exact P|].
  pose proof (get_days_in_2025_positive now V) as Pos.
  pose proof D as D'. rewrite draw_heatmap_cells in D' by auto.
  destruct (width <? 20); [discriminate|]. apply Ok_inj in D'.
  split.
  - intros (c & Hc & T). apply P in T; auto.
    destruct (painted_in now counts width cells c V W D Hc) as (i & Hi & ->).
    destruct (painted_fields counts (effective_today now) i) as (_ & O & _);
      try (unfold MAXORDINAL; lia).
    cbv zeta in O. rewrite T in O.
    rewrite get_days_in_2025_effective in *. unfold days_between in *.
    change (toordinal (mkDate 2025 1 1)) with 739252 in *. lia.
  - intros L.
    set (i := get_days_in_2025 now - 1).
    exists (painted counts (effective_today now) i).
    assert (Hin : In (painted counts (effective_today now) i) cells).
    { subst cells. apply in_map. apply in_range. unfold i. lia. }
    split; auto. apply P; auto.
    cbn [painted cell_date]. unfold i.
    rewrite get_days_in_2025_effective. unfold days_between.
    change (toordinal (mkDate 2025 1 1)) with 739252.
    replace (739252 + (toordinal (effective_today now) - 739252 + 1 - 1))
      with (toordinal (effective_today now)) by lia.
    now apply fromordinal_toordinal.
Qed.

Lemma today_is_outlined_within_105_days_witness :
  let cells := match draw_heatmap (mkDate 2025 6 1) [] 380 with
               | Ok cells => cells
               | Raise _ => []
               end in
  valid_date (mkDate 2025 6 1) = true /\ 0 <= 380
  /\ draw_heatmap (mkDate 2025 6 1) [] 380 = Ok cells
  /\ (forall c, In c cells ->
        (cell_today c = true
         <-> cell_date c = effective_today (mkDate 2025 6 1)))
  /\ ((exists c, In c cells /\ cell_today c = true)
      <-> get_days_in_2025 (mkDate 2025 6 1) <= 105).
Proof.
  intros cells.
  assert (V : valid_date (mkDate 2025 6 1) = true) by reflexivity.
  assert (W : 0 <= 380) by discriminate.
  assert (D : draw_heatmap (mkDate 2025 6 1) [] 380 = Ok cells)
    by (vm_compute; reflexivity).
  repeat (split; [assumption|]).
  exact (today_is_outlined_within_105_days (mkDate 2025 6 1) [] 380 cells
           V W D).
Defined.

(** X13: the colour of a day never fails.  For the count the renderer
    looks up for any day, against the maximum of the same dictionary,
    [cell_color] returns, the intensity lies between 0 and 1, and a day
    whose positive count is the maximum is at intensity 1. *)
Theorem cell_color_of_a_day (counts : dict) (d : date) :
  let c := count_on counts d in
  exists i rgb,
    intensity (max_count counts) c = Ok i
    /\ cell_color (max_count counts) c = Ok rgb
    /\ (0 <= i)%Q /\ (i <= 1)%Q
    /\ (0 < c -> c = max_count counts -> (i == 1)%Q)
    /\ (c <= 0 -> rgb = NEUTRAL).
Proof.
  intros c.
  assert (M : 0 < c -> c <= max_count counts).
  { unfold c, count_on. destruct (dict_get (strftime d) counts) eqn:G; [|lia].
    intros _. eapply dict_get_le_max; eauto. }
  unfold cell_color, intensity.
  destruct (Z.ltb_spec 0 c) as [P|P].
  - specialize (M P).
    destruct (Z.eqb_spec (max_count counts) 0) as [E|N]; [lia|].
    cbn [bind]. do 2 eexists. split; [reflexivity|]. split; [reflexivity|].
    assert (Pos : (0 <= inject_Z c / inject_Z (max_count counts))%Q).
    { apply Qle_shift_div_l.
      - change 0%Q with (inject_Z 0). rewrite <- Zlt_Qlt. lia.
      - rewrite Qmult_0_l. change 0%Q with (inject_Z 0).
        rewrite <- Zle_Qle. lia. }
    repeat split.
    + apply Q.min_glb; [discriminate|exact Pos].
    + apply Q.le_min_l.
    + intros _ E. rewrite <- E.
      assert (One : (inject_Z c / inject_Z c == 1)%Q).
      { apply Qmult_inv_r. intros Z0. unfold Qeq in Z0. cbn in Z0. lia. }
      rewrite One. reflexivity.
    + lia.
  - cbn [bind]. do 2 eexists. split; [reflexivity|]. split; [reflexivity|].
    repeat split; try discriminate; try lia.
Qed.

(** ** The tooltip's date *)

Lemma on_heatmap_motion_some now width col row d :
  valid_date now = true ->
  on_heatmap_motion now width col row = Ok (Some d) ->
  motion_cols now width <> 0 /\ col < motion_cols now width /\ row < 7
  /\ valid_date d = true
  /\ toordinal d = 739252 + ((motion_cols now width - 1 - col) * 7 + row)
  /\ toordinal d <= toordinal (effective_today now).
Proof.
  intros V. unfold on_heatmap_motion. cbv zeta.
  rewrite inline_effective_today. fold (motion_cols now width).
  set (cols := motion_cols now width).
  destruct (Z.eqb_spec cols 0) as [E|N]; [discriminate|].
  destruct (Z.leb_spec cols col) as [L|L]; cbn [orb]; [discriminate|].
  destruct (Z.leb_spec 7 row) as [L'|L']; [discriminate|].
  destruct (add_days (mkDate 2025 1 1) ((cols - 1 - col) * 7 + row))
    as [cd|e] eqn:A; cbn [bind]; [|discriminate].
  apply add_days_spec in A. destruct A as (Vd & Od).
  change (toordinal (mkDate 2025 1 1)) with 739252 in Od.
  destruct (date_gt cd (effective_today now)) eqn:G; [discriminate|].
  intros H. apply Ok_inj in H. assert (cd = d) by congruence. subst cd.
  repeat split; auto.
  unfold date_gt in G.
  rewrite (date_compare_ordinal d _ Vd (effective_today_valid now V)) in G.
  destruct (Z.compare_spec (toordinal d) (toordinal (effective_today now)));
    try discriminate; lia.
Qed.

Lemma motion_cols_bounds now width :
  valid_date now = true -> 0 <= width -> 0 <= motion_cols now width <= 15.
Proof.
  intros V W. destruct (days_to_show_in_window now V) as (D & _).
  unfold motion_cols. Z.div_mod_to_equations; lia.
Qed.

(** X14: when hovering raises.  [on_heatmap_motion] raises
    [ZeroDivisionError], whatever the cell, exactly when fewer than seven
    days of 2025 have elapsed at the effective today (1 to 6 January 2025)
    or the area is under 20 pixels wide. *)
Theorem hovering_raises_in_the_first_week (now : date) (width col row : Z) :
  valid_date now = true -> 0 <= width ->
  (on_heatmap_motion now width col row = Raise zero_division
   <-> get_days_in_2025 now < 7 \/ width < 20).
Proof.
  intros V W. destruct (days_to_show_in_window now V) as (D & _).
  pose proof (get_days_in_2025_positive now V) as P.
  unfold on_heatmap_motion. cbv zeta. fold (motion_cols now width).
  assert (C : motion_cols now width = 0
              <-> get_days_in_2025 now < 7 \/ width < 20).
  { unfold motion_cols. split; intros H; Z.div_mod_to_equations; lia. }
  destruct (Z.eqb_spec (motion_cols now width) 0) as [E|N].
  - split; auto. intros _. now apply C.
  - split; [|intros H; apply C in H; contradiction].
    destruct (orb _ _); [discriminate|].
    unfold add_days. destruct (andb _ _); cbn [bind].
    + destruct (date_gt _ _); discriminate.
    + discriminate.
Qed.

Lemma hovering_raises_in_the_first_week_witness :
  valid_date (mkDate 2025 1 6) = true /\ 0 <= 380
  /\ (on_heatmap_motion (mkDate 2025 1 6) 380 0 0 = Raise zero_division
      <-> get_days_in_2025 (mkDate 2025 1 6) < 7 \/ 380 < 20).
Proof.
  split; [reflexivity|]. split; [discriminate|].
  apply (hovering_raises_in_the_first_week (mkDate 2025 1 6) 380 0 0).
  - reflexivity.
  - discriminate.
Defined.

(** X15: the tooltip's date is inside the window.  For a cell with
    nonnegative column and row, a date [on_heatmap_motion] answers is a
    valid date from 1 January 2025 on, not after the effective today and
    not after the 105th day of the year. *)
Theorem tooltip_date_is_in_the_window (now : date) (width col row : Z)
    (d : date) :
  valid_date now = true -> 0 <= width -> 0 <= col -> 0 <= row ->
  on_heatmap_motion now width col row = Ok (Some d) ->
  valid_date d = true
  /\ toordinal (mkDate 2025 1 1) <= toordinal d
  /\ toordinal d <= toordinal (effective_today now)
  /\ toordinal d <= toordinal (mkDate 2025 1 1) + 104.
Proof.
  intros V W Hc Hr H.
  destruct (on_heatmap_motion_some now width col row d V H)
    as (N & Lc & Lr & Vd & O & T).
  pose proof (motion_cols_bounds now width V W) as B.
  change (toordinal (mkDate 2025 1 1)) with 739252.
  repeat split; auto; lia.
Qed.

Lemma tooltip_date_is_in_the_window_witness :
  valid_date (mkDate 2025 2 26) = true /\ 0 <= 380 /\ 0 <= 0 /\ 0 <= 2
  /\ on_heatmap_motion (mkDate 2025 2 26) 380 0 2
     = Ok (Some (mkDate 2025 2 21))
  /\ valid_date (mkDate 2025 2 21) = true
  /\ toordinal (mkDate 2025 1 1) <= toordinal (mkDate 2025 2 21)
  /\ toordinal (mkDate 2025 2 21) <= toordinal (effective_today (mkDate 2025 2 26))
  /\ toordinal (mkDate 2025 2 21) <= toordinal (mkDate 2025 1 1) + 104.
Proof.
  assert (V : valid_date (mkDate 2025 2 26) = true) by reflexivity.
  assert (W : 0 <= 380) by discriminate.
  assert (C : 0 <= 0) by discriminate.
  assert (R : 0 <= 2) by discriminate.
  assert (H : on_heatmap_motion (mkDate 2025 2 26) 380 0 2
              = Ok (Some (mkDate 2025 2 21))) by reflexivity.
  split; [exact V|]. split; [exact W|]. split; [exact C|].
  split; [exact R|]. split; [exact H|].
  exact (tooltip_date_is_in_the_window (mkDate 2025 2 26) 380 0 2 _
           V W C R H).
Defined.

(** X16: no painted cell gets its own date in the tooltip.  For every cell
    [draw_heatmap] paints, [on_heatmap_motion] at that cell's column and row
    answers something other than the cell's day, at every clock and
    width. *)
Theorem no_cell_is_named_by_its_tooltip (now : date) (counts : dict)
    (width : Z) (cells : list cell) (c : cell) :
  valid_date now = true -> 0 <= width ->
  draw_heatmap now counts width = Ok cells -> In c cells ->
  on_heatmap_motion now width (cell_col c) (cell_row c)
  <> Ok (Some (cell_date c)).
Proof.
  intros V W D Hc H.
  destruct (painted_in now counts width cells c V W D Hc) as (i & Hi & ->).
  destruct (on_heatmap_motion_some now width _ _ _ V H)
    as (_ & _ & _ & _ & O & _).
  destruct (painted_fields counts (effective_today now) i) as (_ & O' & _);
    try (unfold MAXORDINAL; lia).
  cbv zeta in O'. rewrite O' in O. cbn [painted cell_col cell_row] in O.
  Z.div_mod_to_equations; lia.
Qed.

Lemma no_cell_is_named_by_its_tooltip_witness :
  let cells := match draw_heatmap (mkDate 2025 2 26) [] 380 with
               | Ok cells => cells
               | Raise _ => []
               end in
  let c := painted [] (mkDate 2025 2 26) 56 in
  valid_date (mkDate 2025 2 26) = true /\ 0 <= 380
  /\ draw_heatmap (mkDate 2025 2 26) [] 380 = Ok cells /\ In c cells
  /\ on_heatmap_motion (mkDate 2025 2 26) 380 (cell_col c) (cell_row c)
     <> Ok (Some (cell_date c)).
Proof.
  intros cells c.
  assert (V : valid_date (mkDate 2025 2 26) = true) by reflexivity.
  assert (W : 0 <= 380) by discriminate.
  assert (D : draw_heatmap (mkDate 2025 2 26) [] 380 = Ok cells)
    by (vm_compute; reflexivity).
  assert (I : In c cells).
  { unfold cells. rewrite draw_heatmap_cells by auto.
    change (380 <? 20) with false. cbv iota.
    apply in_map. apply in_range. vm_compute. split; [discriminate|reflexivity]. }
  repeat (split; [assumption|]).
  exact (no_cell_is_named_by_its_tooltip (mkDate 2025 2 26) [] 380 cells c
           V W D I).
Defined.

(** * The pointer handlers *)

Lemma hide_tooltip_ok s : tooltip_ok s -> tooltip_ok (hide_tooltip s).
Proof.
  unfold tooltip_ok, hide_tooltip. intros (C & H).
  destruct (tooltip_window s) eqn:T; cbn; [|rewrite T; auto].
  split; [lia|auto].
Qed.

Lemma hide_tooltip_clears s :
  tooltip_window (hide_tooltip s) = None.
Proof.
  unfold hide_tooltip. destruct (tooltip_window s) eqn:T; auto.
Qed.

Lemma show_tooltip_ok event date_str count s :
  popups_created s
  = (popups_destroyed s
     + match tooltip_window s with Some _ => 1 | None => 0 end)%nat ->
  tooltip_ok (show_tooltip event date_str count s).
Proof.
  unfold tooltip_ok, show_tooltip, hide_tooltip. intros C.
  destruct (tooltip_window s) eqn:T; cbn;
    destruct (window_position s); cbn; rewrite ?T; split;
    try discriminate; lia.
Qed.

Lemma hover_cell_ok event counts d s :
  tooltip_ok s -> tooltip_ok (hover_cell event counts d s).
Proof.
  intros (C & H). unfold hover_cell. cbv zeta.
  destruct (orb _ _); [|split; auto].
  apply show_tooltip_ok. exact C.
Qed.

Lemma handle_ok i s : tooltip_ok s -> tooltip_ok (handle i s).
Proof.
  intros K. destruct i as [e|e|e|now counts width height e|]; cbn [handle].
  - unfold on_press. destruct (ev_button e =? 1); auto.
    apply hide_tooltip_ok. exact K.
  - exact K.
  - unfold on_motion. destruct (dragging s); auto.
    destruct (window_position s). exact K.
  - unfold heatmap_motion. cbv zeta.
    repeat match goal with
           | |- tooltip_ok (fst (if ?b then _ else _)) => destruct b
           end; cbn [fst]; auto using hide_tooltip_ok.
    destruct (on_heatmap_motion _ _ _ _) as [[d|]|ex]; cbn [fst];
      auto using hide_tooltip_ok, hover_cell_ok.
  - now apply hide_tooltip_ok.
Qed.

Lemma run_ok inputs : forall s, tooltip_ok s -> tooltip_ok (run inputs s).
Proof.
  unfold run. induction inputs as [|i inputs IH]; intros s K; cbn [fold_left];
    auto using handle_ok.
Qed.

(** X17: the tooltip is never leaked.  After any sequence of presses,
    releases, motions, motions over the heatmap and leaves, at most one
    popup window is alive, and it is the one [tooltip_window] holds; when
    there is none the hover cache is empty. *)
Theorem at_most_one_tooltip_is_alive (inputs : list pointer_input)
    (pos : Z * Z) :
  let s := run inputs (initial_pointer pos) in
  live_popups s = match tooltip_window s with Some _ => 1%nat | None => 0%nat end
  /\ (popups_destroyed s <= popups_created s)%nat
  /\ (tooltip_window s = None -> hover_date s = None /\ hover_count s = None).
Proof.
  intros s.
  assert (K : tooltip_ok s).
  { apply run_ok. split; [reflexivity|auto]. }
  destruct K as (C & H). unfold live_popups.
  destruct (tooltip_window s); (split; [lia|]); (split; [lia|]); auto.
Qed.

Lemma hover_cell_replaces event counts d s t :
  tooltip_window s = Some t ->
  (hover_date s <> Some (strftime_long d)
   \/ hover_count s <> Some (count_on counts d)) ->
  let s' := hover_cell event counts d s in
  tooltip_window s' <> None
  /\ hover_date s' = None /\ hover_count s' = None
  /\ popups_created s' = S (popups_created s)
  /\ popups_destroyed s' = S (popups_destroyed s).
Proof.
  intros T D. cbv zeta. unfold hover_cell. cbv zeta. fold (count_on counts d).
  assert (B : negb (option_string_eqb (hover_date s) (strftime_long d))
              || negb (option_Z_eqb (hover_count s) (count_on counts d))
              = true).
  { apply orb_true_iff. destruct D as [D|D]; [left|right];
      apply negb_true_iff.
    - unfold option_string_eqb. destruct (hover_date s) as [x|]; auto.
      apply String.eqb_neq. congruence.
    - unfold option_Z_eqb. destruct (hover_count s) as [x|]; auto.
      apply Z.eqb_neq. congruence. }
  rewrite B. unfold show_tooltip, hide_tooltip. cbn. rewrite T. cbn.
  destruct (window_position s). cbn. repeat split. discriminate.
Qed.

Lemma hover_cells_replace event counts cells : forall s0,
  tooltip_window s0 <> None -> hover_date s0 = None ->
  let s1 := fold_left (fun a c => hover_cell event counts c a) cells s0 in
  popups_created s1 = (popups_created s0 + List.length cells)%nat
  /\ tooltip_window s1 <> None /\ hover_date s1 = None.
Proof.
  induction cells as [|c cells IH]; intros s0 T Hd;
    cbn [fold_left List.length].
  - repeat split; auto.
  - destruct (tooltip_window s0) as [t|] eqn:E; [|contradiction].
    destruct (hover_cell_replaces event counts c s0 t E)
      as (T1 & Hd1 & _ & C1 & _).
    { left. rewrite Hd. discriminate. }
    destruct (IH _ T1 Hd1) as (C2 & T2 & Hd2).
    repeat split; auto. rewrite C2, C1. lia.
Qed.

(** X18: the hover cache does not survive a change of cell.  When a
    tooltip is shown and the pointer comes over a cell whose date or count
    differs from the cached ones, the handler replaces the popup and
    leaves the cache empty, because [show_tooltip] begins by hiding the old
    popup, which clears the cache just written.  From then on every motion
    over a dated cell, even the same one, destroys and creates a popup:
    n such motions create n popups. *)
Theorem hover_cache_is_lost_on_cell_change (event : pointer_event)
    (counts : dict) (d : date) (s : pointer_state) (t : tooltip) :
  tooltip_window s = Some t ->
  (hover_date s <> Some (strftime_long d)
   \/ hover_count s <> Some (count_on counts d)) ->
  let s' := hover_cell event counts d s in
  tooltip_window s' <> None
  /\ hover_date s' = None /\ hover_count s' = None
  /\ popups_created s' = S (popups_created s)
  /\ forall cells : list date,
       let s'' := fold_left (fun a c => hover_cell event counts c a) cells s' in
       popups_created s'' = (popups_created s' + List.length cells)%nat
       /\ tooltip_window s'' <> None /\ hover_date s'' = None.
Proof.
  intros T D.
  destruct (hover_cell_replaces event counts d s t T D)
    as (T' & Hd & Hc & Cr & _).
  cbv zeta. repeat (split; [assumption|]).
  intros cells. now apply hover_cells_replace.
Qed.

Lemma hover_cache_is_lost_on_cell_change_witness :
  let e := mkEvent 30 40 0 in
  let s := hover_cell e scenario_counts (mkDate 2025 1 1)
             (initial_pointer (0, 0)) in
  exists t,
    tooltip_window s = Some t
    /\ (hover_date s <> Some (strftime_long (mkDate 2025 1 2))
        \/ hover_count s <> Some (count_on scenario_counts (mkDate 2025 1 2)))
    /\ let s' := hover_cell e scenario_counts (mkDate 2025 1 2) s in
       tooltip_window s' <> None
       /\ hover_date s' = None /\ hover_count s' = None
       /\ popups_created s' = S (popups_created s)
       /\ forall cells : list date,
            let s'' :=
              fold_left (fun a c => hover_cell e scenario_counts c a) cells s'
            in
            popups_created s'' = (popups_created s' + List.length cells)%nat
            /\ tooltip_window s'' <> None /\ hover_date s'' = None.
Proof.
  intros e s.
  exists (mkTooltip "Wednesday, Jan 01, 2025" (CountReviews 3 true) 40 60).
  assert (T : tooltip_window s
              = Some (mkTooltip "Wednesday, Jan 01, 2025"
                        (CountReviews 3 true) 40 60))
    by (vm_compute; reflexivity).
  assert (D : hover_date s <> Some (strftime_long (mkDate 2025 1 2))
              \/ hover_count s
                 <> Some (count_on scenario_counts (mkDate 2025 1 2)))
    by (left; vm_compute; discriminate).
  split; [exact T|]. split; [exact D|].
  exact (hover_cache_is_lost_on_cell_change e scenario_counts
           (mkDate 2025 1 2) s _ T D).
Defined.

Lemma run_keeps_position inputs : forall s,
  dragging s = false ->
  forallb (fun i => negb (is_left_press i)) inputs = true ->
  window_position (run inputs s) = window_position s
  /\ dragging (run inputs s) = false.
Proof.
  unfold run. induction inputs as [|i inputs IH]; intros s Dr H;
    cbn [fold_left]; auto.
  cbn [forallb] in H. apply andb_prop in H. destruct H as (Hi & H).
  assert (K : window_position (handle i s) = window_position s
              /\ dragging (handle i s) = false).
  { destruct i as [e|e|e|now counts width height e|]; cbn [handle].
    - cbn [is_left_press] in Hi. apply negb_true_iff in Hi.
      unfold on_press. rewrite Hi. auto.
    - auto.
    - unfold on_motion. rewrite Dr. auto.
    - unfold heatmap_motion. cbv zeta.
      assert (Hh : window_position (hide_tooltip s) = window_position s
                   /\ dragging (hide_tooltip s) = false)
        by (unfold hide_tooltip; destruct (tooltip_window s); auto).
      repeat match goal with
             | |- context [fst (if ?b then _ else _)] => destruct b
             end; cbn [fst]; auto.
      destruct (on_heatmap_motion _ _ _ _) as [[d|]|e']; cbn [fst]; auto.
      unfold hover_cell. cbv zeta. destruct (orb _ _); auto.
      unfold show_tooltip, hide_tooltip. cbn.
      destruct (tooltip_window s); cbn; destruct (window_position s); auto.
    - unfold on_heatmap_leave, hide_tooltip.
      destruct (tooltip_window s); auto. }
  destruct K as (Kp & Kd). destruct (IH _ Kd H) as (P & D).
  split; [congruence|auto].
Qed.

(** X19: only a drag moves the window.  A sequence of pointer events
    without a press of button 1 leaves the window where it was and starts
    no drag, whatever else it does to the tooltip. *)
Theorem window_moves_only_in_a_drag (inputs : list pointer_input)
    (pos : Z * Z) :
  forallb (fun i => negb (is_left_press i)) inputs = true ->
  window_position (run inputs (initial_pointer pos)) = pos
  /\ dragging (run inputs (initial_pointer pos)) = false.
Proof.
  intros H. apply (run_keeps_position inputs (initial_pointer pos)); auto.
Qed.

Lemma window_moves_only_in_a_drag_witness :
  let inputs := [Motion (mkEvent 5 5 0); Press (mkEvent 1 1 3);
                 Motion (mkEvent 9 9 0); HeatmapLeave] in
  forallb (fun i => negb (is_left_press i)) inputs = true
  /\ window_position (run inputs (initial_pointer (100, 200))) = (100, 200)
  /\ dragging (run inputs (initial_pointer (100, 200))) = false.
Proof.
  intros inputs.
  assert (H : forallb (fun i => negb (is_left_press i)) inputs = true)
    by reflexivity.
  split; [exact H|].
  exact (window_moves_only_in_a_drag inputs (100, 200) H).
Defined.

(** ** From the pointer's pixel to the tooltip *)

Lemma py_int_nonneg q : (0 <= q)%Q -> 0 <= py_int q.
Proof.
  intros H. unfold py_int.
  destruct (Qle_bool 0 q) eqn:E.
  - change 0 with (Qfloor 0). now apply Qfloor_resp_le.
  - apply Qle_bool_iff in H. congruence.
Qed.

Lemma Qdiv_nonneg (a b : Q) : (0 <= a)%Q -> (0 < b)%Q -> (0 <= a / b)%Q.
Proof.
  intros A B. unfold Qdiv. apply Qmult_le_0_compat; auto.
  apply Qlt_le_weak. now apply Qinv_lt_0_compat.
Qed.

Lemma cell_size_pos (a n : Z) :
  0 <= a -> 0 < n ->
  Qeq_bool (Qmin 18 (inject_Z a / inject_Z n)) 0 = false ->
  (0 < Qmin 18 (inject_Z a / inject_Z n))%Q.
Proof.
  intros A N E.
  assert (P : (0 <= Qmin 18 (inject_Z a / inject_Z n))%Q).
  { apply Q.min_glb; [discriminate|].
    apply Qdiv_nonneg.
    - change 0%Q with (inject_Z 0). now rewrite <- Zle_Qle.
    - change 0%Q with (inject_Z 0). now rewrite <- Zlt_Qlt. }
  apply Qle_lteq in P. destruct P as [P|P]; auto.
  symmetry in P. apply Qeq_bool_iff in P. congruence.
Qed.

Lemma offset_nonneg (x p c : Q) :
  Qle_bool p x = true -> (0 < c)%Q -> 0 <= py_int ((x - p) / c).
Proof.
  intros L C. apply py_int_nonneg. apply Qdiv_nonneg; auto.
  apply Qle_bool_iff in L. unfold Qminus. 
  apply (Qplus_le_l _ _ p). ring_simplify. exact L.
Qed.

(** X20: whatever pixel the pointer is over, a tooltip the heatmap's motion
    handler creates names a valid day from 1 January 2025 up to the
    effective today, within the first 105 days of the year, and shows the
    number of reviews recorded for that day. *)
Theorem pointer_tooltip_is_a_day_of_the_window (now : date) (counts : dict)
    (width height : Z) (event : pointer_event) (s : pointer_state) :
  valid_date now = true -> 0 <= width -> 0 <= height ->
  let s' := fst (heatmap_motion now counts width height event s) in
  popups_created s' <> popups_created s ->
  exists d t,
    tooltip_window s' = Some t
    /\ tip_date t = strftime_long d
    /\ tip_count t
       = (if 0 <? count_on counts d
          then CountReviews (count_on counts d) (1 <? count_on counts d)
          else CountNone)
    /\ valid_date d = true
    /\ toordinal (mkDate 2025 1 1) <= toordinal d
    /\ toordinal d <= toordinal (effective_today now)
    /\ toordinal d <= toordinal (mkDate 2025 1 1) + 104.
Proof.
  intros V W Hh. cbv zeta. unfold heatmap_motion. cbv zeta.
  fold (motion_cols now width).
  pose proof (motion_cols_bounds now width V W) as B.
  assert (Hide : popups_created (hide_tooltip s) = popups_created s)
    by (unfold hide_tooltip; destruct (tooltip_window s); auto).
  destruct (Z.eqb_spec (motion_cols now width) 0) as [E|N];
    [cbn [fst]; congruence|].
  set (cw := Qmin 18 (inject_Z width / inject_Z (motion_cols now width))).
  set (ch := Qmin 18 (inject_Z height / inject_Z 7)).
  destruct (Qle_bool _ (ev_x event)) eqn:X1; cbn [negb orb];
    [|cbn [fst]; congruence].
  destruct (Qle_bool (ev_x event) _) eqn:X2; cbn [negb];
    [|cbn [fst]; congruence].
  destruct (Qle_bool _ (ev_y event)) eqn:Y1; cbn [negb orb];
    [|cbn [fst]; congruence].
  destruct (Qle_bool (ev_y event) _) eqn:Y2; cbn [negb];
    [|cbn [fst]; congruence].
  destruct (Qeq_bool cw 0) eqn:Zw; cbn [orb]; [cbn [fst]; congruence|].
  destruct (Qeq_bool ch 0) eqn:Zh; [cbn [fst]; congruence|].
  assert (Pw : (0 < cw)%Q) by (apply cell_size_pos; auto; lia).
  assert (Ph : (0 < ch)%Q) by (apply cell_size_pos; auto; lia).
  pose proof (offset_nonneg _ _ _ X1 Pw) as Hc.
  pose proof (offset_nonneg _ _ _ Y1 Ph) as Hr.
  destruct (on_heatmap_motion now width _ _) as [[d|]|ex] eqn:M; cbn [fst];
    try congruence.
  destruct (on_heatmap_motion_some _ _ _ _ _ V M)
    as (_ & Lc & Lr & Vd & O & T).
  unfold hover_cell. cbv zeta. fold (count_on counts d).
  destruct (orb _ _); [|congruence].
  intros _. unfold show_tooltip. cbv zeta.
  destruct (window_position (hide_tooltip _)) as [x y].
  eexists d, _. cbn [tooltip_window tip_date tip_count].
  split; [reflexivity|]. split; [reflexivity|]. split; [reflexivity|].
  change (toordinal (mkDate 2025 1 1)) with 739252.
  repeat split; auto; lia.
Qed.

Lemma pointer_tooltip_is_a_day_of_the_window_witness :
  let now := mkDate 2025 2 26 in
  let event := mkEvent 120 50 0 in
  let s := initial_pointer (0, 0) in
  let s' := fst (heatmap_motion now scenario_counts 380 150 event s) in
  valid_date now = true /\ 0 <= 380 /\ 0 <= 150
  /\ popups_created s' <> popups_created s
  /\ exists d t,
       tooltip_window s' = Some t
       /\ tip_date t = strftime_long d
       /\ tip_count t
          = (if 0 <? count_on scenario_counts d
             then CountReviews (count_on scenario_counts d)
                    (1 <? count_on scenario_counts d)
             else CountNone)
       /\ valid_date d = true
       /\ toordinal (mkDate 2025 1 1) <= toordinal d
       /\ toordinal d <= toordinal (effective_today now)
       /\ toordinal d <= toordinal (mkDate 2025 1 1) + 104.
Proof.
  intros now event s s'.
  assert (V : valid_date now = true) by reflexivity.
  assert (W : 0 <= 380) by discriminate.
  assert (Hh : 0 <= 150) by discriminate.
  assert (P : popups_created s' <> popups_created s)
    by (vm_compute; discriminate).
  split; [exact V|]. split; [exact W|]. split; [exact Hh|].
  split; [exact P|].
  exact (pointer_tooltip_is_a_day_of_the_window now scenario_counts 380 150
           event s V W Hh P).
Defined.

(** * The collection locator *)

Lemma find_first {A} (f : A -> bool) (l : list A) :
  match find f l with
  | Some x => exists before after,
                l = before ++ x :: after /\ f x = true
                /\ forall y, In y before -> f y = false
  | None => forall y, In y l -> f y = false
  end.
Proof.
  induction l as [|a l IH]; cbn [find]; [intros y []|].
  destruct (f a) eqn:E.
  - exists [], l. repeat split; auto. intros y [].
  - destruct (find f l) as [x|].
    + destruct IH as (b & c & -> & Fx & Hb).
      exists (a :: b), c. repeat split; auto.
      intros y [<-|H]; auto.
    + intros y [<-|H]; auto.
Qed.

Lemma candidate_paths fs p :
  candidate fs p <->
  In p (common_paths fs
        ++ (if path_exists fs (anki2_dir fs)
            then match listdir fs (anki2_dir fs) with
                 | Some names => profile_paths fs names
                 | None => []
                 end
            else [])).
Proof.
  unfold candidate. rewrite in_app_iff. split.
  - intros [H|(E & names & n & L & I & D & ->)]; [now left|right].
    rewrite E, L. unfold profile_paths.
    apply in_map_iff. exists n. split; auto.
    apply filter_In. auto.
  - intros [H|H]; [now left|right].
    destruct (path_exists fs (anki2_dir fs)); [|destruct H].
    destruct (listdir fs (anki2_dir fs)) as [names|]; [|destruct H].
    split; auto. unfold profile_paths in H.
    apply in_map_iff in H. destruct H as (n & <- & F).
    apply filter_In in F. destruct F as (I & D).
    exists names, n. auto.
Qed.

(** X21: what the locator answers.  When [find_anki_collection] returns a
    path, the path exists and is a candidate (one of the three common
    paths, or [collection.anki2] in a directory listed under [Anki2]), and
    it returns the first common path that exists if there is one; when it
    returns [None], no candidate exists. *)
Theorem find_anki_collection_answers_an_existing_candidate
    (fs : filesystem) (r : option string) :
  find_anki_collection fs = Done r ->
  match r with
  | Some p =>
      path_exists fs p = true /\ candidate fs p
      /\ (forall q, In q (common_paths fs) -> path_exists fs q = true ->
          find (path_exists fs) (common_paths fs) = Some p)
  | None => forall q, candidate fs q -> path_exists fs q = false
  end.
Proof.
  unfold find_anki_collection. cbv zeta. intros H.
  set (extra := if path_exists fs (anki2_dir fs)
                then match listdir fs (anki2_dir fs) with
                     | Some names => profile_paths fs names
                     | None => []
                     end
                else []).
  assert (F : find (path_exists fs) (common_paths fs ++ extra) = r).
  { unfold extra. destruct (path_exists fs (anki2_dir fs)).
    - destruct (listdir fs (anki2_dir fs)); [congruence|discriminate].
    - rewrite app_nil_r. congruence. }
  pose proof (find_first (path_exists fs) (common_paths fs ++ extra)) as S.
  rewrite F in S. destruct r as [p|].
  - destruct S as (b & a & E & X & Hb).
    split; [exact X|]. split.
    + apply candidate_paths. fold extra. rewrite E.
      apply in_or_app. right. now left.
    + intros q Q Xq.
      pose proof (find_first (path_exists fs) (common_paths fs)) as S'.
      destruct (find (path_exists fs) (common_paths fs)) as [p'|] eqn:F'.
      * destruct S' as (b' & a' & E' & X' & Hb').
        rewrite E' in F. rewrite <- app_assoc in F. cbn [app] in F.
        assert (G : forall l, find (path_exists fs) (b' ++ p' :: l) = Some p').
        { clear - X' Hb'. induction b' as [|y b' IH]; intros l; cbn.
          - now rewrite X'.
          - rewrite (Hb' y) by now left. apply IH.
            intros z Hz. apply Hb'. now right. }
        rewrite G in F. exact F.
      * rewrite (S' q Q) in Xq. discriminate.
  - intros q C. apply candidate_paths in C. fold extra in C. auto.
Qed.

Lemma find_anki_collection_answers_an_existing_candidate_witness :
  let p := "/home/u/.local/share/Anki2/Bob/collection.anki2"%string in
  find_anki_collection profiles_home = Done (Some p)
  /\ path_exists profiles_home p = true /\ candidate profiles_home p
  /\ (forall q, In q (common_paths profiles_home) ->
      path_exists profiles_home q = true ->
      find (path_exists profiles_home) (common_paths profiles_home) = Some p).
Proof.
  intros p.
  assert (H : find_anki_collection profiles_home = Done (Some p))
    by reflexivity.
  split; [exact H|].
  exact (find_anki_collection_answers_an_existing_candidate
           profiles_home (Some p) H).
Defined.

(** * The geometry of the drawing *)

Lemma layout_facts cols width height g :
  0 < cols -> 0 <= width ->
  layout cols width height = Ok g ->
  (0 <= cell_width g)%Q
  /\ (2 * h_padding g == inject_Z width - cell_width g * inject_Z cols)%Q.
Proof.
  intros C W. unfold layout. cbv zeta.
  destruct (Z.eqb_spec cols 0) as [E|N]; [lia|].
  intros H. apply Ok_inj in H. subst g. cbn [cell_width h_padding].
  split.
  - apply Q.min_glb; [discriminate|].
    apply Qdiv_nonneg.
    + change 0%Q with (inject_Z 0). now rewrite <- Zle_Qle.
    + change 0%Q with (inject_Z 0). now rewrite <- Zlt_Qlt.
  - field.
Qed.

Lemma inside_grid (w cw hp cols col : Q) :
  (2 * hp == w - cw * cols)%Q -> (0 <= cw)%Q -> (0 <= col)%Q ->
  (col + 1 <= cols)%Q ->
  (hp <= hp + col * cw)%Q /\ (hp + col * cw + cw <= w - hp)%Q.
Proof.
  intros E C0 C1 C2.
  assert (P1 : (0 <= col * cw)%Q) by now apply Qmult_le_0_compat.
  assert (P2 : (0 <= (cols - (col + 1)) * cw)%Q).
  { apply Qmult_le_0_compat; auto. lra. }
  split; [lra|].
  assert (X : ((cols - (col + 1)) * cw == cols * cw - col * cw - cw)%Q) by ring.
  assert (Y : (cw * cols == cols * cw)%Q) by ring.
  lra.
Qed.

Lemma beyond_grid (w cw hp cols col : Q) :
  (2 * hp == w - cw * cols)%Q -> (0 <= cw)%Q -> (cols <= col)%Q ->
  (w - hp <= hp + col * cw)%Q.
Proof.
  intros E C0 C1.
  assert (P : (0 <= (col - cols) * cw)%Q).
  { apply Qmult_le_0_compat; auto. lra. }
  assert (X : ((col - cols) * cw == col * cw - cols * cw)%Q) by ring.
  assert (Y : (cw * cols == cols * cw)%Q) by ring.
  lra.
Qed.

Lemma draw_cols_bounds now width :
  valid_date now = true -> 20 <= width ->
  1 <= draw_cols now width <= 16.
Proof.
  intros V W. destruct (days_to_show_in_window now V) as (D & _).
  unfold draw_cols. cbv zeta. Z.div_mod_to_equations; lia.
Qed.

(** X23: where the cells fall in a narrow area.  A painted cell whose
    column is below the number of columns the drawing centres lies between
    the two horizontal paddings; a cell in a later column starts at or
    beyond the right padding, outside the centred grid.  Such cells exist
    exactly when the area has fewer 20-pixel columns than the window has
    weeks. *)
Theorem cells_beyond_the_centred_grid (now : date) (counts : dict)
    (width height : Z) (g : geometry) (cells : list cell) :
  valid_date now = true -> 20 <= width ->
  layout (draw_cols now width) width height = Ok g ->
  draw_heatmap now counts width = Ok cells ->
  (forall c, In c cells ->
     let x := rect_left (cell_rect g c) in
     (cell_col c < draw_cols now width ->
      (h_padding g <= x)%Q
      /\ (x + cell_width g <= inject_Z width - h_padding g)%Q)
     /\ (draw_cols now width <= cell_col c ->
         (inject_Z width - h_padding g <= x)%Q))
  /\ ((exists c, In c cells /\ draw_cols now width <= cell_col c)
      <-> width / 20 <= (Z.min (get_days_in_2025 now) 105 - 1) / 7).
Proof.
  intros V W L D.
  pose proof (draw_cols_bounds now width V W) as B.
  assert (W0 : 0 <= width) by lia.
  assert (B0 : 0 < draw_cols now width) by lia.
  destruct (layout_facts _ _ _ _ B0 W0 L) as (C0 & E).
  destruct (days_to_show_in_window now V) as (Dn & _).
  split.
  - intros c Hc. cbv zeta.
    destruct (painted_in now counts width cells c V W0 D Hc) as (i & Hi & ->).
    unfold cell_rect, rect_left. cbn [fst painted cell_col].
    assert (Ci : (0 <= inject_Z (i / 7))%Q).
    { change 0%Q with (inject_Z 0). rewrite <- Zle_Qle.
      Z.div_mod_to_equations; lia. }
    split; intros K.
    + apply (inside_grid _ _ _ (inject_Z (draw_cols now width))); auto.
      change 1%Q with (inject_Z 1). rewrite <- inject_Z_plus, <- Zle_Qle. lia.
    + apply (beyond_grid _ _ _ (inject_Z (draw_cols now width))); auto.
      now rewrite <- Zle_Qle.
  - rewrite draw_heatmap_cells in D by auto.
    destruct (Z.ltb_spec width 20) as [?|_]; [lia|].
    apply Ok_inj in D. subst cells.
    set (n := Z.min (get_days_in_2025 now) 105) in *.
    split.
    + intros (c & Hc & K). apply in_map_iff in Hc.
      destruct Hc as (i & <- & Hi). apply in_range in Hi.
      cbn [painted cell_col] in K. unfold draw_cols in K. cbv zeta in K.
      fold n in K. Z.div_mod_to_equations; lia.
    + intros K. exists (painted counts (effective_today now) (n - 1)).
      split.
      * apply in_map. apply in_range. lia.
      * cbn [painted cell_col]. unfold draw_cols. cbv zeta. fold n.
        Z.div_mod_to_equations; lia.
Qed.

Lemma cells_beyond_the_centred_grid_witness :
  let now := mkDate 2025 2 26 in
  let g := match layout (draw_cols now 100) 100 150 with
           | Ok g => g
           | Raise _ => mkGeometry 0 0 0 0
           end in
  let cells := match draw_heatmap now [] 100 with
               | Ok cells => cells
               | Raise _ => []
               end in
  valid_date now = true /\ 20 <= 100
  /\ layout (draw_cols now 100) 100 150 = Ok g
  /\ draw_heatmap now [] 100 = Ok cells
  /\ (forall c, In c cells ->
        let x := rect_left (cell_rect g c) in
        (cell_col c < draw_cols now 100 ->
         (h_padding g <= x)%Q
         /\ (x + cell_width g <= inject_Z 100 - h_padding g)%Q)
        /\ (draw_cols now 100 <= cell_col c ->
            (inject_Z 100 - h_padding g <= x)%Q))
  /\ ((exists c, In c cells /\ draw_cols now 100 <= cell_col c)
      <-> 100 / 20 <= (Z.min (get_days_in_2025 now) 105 - 1) / 7).
Proof.
  intros now g cells.
  assert (V : valid_date now = true) by reflexivity.
  assert (W : 20 <= 100) by discriminate.
  assert (L : layout (draw_cols now 100) 100 150 = Ok g).
  { vm_compute. reflexivity. }
  assert (D : draw_heatmap now [] 100 = Ok cells)
    by (vm_compute; reflexivity).
  split; [exact V|]. split; [exact W|]. split; [exact L|].
  split; [exact D|].
  exact (cells_beyond_the_centred_grid now [] 100 150 g cells V W L D).
Defined.

(** * The labels of the drawing *)

Lemma abbr_changes lo cur :
  1 <= lo <= 12 ->
  cur = None \/ cur = Some (month_abbr (lo - 1)) ->
  option_string_eqb cur (month_abbr lo) = false.
Proof.
  intros H [->| ->]; [reflexivity|].
  assert (C : lo = 1 \/ lo = 2 \/ lo = 3 \/ lo = 4 \/ lo = 5 \/ lo = 6
              \/ lo = 7 \/ lo = 8 \/ lo = 9 \/ lo = 10 \/ lo = 11 \/ lo = 12)
    by lia.
  repeat (destruct C as [->|C]; [reflexivity|]). subst lo. reflexivity.
Qed.

Lemma month_loop_spec today cols g (k : nat) : forall lo cur,
  year today = 2025 ->
  lo = 13 - Z.of_nat k -> 1 <= lo ->
  cur = None \/ cur = Some (month_abbr (lo - 1)) ->
  forall l,
    In l (month_loop today cols g (range lo 13) cur)
    <-> exists m,
          lo <= m <= 12 /\ m <= month today
          /\ 0 <= month_start m / 7 < cols
          /\ l = mkMonthLabel (month_start m / 7)
                   (h_padding g + inject_Z (month_start m / 7) * cell_width g)
                   (v_padding g - 5) (month_abbr m ++ " '25").
Proof.
  induction k as [|k IH]; intros lo cur Y E Lo Cur l.
  - replace lo with 13 by lia. change (range 13 13) with (@nil Z).
    cbn [month_loop In]. split; [intros []|]. intros (m & H & _). lia.
  - rewrite range_cons by lia. cbn [month_loop]. cbv zeta.
    rewrite Y, Z.eqb_refl, andb_true_r.
    destruct (Z.ltb_spec (month today) lo) as [Lt|Ge].
    + cbn [In]. split; [intros []|]. intros (m & H & H' & _). lia.
    + rewrite (abbr_changes lo cur) by (auto; lia). cbn [negb].
      fold (month_start lo).
      assert (R : forall l,
                 In l (month_loop today cols g (range (lo + 1) 13)
                         (Some (month_abbr lo)))
                 <-> exists m,
                       lo + 1 <= m <= 12 /\ m <= month today
                       /\ 0 <= month_start m / 7 < cols
                       /\ l = mkMonthLabel (month_start m / 7)
                                (h_padding g
                                 + inject_Z (month_start m / 7) * cell_width g)
                                (v_padding g - 5) (month_abbr m ++ " '25")).
      { apply IH; auto; try lia. right. f_equal. f_equal. lia. }
      destruct (Z.leb_spec 0 (month_start lo / 7)) as [P|P];
        [destruct (Z.ltb_spec (month_start lo / 7) cols) as [Q|Q]|];
        cbn [andb In]; rewrite R; split.
      * intros [<-|(m & H1 & H2 & H3 & H4)].
        -- exists lo. repeat split; auto; lia.
        -- exists m. repeat split; auto; lia.
      * intros (m & H1 & H2 & H3 & H4).
        destruct (Z.eq_dec m lo) as [->|N]; [left; now symmetry|right].
        exists m. repeat split; auto; lia.
      * intros (m & H1 & H2 & H3 & H4). exists m. repeat split; auto; lia.
      * intros (m & H1 & H2 & H3 & H4).
        destruct (Z.eq_dec m lo) as [->|N]; [lia|].
        exists m. repeat split; auto; lia.
      * intros (m & H1 & H2 & H3 & H4). exists m. repeat split; auto; lia.
      * intros (m & H1 & H2 & H3 & H4).
        destruct (Z.eq_dec m lo) as [->|N]; [lia|].
        exists m. repeat split; auto; lia.
Qed.

Lemma month_start_cases m :
  1 <= m <= 12 ->
  (m = 1 /\ month_start m = 0) \/ (m = 2 /\ month_start m = 31)
  \/ (m = 3 /\ month_start m = 59) \/ (m = 4 /\ month_start m = 90)
  \/ (5 <= m /\ 120 <= month_start m).
Proof.
  intros H.
  assert (C : m = 1 \/ m = 2 \/ m = 3 \/ m = 4 \/ m = 5 \/ m = 6
              \/ m = 7 \/ m = 8 \/ m = 9 \/ m = 10 \/ m = 11 \/ m = 12)
    by lia.
  destruct C as [->|[->|[->|[->|C]]]];
    [now left|right; now left|right; right; now left
    |right; right; right; now left|].
  right; right; right; right.
  repeat (destruct C as [->|C]; [split; [lia|discriminate]|]).
  subst m. split; [lia|discriminate].
Qed.

Lemma first_of_month_le today m :
  valid_date today = true -> year today = 2025 -> 1 <= m <= month today ->
  toordinal (mkDate 2025 m 1) <= toordinal today.
Proof.
  intros V Y M.
  pose proof (valid_date_fields today V) as (_ & Hm & Hd).
  assert (V1 : valid_date (mkDate 2025 m 1) = true).
  { assert (C : m = 1 \/ m = 2 \/ m = 3 \/ m = 4 \/ m = 5 \/ m = 6
                \/ m = 7 \/ m = 8 \/ m = 9 \/ m = 10 \/ m = 11 \/ m = 12)
      by lia.
    repeat (destruct C as [->|C]; [reflexivity|]). subst m. reflexivity. }
  pose proof (date_compare_ordinal (mkDate 2025 m 1) today V1 V) as C.
  set (o1 := toordinal (mkDate 2025 m 1)) in *. clearbody o1.
  unfold date_compare in C. cbn [year month day] in C. rewrite Y in C.
  change (2025 ?= 2025) with Eq in C.
  destruct (Z.compare_spec m (month today)) as [E|L|G]; try lia.
  - destruct (Z.compare_spec 1 (day today)) as [E1|L1|G1]; try lia;
      symmetry in C.
    + apply Z.compare_eq in C. rewrite C. apply Z.le_refl.
    + apply Z.compare_lt_iff in C. now apply Z.lt_le_incl.
  - symmetry in C. apply Z.compare_lt_iff in C. now apply Z.lt_le_incl.
Qed.

(** X24: the month labels.  The labels [draw_heatmap] draws are exactly
    those of the months from January to April that have begun at the
    effective today and whose first day falls in a week below
    [width // 20]; from May on a month gets no label.  Each label stands
    above the column of the painted cell of the first day of its month,
    at that cell's left edge. *)
Theorem month_labels_stand_over_the_first_of_the_month (now : date)
    (counts : dict) (width height : Z) (g : geometry)
    (labels : list month_label) (cells : list cell) :
  valid_date now = true -> 20 <= width ->
  layout (draw_cols now width) width height = Ok g ->
  draw_month_labels now width height = Ok labels ->
  draw_heatmap now counts width = Ok cells ->
  (forall l,
     In l labels
     <-> exists m,
           1 <= m <= 4 /\ m <= month (effective_today now)
           /\ month_start m / 7 < width / 20
           /\ l = mkMonthLabel (month_start m / 7)
                    (h_padding g + inject_Z (month_start m / 7) * cell_width g)
                    (v_padding g - 5) (month_abbr m ++ " '25"))
  /\ (forall l,
        In l labels ->
        exists m c,
          label_text l = (month_abbr m ++ " '25")%string
          /\ In c cells /\ cell_date c = mkDate 2025 m 1
          /\ cell_col c = label_week l
          /\ label_x l = rect_left (cell_rect g c)).
Proof.
  intros V W L M D.
  assert (W0 : 0 <= width) by lia.
  pose proof (effective_today_valid now V) as Vt.
  pose proof (effective_today_year now) as Yt.
  destruct (days_to_show_in_window now V) as (Dn & _).
  unfold draw_month_labels in M. rewrite L in M. cbn [bind] in M.
  rewrite inline_effective_today in M. apply Ok_inj in M.
  assert (S : forall l,
             In l labels
             <-> exists m,
                   1 <= m <= 4 /\ m <= month (effective_today now)
                   /\ month_start m / 7 < width / 20
                   /\ l = mkMonthLabel (month_start m / 7)
                            (h_padding g
                             + inject_Z (month_start m / 7) * cell_width g)
                            (v_padding g - 5) (month_abbr m ++ " '25")).
  { intros l. rewrite <- M.
    rewrite (month_loop_spec (effective_today now) (draw_cols now width) g
               12 1 None Yt eq_refl ltac:(lia) (or_introl eq_refl) l).
    split; intros (m & H1 & H2 & H3 & H4); exists m.
    - assert (Hm : 1 <= m <= 12) by lia.
      destruct (month_start_cases m Hm) as [(->&E)|[(->&E)|[(->&E)|[(->&E)|(G&E)]]]];
        unfold draw_cols in H3; cbv zeta in H3;
        repeat split; auto; try lia;
        Z.div_mod_to_equations; lia.
    - assert (Hm : 1 <= m <= 12) by lia.
      pose proof (first_of_month_le _ m Vt Yt ltac:(lia)) as F.
      pose proof (get_days_in_2025_effective now) as Ge.
      unfold days_between in Ge.
      change (toordinal (mkDate 2025 1 1)) with 739252 in Ge.
      assert (Ms : month_start m = toordinal (mkDate 2025 m 1) - 739252)
        by reflexivity.
      destruct (month_start_cases m Hm) as [(->&E)|[(->&E)|[(->&E)|[(->&E)|(G&E)]]]];
        unfold draw_cols; cbv zeta;
        repeat split; auto; try lia;
        Z.div_mod_to_equations; lia. }
  split; [exact S|].
  intros l Hl. apply S in Hl. destruct Hl as (m & H1 & H2 & H3 & ->).
  exists m, (painted counts (effective_today now) (month_start m)).
  cbn [label_text label_week label_x].
  pose proof (first_of_month_le _ m Vt Yt ltac:(lia)) as F.
  pose proof (get_days_in_2025_effective now) as Ge.
  unfold days_between in Ge.
  change (toordinal (mkDate 2025 1 1)) with 739252 in Ge.
  assert (Ms : month_start m = toordinal (mkDate 2025 m 1) - 739252)
    by reflexivity.
  rewrite draw_heatmap_cells in D by auto.
  destruct (Z.ltb_spec width 20) as [?|_]; [lia|].
  apply Ok_inj in D. subst cells.
  assert (C : m = 1 \/ m = 2 \/ m = 3 \/ m = 4) by lia.
  split; [reflexivity|]. split.
  - apply in_map. apply in_range.
    destruct (month_start_cases m ltac:(lia))
      as [(->&E)|[(->&E)|[(->&E)|[(->&E)|(G&E)]]]]; lia.
  - split; [|split; reflexivity].
    destruct C as [->|[->|[->| ->]]]; reflexivity.
Qed.

Lemma month_labels_stand_over_the_first_of_the_month_witness :
  let now := mkDate 2025 2 26 in
  let g := match layout (draw_cols now 380) 380 150 with
           | Ok g => g
           | Raise _ => mkGeometry 0 0 0 0
           end in
  let labels := match draw_month_labels now 380 150 with
                | Ok labels => labels
                | Raise _ => []
                end in
  let cells := match draw_heatmap now [] 380 with
               | Ok cells => cells
               | Raise _ => []
               end in
  valid_date now = true /\ 20 <= 380
  /\ layout (draw_cols now 380) 380 150 = Ok g
  /\ draw_month_labels now 380 150 = Ok labels
  /\ draw_heatmap now [] 380 = Ok cells
  /\ (forall l,
        In l labels
        <-> exists m,
              1 <= m <= 4 /\ m <= month (effective_today now)
              /\ month_start m / 7 < 380 / 20
              /\ l = mkMonthLabel (month_start m / 7)
                       (h_padding g
                        + inject_Z (month_start m / 7) * cell_width g)
                       (v_padding g - 5) (month_abbr m ++ " '25"))
  /\ (forall l,
        In l labels ->
        exists m c,
          label_text l = (month_abbr m ++ " '25")%string
          /\ In c cells /\ cell_date c = mkDate 2025 m 1
          /\ cell_col c = label_week l
          /\ label_x l = rect_left (cell_rect g c)).
Proof.
  intros now g labels cells.
  assert (V : valid_date now = true) by reflexivity.
  assert (W : 20 <= 380) by discriminate.
  assert (L : layout (draw_cols now 380) 380 150 = Ok g)
    by (vm_compute; reflexivity).
  assert (M : draw_month_labels now 380 150 = Ok labels)
    by (vm_compute; reflexivity).
  assert (D : draw_heatmap now [] 380 = Ok cells)
    by (vm_compute; reflexivity).
  split; [exact V|]. split; [exact W|]. split; [exact L|].
  split; [exact M|]. split; [exact D|].
  exact (month_labels_stand_over_the_first_of_the_month now [] 380 150 g
           labels cells V W L M D).
Defined.

(** X25: the weekday labels.  A label [draw_heatmap] draws at the left
    (Mon, Wed, Fri, Sun) carries the first three letters of the weekday of
    every painted cell in its row, and its baseline is 12 pixels under
    the top of those cells. *)
Theorem day_labels_name_their_rows (now : date) (counts : dict)
    (width height : Z) (g : geometry)
    (labels : list (Z * Q * Q * string)) (cells : list cell) :
  valid_date now = true -> 20 <= width ->
  layout (draw_cols now width) width height = Ok g ->
  draw_day_labels now width height = Ok labels ->
  draw_heatmap now counts width = Ok cells ->
  forall c row x y text,
    In c cells -> In (row, x, y, text) labels -> cell_row c = row ->
    text = substring 0 3 (day_name (weekday (cell_date c)))
    /\ y = (rect_top (cell_rect g c) + 12)%Q.
Proof.
  intros V W L M D c row x y text Hc Hl R.
  assert (W0 : 0 <= width) by lia.
  destruct (days_to_show_in_window now V) as (Dn & _).
  destruct (painted_in now counts width cells c V W0 D Hc) as (i & Hi & ->).
  destruct (painted_fields counts (effective_today now) i) as (_ & _ & Rw & _);
    try (unfold MAXORDINAL; lia).
  cbv zeta in Rw. rewrite <- Rw, R.
  unfold draw_day_labels in M. rewrite L in M. cbn [bind] in M.
  apply Ok_inj in M. subst labels.
  unfold cell_rect, rect_top. cbn [fst snd]. rewrite R.
  cbn [day_labels map In] in Hl.
  destruct Hl as [H|[H|[H|[H|[]]]]]; inversion H; subst; split; reflexivity.
Qed.

Lemma day_labels_name_their_rows_witness :
  let now := mkDate 2025 2 26 in
  let g := match layout (draw_cols now 380) 380 150 with
           | Ok g => g
           | Raise _ => mkGeometry 0 0 0 0
           end in
  let labels := match draw_day_labels now 380 150 with
                | Ok labels => labels
                | Raise _ => []
                end in
  let cells := match draw_heatmap now [] 380 with
               | Ok cells => cells
               | Raise _ => []
               end in
  let c := painted [] now 5 in
  valid_date now = true /\ 20 <= 380
  /\ layout (draw_cols now 380) 380 150 = Ok g
  /\ draw_day_labels now 380 150 = Ok labels
  /\ draw_heatmap now [] 380 = Ok cells
  /\ In c cells
  /\ In (0, (h_padding g - 22)%Q,
         (v_padding g + inject_Z 0 * cell_height g + 12)%Q, "Mon"%string)
        labels
  /\ cell_row c = 0
  /\ "Mon"%string = substring 0 3 (day_name (weekday (cell_date c)))
  /\ (v_padding g + inject_Z 0 * cell_height g + 12
      = rect_top (cell_rect g c) + 12)%Q.
Proof.
  intros now g labels cells c.
  assert (V : valid_date now = true) by reflexivity.
  assert (W : 20 <= 380) by discriminate.
  assert (L : layout (draw_cols now 380) 380 150 = Ok g)
    by (vm_compute; reflexivity).
  assert (M : draw_day_labels now 380 150 = Ok labels)
    by (vm_compute; reflexivity).
  assert (D : draw_heatmap now [] 380 = Ok cells)
    by (vm_compute; reflexivity).
  assert (Hc : In c cells).
  { vm_compute. do 5 right. left. reflexivity. }
  assert (Hl : In (0, (h_padding g - 22)%Q,
                   (v_padding g + inject_Z 0 * cell_height g + 12)%Q,
                   "Mon"%string) labels).
  { left. reflexivity. }
  assert (R : cell_row c = 0) by reflexivity.
  split; [exact V|]. split; [exact W|]. split; [exact L|].
  split; [exact M|]. split; [exact D|]. split; [exact Hc|].
  split; [exact Hl|]. split; [exact R|].
  exact (day_labels_name_their_rows now [] 380 150 g labels cells V W L M D
           c 0 _ _ _ Hc Hl R).
Defined.
